(** * DevNum: a shallow embedding of [src/devnum.py]

    DevNum is a family of fixed-precision decimal floating-point formats.
    A number is a signed integer mantissa with a decimal exponent and a
    reference to its format; every operation normalises its raw result with
    [pack].  This file embeds the normaliser, the arithmetic engine, the order
    encoder and the square root, and states the properties of the
    specification over that embedding.

    Python integers are unbounded, so they are [Z].  Python raises exceptions;
    they are values of [exn] carried by the [pyres] monad.  The one place the
    source leaves the integers is the true division [/] in [unpack]: its
    value is a binary64 float, modelled with the Standard Library's
    [spec_float]. *)

From Stdlib Require Import ZArith Zbitwise Lia Bool Ascii String List.
From Stdlib Require Import Floats.SpecFloat.

Local Open Scope Z_scope.

(* ===================================================================== *)
(** * Exceptions and results *)

Inductive exn : Type :=
| IndexError
| AttributeError
| OverflowError
| ZeroDivisionError.

Inductive pyres (A : Type) : Type :=
| Ok (a : A)
| Raise (e : exn).

Arguments Ok {A} a.
Arguments Raise {A} e.

Definition bind {A B : Type} (c : pyres A) (k : A -> pyres B) : pyres B :=
  match c with
  | Ok a => k a
  | Raise e => Raise e
  end.

Notation "x <- c ;; k" := (bind c (fun x => k))
  (at level 61, c at next level, right associativity).
Notation "' pat <- c ;; k" := (bind c (fun x => match x with pat => k end))
  (at level 61, pat pattern, c at next level, right associativity).

(* ===================================================================== *)
(** * Python numbers *)

(** A value that flows into [pack] is an [int], or a [float] when it came
    through the true division of [unpack]. *)
Inductive pynum : Type :=
| PyInt (z : Z)
| PyFloat (f : spec_float).

Module Float64.

Definition prec : Z := 53.
Definition emax : Z := 1024.

(** An integer as an exact, not yet rounded, binary number. *)
Definition exact (z : Z) : spec_float :=
  match z with
  | Z0 => S754_zero false
  | Zpos p => S754_finite false p 0
  | Zneg p => S754_finite true p 0
  end.

(** [float(z)]: round to nearest even; too large a magnitude raises. *)
Definition of_int (z : Z) : pyres spec_float :=
  match binary_normalize prec emax z 0 false with
  | S754_infinity _ => Raise OverflowError
  | f => Ok f
  end.

(** [a / b] on two ints: the correctly rounded quotient. *)
Definition truediv (a b : Z) : pyres spec_float :=
  if b =? 0 then Raise ZeroDivisionError
  else
    match SFdiv prec emax (exact a) (exact b) with
    | S754_infinity _ => Raise OverflowError
    | f => Ok f
    end.

Definition add (f g : spec_float) : spec_float := SFadd prec emax f g.
Definition sub (f g : spec_float) : spec_float := SFsub prec emax f g.

End Float64.

(** [a / b] for two ints *)
Definition py_truediv (a b : Z) : pyres pynum :=
  f <- Float64.truediv a b ;; Ok (PyFloat f).

(** [x + y]: an int operand is converted when the other one is a float. *)
Definition py_add (x y : pynum) : pyres pynum :=
  match x, y with
  | PyInt a, PyInt b => Ok (PyInt (a + b))
  | PyInt a, PyFloat g => f <- Float64.of_int a ;; Ok (PyFloat (Float64.add f g))
  | PyFloat f, PyInt b => g <- Float64.of_int b ;; Ok (PyFloat (Float64.add f g))
  | PyFloat f, PyFloat g => Ok (PyFloat (Float64.add f g))
  end.

(** [x - y] *)
Definition py_sub (x y : pynum) : pyres pynum :=
  match x, y with
  | PyInt a, PyInt b => Ok (PyInt (a - b))
  | PyInt a, PyFloat g => f <- Float64.of_int a ;; Ok (PyFloat (Float64.sub f g))
  | PyFloat f, PyInt b => g <- Float64.of_int b ;; Ok (PyFloat (Float64.sub f g))
  | PyFloat f, PyFloat g => Ok (PyFloat (Float64.sub f g))
  end.

(** [a // b] on ints: [Z.div] floors like Python does. *)
Definition py_floordiv (a b : Z) : pyres Z :=
  if b =? 0 then Raise ZeroDivisionError else Ok (a / b).

(** [n.bit_length()] of a non-negative int *)
Definition bit_length (n : Z) : Z :=
  if n =? 0 then 0 else Z.log2 (Z.abs n) + 1.

(* ===================================================================== *)
(** * The power table *)

Definition MAX_DIGITS : Z := 1000.

(** Number of entries of [P] and of [MIDPOINTS] *)
Definition TABLE_LEN : Z := MAX_DIGITS * 3.

(** Indexing a Python list of [len] entries whose [k]-th entry is [entry k]:
    indices in [-len, 0) count from the end, anything else outside [0, len)
    raises [IndexError].  The two tables are never written after the module
    is loaded, so each is given by its entries. *)
Definition list_index (len : Z) (entry : Z -> Z) (i : Z) : pyres Z :=
  if (0 <=? i) && (i <? len) then Ok (entry i)
  else if (- len <=? i) && (i <? 0) then Ok (entry (i + len))
  else Raise IndexError.

(** [P = [10 ** i for i in range(MAX_DIGITS * 3)]] *)
Definition P_entry (i : Z) : Z := 10 ^ i.
Definition P (i : Z) : pyres Z := list_index TABLE_LEN P_entry i.

(** [MIDPOINTS = [(P[i] // 2) - 1 for ...]], then [MIDPOINTS[0] = 1] *)
Definition MIDPOINTS_entry (i : Z) : Z :=
  if i =? 0 then 1 else P_entry i / 2 - 1.
Definition MIDPOINTS (i : Z) : pyres Z := list_index TABLE_LEN MIDPOINTS_entry i.

(** [_log10(n)]: the number of decimal digits of [abs(n)].  A float has no
    [bit_length], so the call raises [AttributeError] on it. *)
Definition _log10 (n : pynum) : pyres Z :=
  match n with
  | PyFloat _ => Raise AttributeError
  | PyInt n =>
      let n := Z.abs n in
      let r := Z.shiftr (bit_length n * 315653) 20 in
      p <- P r ;;
      Ok (if p <=? n then r + 1 else r)
  end.

(* ===================================================================== *)
(** * Formats and numbers *)

(** [Floating(NAME, MANTISSA, EXPONENT)]: the digit count of the mantissa and
    the base and digit count that size the exponent. *)
Record Floating : Type := {
  NAME : string;
  DIGITS : Z;
  EXPONENT_BASE : Z;
  EXPONENT_DIGITS : Z
}.

Record Num : Type := {
  mantissa : Z;
  exponent : Z;
  format : Floating
}.

Definition EXPONENT_MAX (F : Floating) : Z := EXPONENT_BASE F ^ EXPONENT_DIGITS F - 1.
Definition EXPONENT_MIN (F : Floating) : Z := - EXPONENT_MAX F.
Definition SPECIAL (F : Floating) : Z := EXPONENT_MIN F - 1.
Definition MANTISSA_MAX (F : Floating) : Z := 10 ^ DIGITS F - 1.
Definition MANTISSA_MIN (F : Floating) : Z := 10 ^ (DIGITS F - 1).

(** [int(math.ceil(math.log2(n)))].  The source computes the logarithm in
    floating point; on [10^D - 1] for every [D] up to [MAX_DIGITS], and on
    [2^d - 1] and [10^d - 1] for the exponent sizes, that is the exact
    ceiling of the binary logarithm, which is what [Z.log2_up] gives. *)
Definition MANTISSA_BITS (F : Floating) : Z := Z.log2_up (MANTISSA_MAX F).
Definition EXPONENT_BITS (F : Floating) : Z := Z.log2_up (EXPONENT_MAX F).
Definition MASK (F : Floating) : Z :=
  Z.shiftl 1 (MANTISSA_BITS F + EXPONENT_BITS F + 2) - 1.

(** The cached constants [self.zero] and [self.undefined] *)
Definition zero (F : Floating) : Num := Build_Num 0 (SPECIAL F) F.
Definition undefined (F : Floating) : Num := Build_Num (-1) (SPECIAL F) F.

(** The presets *)
Definition Fd16 : Floating := Build_Floating "Fd16" 3 2 4.
Definition Fd32 : Floating := Build_Floating "Fd32" 7 2 6.
Definition Fd64 : Floating := Build_Floating "Fd64" 16 2 8.
Definition Fd128 : Floating := Build_Floating "Fd128" 34 2 13.
Definition Fn16 : Floating := Build_Floating "Fn16" 16 10 2.
Definition Fn1000 : Floating := Build_Floating "Fn1000" 1000 10 4.

(** [TAU]: the first thousand digits of 2 pi, as an integer *)
Definition TAU : Z :=
  6283185307179586476925286766559005768394338798750211641949889184615632812572417997256069650684234135964296173026564613294187689219101164463450718816256962234900568205403877042211119289245897909860763928857621951331866892256951296467573566330542403818291297133846920697220908653296426787214520498282547449174013212631176349763041841925658508183430728735785180720022661061097640933042768293903883023218866114540731519183906184372234763865223586210237096148924759925499134703771505449782455876366023898259667346724881313286172042789892790449474381404359721887405541078434352586353504769349636935338810264001136254290527121655571542685515579218347274357442936881802449906860293099170742101584559378517847084039912224258043921728068836319627259549542619921037414422699999996745956099902119463465632192637190048918910693816605285044616506689370070523862376342020006275677505773175066416762841234355338294607196506980857510937462319125727764707575187503915563715561064342453613226003855753222391818432840398.

(** [E]: the first thousand digits of e, as an integer *)
Definition E : Z :=
  2718281828459045235360287471352662497757247093699959574966967627724076630353547594571382178525166427427466391932003059921817413596629043572900334295260595630738132328627943490763233829880753195251019011573834187930702154089149934884167509244761460668082264800168477411853742345442437107539077744992069551702761838606261331384583000752044933826560297606737113200709328709127443747047230696977209310141692836819025515108657463772111252389784425056953696770785449969967946864454905987931636889230098793127736178215424999229576351482208269895193668033182528869398496465105820939239829488793320362509443117301238197068416140397019837679320683282376464804295311802328782509819455815301756717361332069811250996181881593041690351598888519345807273866738589422879228499892086805825749279610484198444363463244968487560233624827041978623209002160990235304369941849146314093431738143640546253152096183690888707016768396424378140592714563549061303107208510383750510115747704171898610687396965521267154688957035035.

(** Two formats are the same object.  A format is determined by its name and
    sizes, and the presets differ in them, so the test is on the fields. *)
Definition Floating_eqb (F G : Floating) : bool :=
  String.eqb (NAME F) (NAME G) && (DIGITS F =? DIGITS G)
  && (EXPONENT_BASE F =? EXPONENT_BASE G)
  && (EXPONENT_DIGITS F =? EXPONENT_DIGITS G).

(** What a format is called with: an [int] or a [Num].  (A [float] goes
    through [fromFloat], which is not part of this development.) *)
Inductive callarg : Type :=
| ArgInt (z : Z)
| ArgNum (n : Num).

(** ** Strings

    [str(n)] of an int, [s.rstrip('0')], ['0' * n], [len(s)] and the two
    slices [s[:n]] and [s[n:]] for a non-negative [n]. *)

Definition digit_char (d : Z) : ascii := ascii_of_nat (48 + Z.to_nat d).

(** The digits of a non-negative [n] in front of [acc], most significant
    first; [fuel] bounds their number. *)
Fixpoint str_digits (fuel : nat) (n : Z) (acc : string) : string :=
  match fuel with
  | O => acc
  | S fuel =>
      let acc := String (digit_char (n mod 10)) acc in
      if n / 10 =? 0 then acc else str_digits fuel (n / 10) acc
  end.

(** [str(z)]: an integer has no more decimal digits than bits. *)
Definition py_str (z : Z) : string :=
  let body := str_digits (S (Z.to_nat (Z.log2 (Z.abs z)))) (Z.abs z) EmptyString in
  if z <? 0 then String "-" body else body.

Fixpoint rstrip0 (s : string) : string :=
  match s with
  | EmptyString => EmptyString
  | String c r =>
      match rstrip0 r with
      | EmptyString => if Ascii.eqb c "0" then EmptyString else String c EmptyString
      | r' => String c r'
      end
  end.

Fixpoint repeat0 (n : nat) : string :=
  match n with
  | O => EmptyString
  | S n => String "0" (repeat0 n)
  end.

(** ['0' * n]: empty for a negative [n] *)
Definition zeros (n : Z) : string := repeat0 (Z.to_nat n).

Definition py_len (s : string) : Z := Z.of_nat (String.length s).

Fixpoint take (n : nat) (s : string) : string :=
  match n, s with
  | S n, String c r => String c (take n r)
  | _, _ => EmptyString
  end.

Fixpoint drop (n : nat) (s : string) : string :=
  match n, s with
  | S n, String c r => drop n r
  | _, _ => s
  end.

(** ** The methods of class [Floating]

    They live in a module of their own: [eq], [lt], [add] and the like are
    names of the Standard Library too, and [mod] is a keyword, hence [mod_]. *)

Module DevNum.

(** ** Predicates *)

Definition isNumber (F : Floating) (n : Num) : bool :=
  let M := Z.abs (mantissa n) in
  let E := exponent n in
  ((exponent n =? SPECIAL F) && (mantissa n =? 0))
  || ((MANTISSA_MIN F <=? M) && (M <=? MANTISSA_MAX F)
      && (EXPONENT_MIN F <=? E) && (E <=? EXPONENT_MAX F)).

Definition isInvalid (F : Floating) (n : Num) : bool := negb (isNumber F n).

Definition isUndefined (F : Floating) (n : Num) : bool :=
  (exponent n =? SPECIAL F) && (mantissa n =? -1).

Definition validate (F : Floating) (n : Num) : Num :=
  if isNumber F n then n else undefined F.

(* ===================================================================== *)
(** * The normaliser *)

(** Lines 101-118 of [pack]: bring an integer mantissa of [M_DIGITS] digits
    to the format's digit count, rounding when it is too long and padding
    when it is too short.  The result is the new mantissa and the exponent,
    which is one more when rounding carried into a further digit. *)
Definition pack_round (F : Floating) (mantissa exponent M_DIGITS : Z)
  : pyres (Z * Z) :=
  let INDEX := M_DIGITS - DIGITS F in
  if 0 <? INDEX then
    p <- P INDEX ;;
    let truncated := Z.abs mantissa / p in
    let remainder := Z.abs mantissa mod p in
    mid <- MIDPOINTS INDEX ;;
    let midpoint := mid + truncated mod 2 in
    let rounded := truncated + (if midpoint <=? remainder then 1 else 0) in
    let '(rounded, exponent) :=
      if MANTISSA_MAX F <? rounded then
        let truncated := rounded / 10 in
        let remainder := rounded mod 10 in
        let midpoint := 4 + truncated mod 2 in
        (truncated + (if midpoint <=? remainder then 1 else 0), exponent + 1)
      else (rounded, exponent) in
    Ok (if 0 <=? mantissa then rounded else - rounded, exponent)
  else
    p <- P (- INDEX) ;;
    Ok (mantissa * p, exponent).

(** Lines 122-125 of [pack]: zero, overflow, underflow, or a finite number. *)
Definition pack_canon (F : Floating) (mantissa exponent : Z) : Num :=
  if mantissa =? 0 then zero F
  else if EXPONENT_MAX F <? exponent then undefined F
  else if exponent <? EXPONENT_MIN F then zero F
  else Build_Num mantissa exponent F.

Definition pack (F : Floating) (mantissa : pynum) (exponent expected : Z)
  : pyres Num :=
  M_DIGITS <- _log10 mantissa ;;
  match mantissa with
  | PyFloat _ => Raise AttributeError (* not reached: [_log10] has raised *)
  | PyInt mantissa =>
      '(mantissa, exponent) <- pack_round F mantissa exponent M_DIGITS ;;
      let exponent := exponent + (M_DIGITS - expected) in
      Ok (pack_canon F mantissa exponent)
  end.

Definition unpack (F : Floating) (number : Num) (exponent' : Z) : pyres pynum :=
  let INDEX := exponent number - exponent' in
  if 0 <=? INDEX then
    p <- P INDEX ;;
    Ok (PyInt (mantissa number * p))
  else
    p <- P (Z.min (- INDEX) (DIGITS F)) ;;
    py_truediv (mantissa number) p.

(* ===================================================================== *)
(** * The arithmetic engine *)

Definition add (F : Floating) (x y : Num) : pyres Num :=
  if isInvalid F x || isInvalid F y then Ok (undefined F)
  else
    let E := Z.max (exponent x) (exponent y) in
    X <- unpack F x (E - DIGITS F) ;;
    Y <- unpack F y (E - DIGITS F) ;;
    s <- py_add X Y ;;
    pack F s E (DIGITS F * 2).

Definition sub (F : Floating) (x y : Num) : pyres Num :=
  if isInvalid F x || isInvalid F y then Ok (undefined F)
  else
    let E := Z.max (exponent x) (exponent y) in
    X <- unpack F x (E - DIGITS F) ;;
    Y <- unpack F y (E - DIGITS F) ;;
    s <- py_sub X Y ;;
    pack F s E (DIGITS F * 2).

Definition mul (F : Floating) (x y : Num) : pyres Num :=
  if isInvalid F x || isInvalid F y then Ok (undefined F)
  else
    pack F (PyInt (mantissa x * mantissa y))
      (exponent x + exponent y)
      (DIGITS F * 2 - 1).

Definition div (F : Floating) (x y : Num) : pyres Num :=
  if isInvalid F x || isInvalid F y || (mantissa y =? 0) then Ok (undefined F)
  else
    let EXTRA_DIGITS := 1 in
    p <- P (DIGITS F + EXTRA_DIGITS) ;;
    q <- P EXTRA_DIGITS ;;
    m <- py_floordiv (mantissa x * p) (mantissa y * q) ;;
    pack F (PyInt m) (exponent x - exponent y) (DIGITS F + 1).

Definition mod_ (F : Floating) (x y : Num) : pyres Num :=
  if isInvalid F x || isInvalid F y || (mantissa y =? 0) then Ok (undefined F)
  else if exponent x <? exponent y then Ok x
  else
    let D := Z.min (exponent x - exponent y) 15 in
    p <- P (DIGITS F) ;;
    let xm := mantissa x * p in
    q <- P (DIGITS F - D) ;;
    let ym := mantissa y * q in
    rm <- py_floordiv xm ym ;;
    let rm := rm * mantissa y in
    pd <- P D ;;
    let rm := mantissa x * pd - rm in
    pack F (PyInt rm) 0 (DIGITS F).

(* ===================================================================== *)
(** * The order encoder and the comparisons *)

Definition _compact (F : Floating) (x : Num) : Z :=
  if mantissa x <? 0 then
    - Z.lxor (Z.lor (Z.abs (mantissa x))
                    (Z.shiftl (exponent x - SPECIAL F) (MANTISSA_BITS F)))
             (MASK F)
  else
    Z.lor (mantissa x) (Z.shiftl (exponent x - SPECIAL F) (MANTISSA_BITS F)).

Definition eq (F : Floating) (x y : Num) : bool :=
  (exponent x =? exponent y) && (mantissa x =? mantissa y).
Definition ge (F : Floating) (x y : Num) : bool := _compact F y <=? _compact F x.
Definition gt (F : Floating) (x y : Num) : bool := _compact F y <? _compact F x.
Definition le (F : Floating) (x y : Num) : bool := _compact F x <=? _compact F y.
Definition lt (F : Floating) (x y : Num) : bool := _compact F x <? _compact F y.
Definition ne (F : Floating) (x y : Num) : bool :=
  negb (exponent x =? exponent y) || negb (mantissa x =? mantissa y).

(* ===================================================================== *)
(** * Square root *)

(** One pass of the [while True] loop of [sqrt]. *)
Definition sqrt_next (original result : Z) : Z :=
  (result + original / result) / 2.

(** The loop, run for at most [fuel] passes: [None] when it is still running
    after them. *)
Fixpoint sqrt_loop (fuel : nat) (original result : Z) : option (pyres Z) :=
  match fuel with
  | O => None
  | S fuel =>
      if result =? 0 then Some (Raise ZeroDivisionError)
      else
        let NEXT := sqrt_next original result in
        if NEXT =? result then Some (Ok result)
        else sqrt_loop fuel original NEXT
  end.

(** Lines 263-268: the radicand and the seed of the iteration. *)
Definition sqrt_start (F : Floating) (number : Num) : pyres (Z * Z) :=
  let EXTRA_DIGITS := 2 in
  if exponent number mod 2 =? 0 then
    p <- P (DIGITS F + EXTRA_DIGITS * 2 - 1) ;;
    q <- P (DIGITS F - 1) ;;
    s <- P (EXTRA_DIGITS - 2) ;;
    Ok (mantissa number * p, (mantissa number * 28 + 89 * q) * s)
  else
    p <- P (DIGITS F + EXTRA_DIGITS * 2) ;;
    q <- P (DIGITS F) ;;
    s <- P (EXTRA_DIGITS - 2) ;;
    Ok (mantissa number * p, (mantissa number * 89 + 28 * q) * s).

Definition sqrt (fuel : nat) (F : Floating) (number : Num) : option (pyres Num) :=
  if isInvalid F number || (mantissa number <? 0) then Some (Ok (undefined F))
  else if mantissa number =? 0 then Some (Ok (zero F))
  else
    match sqrt_start F number with
    | Raise e => Some (Raise e)
    | Ok (original, seed) =>
        match sqrt_loop fuel original seed with
        | None => None
        | Some (Raise e) => Some (Raise e)
        | Some (Ok r) =>
            Some (pack F (PyInt r) (exponent number / 2) (DIGITS F + 2))
        end
    end.

(* ===================================================================== *)
(** * Constructors and conversions *)

Definition make (F : Floating) (mantissa exponent : Z) : pyres Num :=
  M_DIGITS <- _log10 (PyInt mantissa) ;;
  pack F (PyInt mantissa) (M_DIGITS - 1 + exponent) M_DIGITS.

(** [Floating.__call__], on an [int] and on a [Num] *)
Definition __call__ (F : Floating) (number : callarg) : pyres Num :=
  match number with
  | ArgInt z => make F z 0
  | ArgNum n =>
      if Floating_eqb (format n) F then Ok n
      else pack F (PyInt (mantissa n)) (exponent n) (DIGITS (format n))
  end.

Definition toInt (F : Floating) (number : Num) : pyres Z :=
  p <- P (DIGITS F - 1 - exponent number) ;;
  py_floordiv (mantissa number) p.

(** The constants [self.tau], [self.pi] and [self.e], packed when the format
    is built. *)
Definition tau (F : Floating) : pyres Num := pack F (PyInt TAU) 0 1000.
Definition pi (F : Floating) : pyres Num := pack F (PyInt (TAU / 2)) 0 1000.
Definition e (F : Floating) : pyres Num := pack F (PyInt E) 0 1000.

(* ===================================================================== *)
(** * Sine *)

(** The [while term != 0] loop of [sin], run for at most [fuel] passes.  The
    divisor is a positive multiple of [SCALE], a power of ten. *)
Fixpoint sin_loop (fuel : nat) (term n2 SCALE result order : Z) : option Z :=
  match fuel with
  | O => None
  | S fuel =>
      if term =? 0 then Some result
      else
        let order := order + 2 in
        let term := (term * n2) / ((order - 1) * order * SCALE) in
        let result := result - term in
        let order := order + 2 in
        let term := (term * n2) / ((order - 1) * order * SCALE) in
        let result := result + term in
        sin_loop fuel term n2 SCALE result order
  end.

(** Lines 229-231: the first term, its square brought to scale, the scale. *)
Definition sin_start (F : Floating) (number : Num) : pyres (Z * Z * Z) :=
  let EXTRA_DIGITS := 2 in
  p <- P EXTRA_DIGITS ;;
  let term := mantissa number * p in
  q <- P (Z.max (-2 * exponent number) 0) ;;
  let n2 := term * term / q in
  SCALE <- P ((DIGITS F + EXTRA_DIGITS - 1) * 2) ;;
  Ok (term, n2, SCALE).

Definition sin (fuel : nat) (F : Floating) (number : Num) : option (pyres Num) :=
  if isInvalid F number then Some (Ok (undefined F))
  else
    match (t <- tau F ;; mod_ F number t) with
    | Raise e => Some (Raise e)
    | Ok number =>
        match sin_start F number with
        | Raise e => Some (Raise e)
        | Ok (term, n2, SCALE) =>
            match sin_loop fuel term n2 SCALE term 1 with
            | None => None
            | Some result =>
                Some (pack F (PyInt result) (exponent number) (DIGITS F + 2))
            end
        end
    end.

(* ===================================================================== *)
(** * Rendering *)

Definition toScientificNotation (F : Floating) (number : Num) : pyres string :=
  if isUndefined F number then Ok "Undefined"%string
  else if isInvalid F number then Ok "Invalid"%string
  else if mantissa number =? 0 then Ok "0"%string
  else
    let N := if mantissa number <? 0 then "-"%string else EmptyString in
    let M := rstrip0 (py_str (Z.abs (mantissa number))) in
    let E := py_str (exponent number) in
    if py_len M =? 1 then Ok (N ++ M ++ "e" ++ E)%string
    else
      match M with
      | EmptyString => Raise IndexError
      | String c r => Ok (N ++ String c ("." ++ r ++ "e" ++ E))%string
      end.

(** [digits] is [None] when the caller leaves it out. *)
Definition toString (F : Floating) (number : Num) (digits : option Z)
  : pyres string :=
  if isUndefined F number then Ok "Undefined"%string
  else if isInvalid F number then Ok "Invalid"%string
  else if mantissa number =? 0 then Ok "0"%string
  else
    let M := rstrip0 (py_str (Z.abs (mantissa number))) in
    let E := exponent number + 1 in
    let D := match digits with None => DIGITS F + 1 | Some d => d end in
    let N := if mantissa number <? 0 then "-"%string else EmptyString in
    if (0 <? E) && (E <? py_len M) then
      Ok (N ++ take (Z.to_nat E) M ++ "." ++ drop (Z.to_nat E) M)%string
    else if (0 <? E) && (E <=? D) then
      Ok (N ++ M ++ zeros (E - py_len M))%string
    else if (E <=? 0) && (Z.abs E + py_len M <? D) then
      Ok (N ++ "0." ++ zeros (Z.abs E) ++ M)%string
    else toScientificNotation F number.

End DevNum.

(* ===================================================================== *)
(** * Vocabulary of the properties *)

(** A finite number of format [F]: the third shape of the canonical form. *)
Definition finite (F : Floating) (n : Num) : Prop :=
  MANTISSA_MIN F <= Z.abs (mantissa n) <= MANTISSA_MAX F
  /\ EXPONENT_MIN F <= exponent n <= EXPONENT_MAX F.

(** A format the engine supports: between one and [MAX_DIGITS] digits. *)
Definition supported (F : Floating) : Prop := 1 <= DIGITS F <= MAX_DIGITS.

(** The numeric order of two numbers of one format, both mantissas brought
    to the smaller of the two exponents. *)
Definition numeric_lt (x y : Num) : bool :=
  let e := Z.min (exponent x) (exponent y) in
  mantissa x * 10 ^ (exponent x - e) <? mantissa y * 10 ^ (exponent y - e).

(** The magnitude word of a finite number: exponent above, mantissa below. *)
Definition magnitude (F : Floating) (x : Num) : Z :=
  Z.abs (mantissa x) + (exponent x - SPECIAL F) * 2 ^ MANTISSA_BITS F.

(** A format of ten digits, [Floating('F10', Base10(10), Base2(4))]. *)
Definition F10 : Floating := Build_Floating "F10" 10 2 4.

(** The estimate of [_log10] for an integer of [b] bits. *)
Definition estimate (b : Z) : Z := Z.shiftr (b * 315653) 20.

(** What makes the estimate usable for integers of [b] bits: the table has
    the entry, and the estimate is the digit count or one less. *)
Definition estimate_fits (b : Z) : Prop :=
  let r := estimate b in
  r < TABLE_LEN /\ 2 ^ b <= 10 ^ (r + 1) /\ (r = 0 \/ 10 ^ (r + 1) <= 50 * 2 ^ b).

(** A run over [fuel] consecutive bit lengths from [b] on, with [pw2 = 2^b],
    [r = estimate b] and [p10 = 10^(r+1)] carried along. *)
Fixpoint estimate_check (fuel : nat) (b pw2 r p10 : Z) : bool :=
  match fuel with
  | O => true
  | S fuel =>
      let r' := estimate (b + 1) in
      (r <? TABLE_LEN) && (pw2 <=? p10) && ((r =? 0) || (p10 <=? 50 * pw2))
      && ((r' =? r) || (r' =? r + 1))
      && estimate_check fuel (b + 1) (2 * pw2) r'
           (if r' =? r then p10 else 10 * p10)
  end.

(** Integers of up to this many bits are within reach of the estimator. *)
Definition ESTIMATE_BITS : Z := 9965.

(** [d] is the number of decimal digits of [n]; zero has none. *)
Definition is_digits (n d : Z) : Prop :=
  (n = 0 /\ d = 0) \/ (1 <= d /\ 10 ^ (d - 1) <= Z.abs n < 10 ^ d).

(** A canonical number of format [F]: the cached zero, the cached undefined,
    or a finite number that carries the format. *)
Definition canonical (F : Floating) (r : Num) : Prop :=
  r = zero F \/ r = undefined F \/ (finite F r /\ format r = F).

(** The number 1 of a format: what [make] gives for the integer 1. *)
Definition one (F : Floating) : Num := Build_Num (MANTISSA_MIN F) 0 F.

(** The decimal numeral of [n] on exactly [d] digits, leading zeros
    included. *)
Fixpoint numeral (d : nat) (n : Z) : string :=
  match d with
  | O => EmptyString
  | S d => numeral d (n / 10) ++ String (digit_char (n mod 10)) EmptyString
  end.

(* ===================================================================== *)
(** * Sanity checks on concrete inputs *)

Example Fd16_bounds :
  (EXPONENT_MAX Fd16, SPECIAL Fd16, MANTISSA_MIN Fd16, MANTISSA_MAX Fd16,
   MANTISSA_BITS Fd16, EXPONENT_BITS Fd16, MASK Fd16)
  = (15, -16, 100, 999, 10, 4, 65535).
Proof. reflexivity. Qed.

Example log10_examples :
  _log10 (PyInt 0) = Ok 0 /\ _log10 (PyInt 9) = Ok 1 /\
  _log10 (PyInt (-10)) = Ok 2 /\ _log10 (PyInt 12345) = Ok 5.
Proof. repeat split; reflexivity. Qed.

Example pack_rounds_Fd16 :
  DevNum.pack Fd16 (PyInt 12345) 4 5 = Ok (Build_Num 123 4 Fd16) /\
  DevNum.pack Fd16 (PyInt 99951) 4 5 = Ok (Build_Num 100 5 Fd16) /\
  DevNum.pack Fd16 (PyInt (-7)) 0 1 = Ok (Build_Num (-700) 0 Fd16).
Proof. repeat split; vm_compute; reflexivity. Qed.

Example add_pi_one_Fd64 :
  DevNum.add Fd64 (Build_Num 3141590000000000 0 Fd64)
                  (Build_Num 1000000000000000 0 Fd64)
  = Ok (Build_Num 4141590000000000 0 Fd64).
Proof. vm_compute. reflexivity. Qed.

Example div_one_three_Fd16 :
  DevNum.div Fd16 (Build_Num 100 0 Fd16) (Build_Num 300 0 Fd16)
  = Ok (Build_Num 333 (-1) Fd16).
Proof. vm_compute. reflexivity. Qed.

Example sqrt_two_Fd32 :
  DevNum.sqrt 10 Fd32 (Build_Num 2000000 0 Fd32)
  = Some (Ok (Build_Num 1414214 0 Fd32)).
Proof. vm_compute. reflexivity. Qed.

Example add_one_one_Fd16 :
  DevNum.add Fd16 (Build_Num 100 0 Fd16) (Build_Num 100 0 Fd16) = Ok (Build_Num 200 0 Fd16).
Proof. vm_compute. reflexivity. Qed.

(* ===================================================================== *)
(** * Shapes of numbers *)

Lemma isNumber_finite F n : finite F n -> DevNum.isNumber F n = true.
Proof.
  intros [[H1 H2] [H3 H4]]. unfold DevNum.isNumber.
  apply orb_true_iff. right.
  rewrite !andb_true_iff, !Z.leb_le. auto.
Qed.

Lemma isNumber_cases F n :
  DevNum.isNumber F n = true ->
  (mantissa n = 0 /\ exponent n = SPECIAL F) \/ finite F n.
Proof.
  unfold DevNum.isNumber, finite. intros H.
  apply orb_true_iff in H. destruct H as [H | H].
  - apply andb_true_iff in H. destruct H as [H1 H2].
    apply Z.eqb_eq in H1, H2. left. auto.
  - rewrite !andb_true_iff, !Z.leb_le in H. right. tauto.
Qed.

Lemma isInvalid_of_isUndefined F n :
  DevNum.isUndefined F n = true -> DevNum.isInvalid F n = true.
Proof.
  unfold DevNum.isUndefined, DevNum.isInvalid, DevNum.isNumber.
  intros H. apply andb_true_iff in H. destruct H as [He Hm].
  apply Z.eqb_eq in He, Hm. rewrite He, Hm.
  apply negb_true_iff, orb_false_iff. split.
  - rewrite Z.eqb_refl. reflexivity.
  - rewrite !andb_false_iff, !Z.leb_gt. unfold SPECIAL. lia.
Qed.

Lemma isInvalid_undefined F : DevNum.isInvalid F (undefined F) = true.
Proof.
  apply isInvalid_of_isUndefined. unfold DevNum.isUndefined, undefined. simpl.
  rewrite Z.eqb_refl. reflexivity.
Qed.

(* ===================================================================== *)
(** * Poisoning of the arithmetic *)

(** C1.  When at least one operand of [add], [sub], [mul], [div] or [mod]
    fails the canonical-form check, or is the undefined value, the operation
    returns the format's cached [undefined]; it raises nothing. *)
Theorem arithmetic_poisoned (F : Floating) (x y : Num) :
  DevNum.isInvalid F x = true \/ DevNum.isUndefined F x = true \/
  DevNum.isInvalid F y = true \/ DevNum.isUndefined F y = true ->
  DevNum.add F x y = Ok (undefined F) /\
  DevNum.sub F x y = Ok (undefined F) /\
  DevNum.mul F x y = Ok (undefined F) /\
  DevNum.div F x y = Ok (undefined F) /\
  DevNum.mod_ F x y = Ok (undefined F).
Proof.
  intros H.
  assert (Hor : DevNum.isInvalid F x || DevNum.isInvalid F y = true).
  { apply orb_true_iff.
    destruct H as [H | [H | [H | H]]];
      auto using isInvalid_of_isUndefined. }
  unfold DevNum.add, DevNum.sub, DevNum.mul, DevNum.div, DevNum.mod_.
  rewrite Hor. simpl. repeat split; reflexivity.
Qed.

Lemma arithmetic_poisoned_witness :
  DevNum.isInvalid Fd16 (undefined Fd16) = true /\
  DevNum.add Fd16 (undefined Fd16) (Build_Num 100 0 Fd16) = Ok (undefined Fd16) /\
  DevNum.sub Fd16 (undefined Fd16) (Build_Num 100 0 Fd16) = Ok (undefined Fd16) /\
  DevNum.mul Fd16 (undefined Fd16) (Build_Num 100 0 Fd16) = Ok (undefined Fd16) /\
  DevNum.div Fd16 (undefined Fd16) (Build_Num 100 0 Fd16) = Ok (undefined Fd16) /\
  DevNum.mod_ Fd16 (undefined Fd16) (Build_Num 100 0 Fd16) = Ok (undefined Fd16).
Proof.
  split; [reflexivity |].
  apply (arithmetic_poisoned Fd16 (undefined Fd16) (Build_Num 100 0 Fd16)).
  left. reflexivity.
Defined.

(* ===================================================================== *)
(** * Equality on the undefined value *)

(** C7, as the specification has it, fails: [eq] compares the two fields and
    nothing else, so the undefined value of [Fd16] is equal to itself. *)
Lemma eq_undefined_counterexample :
  ~ (DevNum.eq Fd16 (undefined Fd16) (undefined Fd16) = false /\
     DevNum.ne Fd16 (undefined Fd16) (undefined Fd16) = true).
Proof. intros [H _]. discriminate H. Qed.

(** C7, amended.  For the cached undefined value [u] of any format, [eq u u]
    is true and [ne u u] is false: [eq] and [ne] compare the (mantissa,
    exponent) pairs and do not treat undefined apart. *)
Theorem eq_undefined_reflexive (F : Floating) :
  DevNum.eq F (undefined F) (undefined F) = true /\
  DevNum.ne F (undefined F) (undefined F) = false.
Proof.
  unfold DevNum.eq, DevNum.ne. rewrite !Z.eqb_refl. split; reflexivity.
Qed.

(* ===================================================================== *)
(** * The order encoder in arithmetic terms *)

Section Bits.

(** A value below [2^k] shares no bit with a multiple of [2^k]. *)
Lemma land_low_high (m c k : Z) :
  0 <= k -> 0 <= m < 2 ^ k -> Z.land m (c * 2 ^ k) = 0.
Proof.
  intros Hk Hm. apply Z.bits_inj'. intros n Hn.
  rewrite Z.land_spec, Z.bits_0.
  destruct (Z_lt_le_dec n k) as [Hlt | Hge].
  - rewrite Z.mul_pow2_bits_low by lia. apply andb_false_r.
  - assert (Hbit : Z.testbit m n = false).
    { destruct (Z.eq_dec m 0) as [-> | Hne].
      - apply Z.bits_0.
      - apply Z.bits_above_log2; [lia |].
        apply Z.log2_lt_pow2; [lia |].
        apply Z.lt_le_trans with (2 ^ k); [lia |].
        apply Z.pow_le_mono_r; lia. }
    rewrite Hbit. reflexivity.
Qed.

Lemma lor_shiftl (m c k : Z) :
  0 <= k -> 0 <= m < 2 ^ k -> Z.lor m (Z.shiftl c k) = m + c * 2 ^ k.
Proof.
  intros Hk Hm. rewrite Z.shiftl_mul_pow2 by lia.
  pose proof (Z.add_lor_land m (c * 2 ^ k)) as H.
  rewrite (land_low_high m c k Hk Hm) in H. lia.
Qed.

(** Exclusive or with a mask of [k] ones complements a [k]-bit value. *)
Lemma lxor_mask (j k : Z) :
  0 <= k -> 0 <= j < 2 ^ k -> Z.lxor j (Z.shiftl 1 k - 1) = 2 ^ k - 1 - j.
Proof.
  intros Hk Hj. rewrite Z.shiftl_1_l.
  pose proof (Z.add_lxor_2land j (2 ^ k - 1)) as H.
  assert (Hland : Z.land j (2 ^ k - 1) = j).
  { replace (2 ^ k - 1) with (Z.ones k) by (rewrite Z.ones_equiv; lia).
    rewrite Z.land_ones by lia. apply Z.mod_small. lia. }
  rewrite Hland in H. lia.
Qed.

Lemma le_pow2_log2_up (a : Z) : a <= 2 ^ Z.log2_up a.
Proof.
  destruct (Z_lt_le_dec 1 a) as [H | H].
  - apply Z.log2_up_spec. exact H.
  - rewrite Z.log2_up_eqn0 by exact H. simpl. lia.
Qed.

End Bits.

Section Encoder.

Variable F : Floating.
Hypothesis digits_pos : 1 <= DIGITS F.

Lemma MANTISSA_MIN_pos : 1 <= MANTISSA_MIN F.
Proof.
  unfold MANTISSA_MIN.
  pose proof (Z.pow_pos_nonneg 10 (DIGITS F - 1)). lia.
Qed.

Lemma MANTISSA_MAX_eq : MANTISSA_MAX F = 10 * MANTISSA_MIN F - 1.
Proof.
  unfold MANTISSA_MAX, MANTISSA_MIN.
  replace (DIGITS F) with (1 + (DIGITS F - 1)) at 1 by lia.
  rewrite Z.pow_add_r by lia. reflexivity.
Qed.

Lemma MANTISSA_BITS_nonneg : 0 <= MANTISSA_BITS F.
Proof. apply Z.log2_up_nonneg. Qed.

Lemma EXPONENT_BITS_nonneg : 0 <= EXPONENT_BITS F.
Proof. apply Z.log2_up_nonneg. Qed.

(** Every mantissa of the format fits in [MANTISSA_BITS] bits. *)
Lemma MANTISSA_MAX_lt_pow2 : MANTISSA_MAX F < 2 ^ MANTISSA_BITS F.
Proof.
  pose proof (le_pow2_log2_up (MANTISSA_MAX F)) as Hle.
  fold (MANTISSA_BITS F) in Hle.
  pose proof MANTISSA_MIN_pos as Hmin.
  pose proof MANTISSA_MAX_eq as Hmax.
  pose proof MANTISSA_BITS_nonneg as Hnn.
  destruct (Z.eq_dec (MANTISSA_BITS F) 0) as [H0 | H0].
  - rewrite H0 in *. simpl in Hle. lia.
  - replace (MANTISSA_BITS F) with (1 + (MANTISSA_BITS F - 1)) in * by lia.
    rewrite Z.pow_add_r in * by lia.
    change (2 ^ 1) with 2 in *. lia.
Qed.

(** The shifted exponent of a number in range fits under the mask. *)
Lemma biased_exponent_bound (e : Z) :
  EXPONENT_MIN F <= e <= EXPONENT_MAX F ->
  1 <= e - SPECIAL F /\ e - SPECIAL F + 1 <= 4 * 2 ^ EXPONENT_BITS F.
Proof.
  intros He. unfold SPECIAL, EXPONENT_MIN in *.
  pose proof (le_pow2_log2_up (EXPONENT_MAX F)) as Hle.
  fold (EXPONENT_BITS F) in Hle.
  pose proof (Z.pow_pos_nonneg 2 (EXPONENT_BITS F)) as Hp.
  pose proof EXPONENT_BITS_nonneg. lia.
Qed.

Lemma MASK_eq :
  MASK F = 4 * 2 ^ EXPONENT_BITS F * 2 ^ MANTISSA_BITS F - 1.
Proof.
  unfold MASK. rewrite Z.shiftl_1_l.
  pose proof MANTISSA_BITS_nonneg. pose proof EXPONENT_BITS_nonneg.
  rewrite !Z.pow_add_r by lia. change (2 ^ 2) with 4. ring.
Qed.

Lemma compact_zero (x : Num) :
  mantissa x = 0 -> exponent x = SPECIAL F -> DevNum._compact F x = 0.
Proof.
  intros Hm He. unfold DevNum._compact. rewrite Hm, He.
  change (0 <? 0) with false. cbv iota.
  rewrite Z.sub_diag, Z.shiftl_0_l. reflexivity.
Qed.

Lemma compact_undefined : DevNum._compact F (undefined F) = 1 - MASK F.
Proof.
  pose proof MANTISSA_BITS_nonneg as Hm. pose proof EXPONENT_BITS_nonneg as He.
  unfold DevNum._compact, undefined. cbn [mantissa exponent].
  change (-1 <? 0) with true. cbv iota. change (Z.abs (-1)) with 1.
  rewrite Z.sub_diag, Z.shiftl_0_l, Z.lor_0_r.
  unfold MASK.
  rewrite lxor_mask.
  - rewrite Z.shiftl_1_l. lia.
  - lia.
  - split; [lia |].
    apply Z.lt_le_trans with (2 ^ 2); [reflexivity |].
    apply Z.pow_le_mono_r; lia.
Qed.

Lemma magnitude_bounds (x : Num) :
  finite F x ->
  2 ^ MANTISSA_BITS F + 1 <= magnitude F x <= MASK F.
Proof.
  intros [[Hlo Hhi] He]. unfold magnitude.
  pose proof MANTISSA_MAX_lt_pow2 as Hlt.
  pose proof MANTISSA_MIN_pos as Hmin.
  destruct (biased_exponent_bound _ He) as [Hc1 Hc2].
  rewrite MASK_eq.
  pose proof (Z.pow_pos_nonneg 2 (MANTISSA_BITS F) ltac:(lia) MANTISSA_BITS_nonneg).
  nia.
Qed.

Lemma compact_nonneg (x : Num) :
  finite F x -> 0 <= mantissa x ->
  DevNum._compact F x = magnitude F x.
Proof.
  intros Hx Hpos. destruct Hx as [[Hlo Hhi] He].
  unfold DevNum._compact, magnitude.
  destruct (Z.ltb_spec (mantissa x) 0) as [Hneg | _]; [lia |].
  pose proof MANTISSA_MAX_lt_pow2.
  rewrite lor_shiftl; [| apply MANTISSA_BITS_nonneg | lia].
  rewrite (Z.abs_eq (mantissa x)) by lia. reflexivity.
Qed.

Lemma compact_neg (x : Num) :
  finite F x -> mantissa x < 0 ->
  DevNum._compact F x = magnitude F x - MASK F.
Proof.
  intros Hx Hneg. pose proof (magnitude_bounds x Hx) as Hb.
  destruct Hx as [[Hlo Hhi] He].
  unfold DevNum._compact.
  destruct (Z.ltb_spec (mantissa x) 0) as [_ | Hpos]; [| lia].
  pose proof MANTISSA_MAX_lt_pow2.
  rewrite lor_shiftl; [| apply MANTISSA_BITS_nonneg | lia].
  fold (magnitude F x).
  pose proof MANTISSA_BITS_nonneg. pose proof EXPONENT_BITS_nonneg.
  assert (HM : MASK F = 2 ^ (MANTISSA_BITS F + EXPONENT_BITS F + 2) - 1).
  { unfold MASK. rewrite Z.shiftl_1_l. reflexivity. }
  unfold MASK at 1. rewrite lxor_mask.
  - lia.
  - lia.
  - pose proof (Z.pow_pos_nonneg 2 (MANTISSA_BITS F)). lia.
Qed.

End Encoder.

(* ===================================================================== *)
(** * Undefined in the order *)

(** C10.  For every canonical number [x] of a format that is zero or finite,
    [lt undefined x] is true and [lt x undefined] is false: the encoder puts
    undefined strictly below every other canonical value. *)
Theorem undefined_below_all (F : Floating) (x : Num) :
  1 <= DIGITS F ->
  DevNum.isNumber F x = true ->
  DevNum.lt F (undefined F) x = true /\ DevNum.lt F x (undefined F) = false.
Proof.
  intros HD Hx.
  assert (Hlt : DevNum._compact F (undefined F) < DevNum._compact F x).
  { rewrite (compact_undefined F).
    pose proof (MASK_eq F) as HM.
    pose proof (Z.pow_pos_nonneg 2 (EXPONENT_BITS F) ltac:(lia)
                  (EXPONENT_BITS_nonneg F)) as He.
    pose proof (Z.pow_pos_nonneg 2 (MANTISSA_BITS F) ltac:(lia)
                  (MANTISSA_BITS_nonneg F)) as Hm.
    destruct (isNumber_cases F x Hx) as [[Hm0 He0] | Hfin].
    - rewrite (compact_zero F x Hm0 He0). nia.
    - pose proof (magnitude_bounds F HD x Hfin) as Hb.
      destruct (Z_lt_le_dec (mantissa x) 0) as [Hneg | Hpos].
      + rewrite (compact_neg F HD x Hfin Hneg). lia.
      + rewrite (compact_nonneg F HD x Hfin Hpos). nia. }
  unfold DevNum.lt. split.
  - apply Z.ltb_lt. exact Hlt.
  - apply Z.ltb_ge. lia.
Qed.

Lemma undefined_below_all_witness :
  (1 <= DIGITS Fd16 /\ DevNum.isNumber Fd16 (Build_Num (-999) 15 Fd16) = true) /\
  DevNum.lt Fd16 (undefined Fd16) (Build_Num (-999) 15 Fd16) = true /\
  DevNum.lt Fd16 (Build_Num (-999) 15 Fd16) (undefined Fd16) = false.
Proof.
  split.
  - split; [unfold Fd16; simpl; lia | reflexivity].
  - apply (undefined_below_all Fd16 (Build_Num (-999) 15 Fd16)).
    + unfold Fd16; simpl; lia.
    + reflexivity.
Defined.

(* ===================================================================== *)
(** * The order on finite numbers *)

Lemma lex_lt (K a b c c' : Z) :
  0 <= a < K -> 0 <= b < K ->
  (a + c * K < b + c' * K <-> c < c' \/ (c = c' /\ a < b)).
Proof.
  intros Ha Hb. split.
  - intros H. destruct (Z.lt_trichotomy c c') as [Hlt | [Heq | Hgt]].
    + left. exact Hlt.
    + right. subst c'. split; [reflexivity | lia].
    + exfalso. assert (c' + 1 <= c) by lia.
      assert ((c' + 1) * K <= c * K) by (apply Z.mul_le_mono_nonneg_r; lia).
      lia.
  - intros [Hlt | [-> Hlt]]; [| lia].
    assert ((c + 1) * K <= c' * K) by (apply Z.mul_le_mono_nonneg_r; lia).
    lia.
Qed.

Lemma lex_eq (K a b c c' : Z) :
  0 <= a < K -> 0 <= b < K ->
  a + c * K = b + c' * K -> c = c' /\ a = b.
Proof.
  intros Ha Hb H.
  destruct (Z.lt_trichotomy c c') as [Hlt | [Heq | Hgt]].
  - assert ((c + 1) * K <= c' * K) by (apply Z.mul_le_mono_nonneg_r; lia). lia.
  - subst c'. split; [reflexivity | lia].
  - assert ((c' + 1) * K <= c * K) by (apply Z.mul_le_mono_nonneg_r; lia). lia.
Qed.

Section Order.
Variable F : Floating.
Hypothesis digits_pos : 1 <= DIGITS F.

(** Magnitudes of finite numbers compare by exponent first, mantissa next. *)
Lemma scaled_lt_iff (x y : Num) :
  finite F x -> finite F y ->
  let e := Z.min (exponent x) (exponent y) in
  (Z.abs (mantissa x) * 10 ^ (exponent x - e) < Z.abs (mantissa y) * 10 ^ (exponent y - e)
   <-> exponent x < exponent y
       \/ (exponent x = exponent y /\ Z.abs (mantissa x) < Z.abs (mantissa y))).
Proof.
  intros [[Hxlo Hxhi] _] [[Hylo Hyhi] _]. cbv zeta.
  pose proof (MANTISSA_MIN_pos F digits_pos) as Hmin.
  pose proof (MANTISSA_MAX_eq F digits_pos) as Hmax.
  destruct (Z.lt_trichotomy (exponent x) (exponent y)) as [Hlt | [Heq | Hgt]].
  - rewrite Z.min_l by lia. rewrite Z.sub_diag, Z.pow_0_r, Z.mul_1_r.
    assert (Hten : 10 ^ 1 <= 10 ^ (exponent y - exponent x))
      by (apply Z.pow_le_mono_r; lia).
    change (10 ^ 1) with 10 in Hten.
    split; [intros _; left; exact Hlt | intros _].
    assert (Z.abs (mantissa y) * 10 <= Z.abs (mantissa y) * 10 ^ (exponent y - exponent x))
      by (apply Z.mul_le_mono_nonneg_l; lia).
    lia.
  - rewrite Heq, Z.min_id, Z.sub_diag, Z.pow_0_r, !Z.mul_1_r. lia.
  - rewrite Z.min_r by lia. rewrite Z.sub_diag, Z.pow_0_r, Z.mul_1_r.
    assert (Hten : 10 ^ 1 <= 10 ^ (exponent x - exponent y))
      by (apply Z.pow_le_mono_r; lia).
    change (10 ^ 1) with 10 in Hten.
    assert (Z.abs (mantissa x) * 10 <= Z.abs (mantissa x) * 10 ^ (exponent x - exponent y))
      by (apply Z.mul_le_mono_nonneg_l; lia).
    split; [intros H1; lia | intros [H1 | [H1 _]]; lia].
Qed.

Lemma magnitude_lt_iff (x y : Num) :
  finite F x -> finite F y ->
  (magnitude F x < magnitude F y
   <-> exponent x < exponent y
       \/ (exponent x = exponent y /\ Z.abs (mantissa x) < Z.abs (mantissa y))).
Proof.
  intros [[Hxlo Hxhi] _] [[Hylo Hyhi] _]. unfold magnitude.
  pose proof (MANTISSA_MAX_lt_pow2 F digits_pos) as Hlt.
  rewrite lex_lt by lia. lia.
Qed.

Lemma magnitude_inj (x y : Num) :
  finite F x -> finite F y ->
  magnitude F x = magnitude F y ->
  exponent x = exponent y /\ Z.abs (mantissa x) = Z.abs (mantissa y).
Proof.
  intros [[Hxlo Hxhi] _] [[Hylo Hyhi] _]. unfold magnitude. intros H.
  pose proof (MANTISSA_MAX_lt_pow2 F digits_pos) as Hlt.
  apply lex_eq in H; lia.
Qed.

Lemma finite_nonzero (x : Num) : finite F x -> mantissa x <> 0.
Proof.
  intros [[Hlo _] _] H0. rewrite H0 in Hlo. simpl in Hlo.
  pose proof (MANTISSA_MIN_pos F digits_pos). lia.
Qed.

(** What the encoder's order is on finite numbers: the numeric order, except
    between two negative numbers, where it is the reverse. *)
Lemma compact_lt_iff (x y : Num) :
  finite F x -> finite F y ->
  (DevNum._compact F x < DevNum._compact F y
   <-> if (mantissa x <? 0) && (mantissa y <? 0)
       then numeric_lt y x = true
       else numeric_lt x y = true).
Proof.
  intros Hx Hy.
  pose proof (finite_nonzero x Hx) as Hx0.
  pose proof (finite_nonzero y Hy) as Hy0.
  pose proof (magnitude_bounds F digits_pos x Hx) as Hbx.
  pose proof (magnitude_bounds F digits_pos y Hy) as Hby.
  pose proof (Z.pow_pos_nonneg 2 (MANTISSA_BITS F) ltac:(lia)
                (MANTISSA_BITS_nonneg F)) as HK.
  pose proof (scaled_lt_iff x y Hx Hy) as Hxy.
  cbv zeta in Hxy.
  unfold numeric_lt. cbv zeta.
  rewrite (Z.min_comm (exponent y) (exponent x)).
  set (e := Z.min (exponent x) (exponent y)) in *.
  assert (HA : 0 < 10 ^ (exponent x - e)) by (apply Z.pow_pos_nonneg; unfold e; lia).
  assert (HB : 0 < 10 ^ (exponent y - e)) by (apply Z.pow_pos_nonneg; unfold e; lia).
  pose proof (magnitude_lt_iff x y Hx Hy) as Hm.
  destruct (Z.ltb_spec (mantissa x) 0) as [Hxneg | Hxpos];
    destruct (Z.ltb_spec (mantissa y) 0) as [Hyneg | Hypos]; cbn [andb];
    rewrite Z.ltb_lt.
  - rewrite (compact_neg F digits_pos x Hx Hxneg), (compact_neg F digits_pos y Hy Hyneg).
    rewrite (Z.abs_neq (mantissa x)), (Z.abs_neq (mantissa y)) in Hxy, Hm by lia.
    split; intros H.
    + assert (Hm' : magnitude F x < magnitude F y) by lia.
      apply Hm in Hm'. apply Hxy in Hm'. lia.
    + assert (Hs : - mantissa x * 10 ^ (exponent x - e)
                   < - mantissa y * 10 ^ (exponent y - e)) by lia.
      apply Hxy in Hs. apply Hm in Hs. lia.
  - rewrite (compact_neg F digits_pos x Hx Hxneg),
      (compact_nonneg F digits_pos y Hy Hypos).
    split; intros _; [| lia].
    assert (mantissa x * 10 ^ (exponent x - e) < 0) by nia.
    assert (0 < mantissa y * 10 ^ (exponent y - e)) by nia.
    lia.
  - rewrite (compact_nonneg F digits_pos x Hx Hxpos),
      (compact_neg F digits_pos y Hy Hyneg).
    split; intros H; [lia |].
    assert (0 < mantissa x * 10 ^ (exponent x - e)) by nia.
    assert (mantissa y * 10 ^ (exponent y - e) < 0) by nia.
    lia.
  - rewrite (compact_nonneg F digits_pos x Hx Hxpos),
      (compact_nonneg F digits_pos y Hy Hypos).
    rewrite (Z.abs_eq (mantissa x)), (Z.abs_eq (mantissa y)) in Hxy, Hm by lia.
    rewrite Hm, Hxy. reflexivity.
Qed.

Lemma compact_inj (x y : Num) :
  finite F x -> finite F y ->
  (DevNum._compact F x = DevNum._compact F y
   <-> exponent x = exponent y /\ mantissa x = mantissa y).
Proof.
  intros Hx Hy. split.
  - intros H.
    pose proof (magnitude_bounds F digits_pos x Hx) as Hbx.
    pose proof (magnitude_bounds F digits_pos y Hy) as Hby.
    pose proof (Z.pow_pos_nonneg 2 (MANTISSA_BITS F) ltac:(lia)
                  (MANTISSA_BITS_nonneg F)) as HK.
    destruct (Z_lt_le_dec (mantissa x) 0) as [Hxneg | Hxpos];
      destruct (Z_lt_le_dec (mantissa y) 0) as [Hyneg | Hypos].
    + rewrite (compact_neg F digits_pos x Hx Hxneg),
        (compact_neg F digits_pos y Hy Hyneg) in H.
      destruct (magnitude_inj x y Hx Hy ltac:(lia)). lia.
    + rewrite (compact_neg F digits_pos x Hx Hxneg),
        (compact_nonneg F digits_pos y Hy Hypos) in H. lia.
    + rewrite (compact_nonneg F digits_pos x Hx Hxpos),
        (compact_neg F digits_pos y Hy Hyneg) in H. lia.
    + rewrite (compact_nonneg F digits_pos x Hx Hxpos),
        (compact_nonneg F digits_pos y Hy Hypos) in H.
      destruct (magnitude_inj x y Hx Hy H). lia.
  - intros [He Hm]. unfold DevNum._compact. rewrite He, Hm. reflexivity.
Qed.

(** Of [lt], [eq] and [gt] exactly one holds on two finite numbers. *)
Lemma order_trichotomy (x y : Num) :
  finite F x -> finite F y ->
  (DevNum.lt F x y = true /\ DevNum.eq F x y = false /\ DevNum.gt F x y = false)
  \/ (DevNum.lt F x y = false /\ DevNum.eq F x y = true /\ DevNum.gt F x y = false)
  \/ (DevNum.lt F x y = false /\ DevNum.eq F x y = false /\ DevNum.gt F x y = true).
Proof.
  intros Hx Hy.
  pose proof (compact_inj x y Hx Hy) as Hinj.
  assert (Heq : DevNum.eq F x y = true
                <-> DevNum._compact F x = DevNum._compact F y).
  { unfold DevNum.eq. rewrite andb_true_iff, !Z.eqb_eq. tauto. }
  unfold DevNum.lt, DevNum.gt.
  destruct (Z.lt_trichotomy (DevNum._compact F x) (DevNum._compact F y))
    as [Hlt | [He | Hgt]].
  - left. rewrite (proj2 (Z.ltb_lt _ _) Hlt), (proj2 (Z.ltb_ge _ _)) by lia.
    repeat split. destruct (DevNum.eq F x y); [| reflexivity].
    exfalso. assert (DevNum._compact F x = DevNum._compact F y) by (apply Heq; reflexivity). lia.
  - right. left. rewrite !(proj2 (Z.ltb_ge _ _)) by lia.
    repeat split. apply Heq. exact He.
  - right. right. rewrite (proj2 (Z.ltb_lt _ _) Hgt), (proj2 (Z.ltb_ge _ _)) by lia.
    repeat split. destruct (DevNum.eq F x y); [| reflexivity].
    exfalso. assert (DevNum._compact F x = DevNum._compact F y) by (apply Heq; reflexivity). lia.
Qed.

End Order.

(** C4 at a failing input.  In [Fd16], -2.00 is less than -1.00, and both
    are finite; yet [lt] answers false and [gt] answers true, and the encoder
    gives the smaller number the larger integer. *)
Theorem order_reversed_on_negatives :
  let x := Build_Num (-200) 0 Fd16 in
  let y := Build_Num (-100) 0 Fd16 in
  DevNum.isNumber Fd16 x = true /\ DevNum.isNumber Fd16 y = true /\
  numeric_lt x y = true /\
  DevNum.lt Fd16 x y = false /\ DevNum.gt Fd16 x y = true /\
  DevNum._compact Fd16 y < DevNum._compact Fd16 x.
Proof. repeat split; reflexivity. Qed.

(* ===================================================================== *)
(** * Looking up the power table *)

Lemma P_in_range (i : Z) : 0 <= i < TABLE_LEN -> P i = Ok (10 ^ i).
Proof.
  intros [Hlo Hhi]. unfold P, list_index, P_entry.
  destruct (Z.leb_spec 0 i) as [_ | H]; [| lia].
  destruct (Z.ltb_spec i TABLE_LEN) as [_ | H]; [| lia].
  reflexivity.
Qed.

Lemma MIDPOINTS_in_range (i : Z) :
  1 <= i < TABLE_LEN -> MIDPOINTS i = Ok (10 ^ i / 2 - 1).
Proof.
  intros [Hlo Hhi]. unfold MIDPOINTS, list_index, MIDPOINTS_entry, P_entry.
  destruct (Z.leb_spec 0 i) as [_ | H]; [| lia].
  destruct (Z.ltb_spec i TABLE_LEN) as [_ | H]; [| lia].
  destruct (Z.eqb_spec i 0) as [H | _]; [lia |].
  reflexivity.
Qed.

(* ===================================================================== *)
(** * [unpack] *)

(** The first branch of [unpack]: the index is in the table. *)
Lemma unpack_multiplies (F : Floating) (n : Num) (t : Z) :
  0 <= exponent n - t < TABLE_LEN ->
  DevNum.unpack F n t = Ok (PyInt (mantissa n * 10 ^ (exponent n - t))).
Proof.
  intros H. unfold DevNum.unpack.
  destruct (Z.leb_spec 0 (exponent n - t)) as [_ | Hneg]; [| lia].
  unfold P, list_index, P_entry.
  destruct (Z.leb_spec 0 (exponent n - t)) as [_ | Hneg]; [| lia].
  destruct (Z.ltb_spec (exponent n - t) TABLE_LEN) as [_ | Hge]; [| lia].
  reflexivity.
Qed.

(** C6, as the specification has it, fails twice over in [Fd16].  Aligning
    1.00 to exponent -3000 indexes the power table past its end, and
    aligning 1.01 to exponent 1 divides with [/], whose value is the float
    10.1 and not the integer 10. *)
Lemma unpack_counterexample :
  DevNum.unpack Fd16 (Build_Num 100 0 Fd16) (-3000)
    <> Ok (PyInt (100 * 10 ^ (0 - -3000))) /\
  DevNum.unpack Fd16 (Build_Num 101 0 Fd16) 1
    <> Ok (PyInt (101 / 10 ^ Z.min (1 - 0) (DIGITS Fd16))).
Proof.
  split.
  - assert (H : DevNum.unpack Fd16 (Build_Num 100 0 Fd16) (-3000)
                = Raise IndexError) by reflexivity.
    rewrite H. discriminate.
  - assert (H : DevNum.unpack Fd16 (Build_Num 101 0 Fd16) 1
                = Ok (PyFloat (S754_finite false 5685794529555251 (-49))))
      by (vm_compute; reflexivity).
    rewrite H. discriminate.
Qed.

(** C6, amended.  For every number [n] and target exponent [t] with
    [0 <= n.exponent - t < 3 * MAX_DIGITS], [unpack n t] returns exactly
    [n.mantissa * 10^(n.exponent - t)]; nothing is rounded and nothing about
    [n] is checked. *)
Theorem unpack_scales_up (F : Floating) (n : Num) (t : Z) :
  0 <= exponent n - t < 3 * MAX_DIGITS ->
  DevNum.unpack F n t = Ok (PyInt (mantissa n * 10 ^ (exponent n - t))).
Proof.
  intros H. apply unpack_multiplies. unfold TABLE_LEN. lia.
Qed.

Lemma unpack_scales_up_witness :
  0 <= exponent (Build_Num 123 0 Fd16) - (-3) < 3 * MAX_DIGITS /\
  DevNum.unpack Fd16 (Build_Num 123 0 Fd16) (-3) = Ok (PyInt 123000).
Proof.
  split.
  - unfold MAX_DIGITS; simpl; lia.
  - apply (unpack_scales_up Fd16 (Build_Num 123 0 Fd16) (-3)).
    unfold MAX_DIGITS; simpl; lia.
Defined.

(* ===================================================================== *)
(** * The digit-count estimator *)

Lemma estimate_nonneg (b : Z) : 0 <= b -> 0 <= estimate b.
Proof. intros H. unfold estimate. apply Z.shiftr_nonneg. lia. Qed.

Lemma estimate_check_sound (fuel : nat) :
  forall b pw2 r p10,
    0 <= b -> pw2 = 2 ^ b -> r = estimate b -> p10 = 10 ^ (r + 1) ->
    estimate_check fuel b pw2 r p10 = true ->
    forall b', b <= b' < b + Z.of_nat fuel -> estimate_fits b'.
Proof.
  induction fuel as [| fuel IH]; intros b pw2 r p10 Hb Hpw2 Hr Hp10 Hcheck b' Hb'.
  - simpl in Hb'. lia.
  - cbn [estimate_check] in Hcheck.
    rewrite !andb_true_iff in Hcheck.
    destruct Hcheck as [[[[Hlen Hup] Hlow] Hnext] Hrest].
    destruct (Z.eq_dec b' b) as [-> | Hne].
    + unfold estimate_fits. cbv zeta. rewrite <- Hr, <- Hp10, <- Hpw2.
      apply Z.ltb_lt in Hlen. apply Z.leb_le in Hup.
      apply orb_true_iff in Hlow.
      split; [exact Hlen | split; [exact Hup |]].
      destruct Hlow as [H0 | Hle].
      * left. apply Z.eqb_eq. exact H0.
      * right. apply Z.leb_le. exact Hle.
    + apply (IH (b + 1) (2 * pw2) (estimate (b + 1))
               (if estimate (b + 1) =? r then p10 else 10 * p10)).
      * lia.
      * rewrite Hpw2, Z.pow_add_r by lia. change (2 ^ 1) with 2. ring.
      * reflexivity.
      * pose proof (estimate_nonneg b Hb) as Hr0. rewrite <- Hr in Hr0.
        apply orb_true_iff in Hnext.
        destruct (Z.eqb_spec (estimate (b + 1)) r) as [Hsame | Hdiff].
        -- rewrite Hsame. exact Hp10.
        -- destruct Hnext as [Hn | Hn]; [discriminate Hn |].
           apply Z.eqb_eq in Hn. rewrite Hn, Hp10.
           rewrite (Z.pow_add_r 10 (r + 1) 1) by lia.
           change (10 ^ 1) with 10. ring.
      * exact Hrest.
      * rewrite Nat2Z.inj_succ in Hb'. lia.
Qed.

(** The run over all bit lengths from 1 to [ESTIMATE_BITS] succeeds. *)
Lemma estimate_check_all :
  estimate_check (Z.to_nat ESTIMATE_BITS) 1 2 0 10 = true.
Proof. vm_compute. reflexivity. Qed.

Lemma estimate_fits_all (b : Z) : 1 <= b <= ESTIMATE_BITS -> estimate_fits b.
Proof.
  intros Hb.
  refine (estimate_check_sound (Z.to_nat ESTIMATE_BITS) 1 2 0 10
            _ _ _ _ estimate_check_all b _).
  - lia.
  - reflexivity.
  - reflexivity.
  - reflexivity.
  - rewrite Z2Nat.id by (unfold ESTIMATE_BITS; lia). lia.
Qed.

Lemma is_digits_unique (n d d' : Z) : is_digits n d -> is_digits n d' -> d = d'.
Proof.
  intros [[Hn Hd] | [Hd [Hlo Hhi]]] [[Hn' Hd'] | [Hd' [Hlo' Hhi']]].
  - lia.
  - subst n. simpl in Hlo'.
    pose proof (Z.pow_pos_nonneg 10 (d' - 1)). lia.
  - subst n. simpl in Hlo.
    pose proof (Z.pow_pos_nonneg 10 (d - 1)). lia.
  - assert (H1 : d - 1 < d').
    { apply (Z.pow_lt_mono_r_iff 10); lia. }
    assert (H2 : d' - 1 < d).
    { apply (Z.pow_lt_mono_r_iff 10); lia. }
    lia.
Qed.

Lemma bit_length_bounds (a : Z) :
  0 < a -> 1 <= bit_length a /\ 2 ^ (bit_length a) <= 2 * a /\ a < 2 ^ (bit_length a).
Proof.
  intros Ha. unfold bit_length.
  destruct (Z.eqb_spec a 0) as [H | _]; [lia |].
  rewrite Z.abs_eq by lia.
  pose proof (Z.log2_spec a Ha) as [Hlo Hhi].
  pose proof (Z.log2_nonneg a) as Hnn.
  replace (Z.succ (Z.log2 a)) with (Z.log2 a + 1) in Hhi by lia.
  rewrite Z.pow_add_r by lia. change (2 ^ 1) with 2.
  rewrite Z.pow_add_r in Hhi by lia. change (2 ^ 1) with 2 in Hhi.
  lia.
Qed.

Lemma bit_length_le (a k : Z) : 0 < a -> 0 <= k -> a < 2 ^ k -> bit_length a <= k.
Proof.
  intros Ha Hk Hlt. unfold bit_length.
  destruct (Z.eqb_spec a 0) as [H | _]; [lia |].
  rewrite Z.abs_eq by lia.
  pose proof (proj1 (Z.log2_lt_pow2 a k Ha) Hlt). lia.
Qed.

(** [_log10] is exact on every integer of at most [ESTIMATE_BITS] bits. *)
Lemma log10_spec (n : Z) :
  Z.abs n < 2 ^ ESTIMATE_BITS ->
  exists d, _log10 (PyInt n) = Ok d /\ is_digits n d /\ 0 <= d <= TABLE_LEN.
Proof.
  intros Hn. unfold _log10. cbv zeta.
  destruct (Z.eq_dec n 0) as [-> | Hne].
  - exists 0. split; [reflexivity |]. split; [left; split; reflexivity |].
    unfold TABLE_LEN, MAX_DIGITS. lia.
  - assert (Ha : 0 < Z.abs n) by lia.
    destruct (bit_length_bounds (Z.abs n) Ha) as [Hb1 [Hb2 Hb3]].
    assert (Hb4 : bit_length (Z.abs n) <= ESTIMATE_BITS).
    { apply bit_length_le; [exact Ha | unfold ESTIMATE_BITS; lia | exact Hn]. }
    destruct (estimate_fits_all (bit_length (Z.abs n)) (conj Hb1 Hb4))
      as [Hr1 [Hr2 Hr3]].
    pose proof (estimate_nonneg (bit_length (Z.abs n)) ltac:(lia)) as Hr0.
    fold (estimate (bit_length (Z.abs n))).
    set (r := estimate (bit_length (Z.abs n))) in *.
    rewrite (P_in_range r (conj Hr0 Hr1)). cbn [bind].
    assert (Hten : 10 ^ (r + 1) = 10 * 10 ^ r).
    { rewrite Z.pow_add_r by lia. change (10 ^ 1) with 10. ring. }
    destruct (Z.leb_spec (10 ^ r) (Z.abs n)) as [Hge | Hlt].
    + exists (r + 1). split; [reflexivity |]. split; [| lia].
      right. replace (r + 1 - 1) with r by lia. lia.
    + exists r. split; [reflexivity |].
      assert (Hrpos : 1 <= r).
      { destruct (Z.eq_dec r 0) as [Hz | Hz]; [| lia].
        rewrite Hz in Hlt. simpl in Hlt. lia. }
      split; [| lia].
      right. split; [exact Hrpos |]. split; [| exact Hlt].
      destruct Hr3 as [Hz | Hr3]; [lia |].
      assert (Hten' : 10 ^ r = 10 * 10 ^ (r - 1)).
      { replace r with (r - 1 + 1) at 1 by lia.
        rewrite Z.pow_add_r by lia. change (10 ^ 1) with 10. ring. }
      lia.
Qed.

(** The largest entry of the power table has fewer than [ESTIMATE_BITS] bits. *)
Lemma table_below_estimate_limit : 10 ^ (TABLE_LEN - 1) < 2 ^ ESTIMATE_BITS.
Proof. apply Z.ltb_lt. vm_compute. reflexivity. Qed.

Lemma pow10_below_estimate_limit (i : Z) :
  i < TABLE_LEN -> 10 ^ i < 2 ^ ESTIMATE_BITS.
Proof.
  intros Hi.
  apply Z.le_lt_trans with (10 ^ (TABLE_LEN - 1));
    [| exact table_below_estimate_limit].
  destruct (Z_lt_le_dec i 0) as [Hneg | Hpos].
  - rewrite (Z.pow_neg_r 10 i Hneg).
    apply Z.pow_nonneg. lia.
  - apply Z.pow_le_mono_r; lia.
Qed.

Lemma log10_of_digits (n d : Z) :
  Z.abs n < 2 ^ ESTIMATE_BITS -> is_digits n d -> _log10 (PyInt n) = Ok d.
Proof.
  intros Hn Hd.
  destruct (log10_spec n Hn) as [d' [Hlog [Hd' _]]].
  rewrite Hlog. f_equal. exact (is_digits_unique n d' d Hd' Hd).
Qed.

(** C3.  For every [i] in [[0, 3*MAX_DIGITS)], the estimator gives
    [_log10(10^i) = i + 1] and [_log10(10^i - 1) = i]: the fixed-point
    estimate corrected against the power table is the exact digit count at
    every boundary the table covers, so the start-up check passes. *)
Theorem log10_exact_at_powers_of_ten (i : Z) :
  0 <= i < 3 * MAX_DIGITS ->
  _log10 (PyInt (10 ^ i)) = Ok (i + 1) /\ _log10 (PyInt (10 ^ i - 1)) = Ok i.
Proof.
  intros Hi.
  assert (Hlen : i < TABLE_LEN) by (unfold TABLE_LEN; lia).
  pose proof (pow10_below_estimate_limit i Hlen) as Hlim.
  pose proof (Z.pow_pos_nonneg 10 i ltac:(lia) ltac:(lia)) as Hpos.
  split.
  - apply log10_of_digits.
    + rewrite Z.abs_eq by lia. exact Hlim.
    + right. split; [lia |].
      rewrite Z.abs_eq by lia. replace (i + 1 - 1) with i by lia.
      split; [lia |].
      apply Z.pow_lt_mono_r; lia.
  - apply log10_of_digits.
    + rewrite Z.abs_eq by lia. lia.
    + destruct (Z.eq_dec i 0) as [-> | Hne].
      * left. split; reflexivity.
      * right. split; [lia |].
        rewrite Z.abs_eq by lia.
        assert (Hten : 10 ^ i = 10 * 10 ^ (i - 1)).
        { replace i with (i - 1 + 1) at 1 by lia.
          rewrite Z.pow_add_r by lia. change (10 ^ 1) with 10. ring. }
        pose proof (Z.pow_pos_nonneg 10 (i - 1) ltac:(lia) ltac:(lia)).
        lia.
Qed.

Lemma log10_exact_at_powers_of_ten_witness :
  0 <= 5 < 3 * MAX_DIGITS /\
  _log10 (PyInt (10 ^ 5)) = Ok (5 + 1) /\ _log10 (PyInt (10 ^ 5 - 1)) = Ok 5.
Proof.
  split.
  - unfold MAX_DIGITS. lia.
  - apply (log10_exact_at_powers_of_ten 5). unfold MAX_DIGITS. lia.
Defined.

(* ===================================================================== *)
(** * Rounding and padding *)

Section Normaliser.

Variable F : Floating.
Hypothesis F_supported : supported F.

Lemma DIGITS_lt_TABLE_LEN : DIGITS F < TABLE_LEN.
Proof.
  pose proof F_supported as [_ H]. unfold TABLE_LEN, MAX_DIGITS in *. lia.
Qed.

Lemma pow10_split (i j : Z) : 0 <= i -> 0 <= j -> 10 ^ (i + j) = 10 ^ i * 10 ^ j.
Proof. intros Hi Hj. apply Z.pow_add_r; assumption. Qed.

(** Rounding a mantissa that has [k] digits too many. *)
Lemma pack_round_long (m e d : Z) :
  is_digits m d -> d <= TABLE_LEN -> 0 < d - DIGITS F ->
  exists m' e',
    DevNum.pack_round F m e d = Ok (m', e')
    /\ (e' = e \/ e' = e + 1)
    /\ MANTISSA_MIN F <= Z.abs m' <= MANTISSA_MAX F.
Proof.
  intros Hd Hlen Hk.
  pose proof (proj1 F_supported) as digits_pos.
  destruct Hd as [[_ Hd0] | [Hd1 [Hlo Hhi]]]; [lia |].
  pose proof (MANTISSA_MIN_pos F (proj1 F_supported)) as Hmin.
  pose proof (MANTISSA_MAX_eq F (proj1 F_supported)) as Hmax.
  unfold DevNum.pack_round. cbv zeta.
  destruct (Z.ltb_spec 0 (d - DIGITS F)) as [_ | H]; [| lia].
  set (k := d - DIGITS F) in *.
  rewrite (P_in_range k) by lia. cbn [bind].
  rewrite (MIDPOINTS_in_range k) by lia. cbn [bind].
  assert (HK : 0 < 10 ^ k) by (apply Z.pow_pos_nonneg; lia).
  assert (Hlo' : 10 ^ k * MANTISSA_MIN F <= Z.abs m).
  { unfold MANTISSA_MIN. rewrite <- pow10_split by lia.
    replace (k + (DIGITS F - 1)) with (d - 1) by (unfold k; lia). exact Hlo. }
  assert (Hhi' : Z.abs m < 10 ^ k * (10 * MANTISSA_MIN F)).
  { replace (10 * MANTISSA_MIN F) with (10 ^ DIGITS F)
      by (unfold MANTISSA_MAX in Hmax; lia).
    rewrite <- pow10_split by lia.
    replace (k + DIGITS F) with d by (unfold k; lia). exact Hhi. }
  pose proof (Z.div_le_lower_bound _ _ _ HK Hlo') as Ht1.
  pose proof (Z.div_lt_upper_bound _ _ _ HK Hhi') as Ht2.
  set (truncated := Z.abs m / 10 ^ k) in *.
  set (remainder := Z.abs m mod 10 ^ k).
  set (midpoint := 10 ^ k / 2 - 1 + truncated mod 2).
  set (rounded := truncated + (if midpoint <=? remainder then 1 else 0)).
  assert (Hr : truncated <= rounded <= truncated + 1).
  { unfold rounded. destruct (midpoint <=? remainder); lia. }
  destruct (Z.ltb_spec (MANTISSA_MAX F) rounded) as [Hcarry | Hfit].
  - (* the round-up carried into one more digit *)
    assert (Hten : rounded = MANTISSA_MIN F * 10) by lia.
    rewrite Hten, Z.div_mul, Z.mod_mul by lia.
    pose proof (Z.mod_pos_bound (MANTISSA_MIN F) 2 ltac:(lia)) as Hpar.
    destruct (Z.leb_spec (4 + MANTISSA_MIN F mod 2) 0) as [Hbad | _]; [lia |].
    rewrite Z.add_0_r.
    exists (if 0 <=? m then MANTISSA_MIN F else - MANTISSA_MIN F), (e + 1).
    split; [reflexivity |]. split; [right; reflexivity |].
    destruct (0 <=? m); lia.
  - exists (if 0 <=? m then rounded else - rounded), e.
    split; [reflexivity |]. split; [left; reflexivity |].
    destruct (0 <=? m); lia.
Qed.

(** Padding a mantissa that has no more digits than the format. *)
Lemma pack_round_short (m e d : Z) :
  is_digits m d -> d - DIGITS F <= 0 ->
  DevNum.pack_round F m e d = Ok (m * 10 ^ (DIGITS F - d), e)
  /\ ((m = 0 /\ d = 0)
      \/ (m <> 0 /\ MANTISSA_MIN F <= Z.abs (m * 10 ^ (DIGITS F - d)) <= MANTISSA_MAX F)).
Proof.
  intros Hd Hk.
  pose proof (proj1 F_supported) as digits_pos.
  pose proof DIGITS_lt_TABLE_LEN as Hlen.
  assert (Hd0 : 0 <= d) by (destruct Hd as [[_ ->] | [H _]]; lia).
  unfold DevNum.pack_round. cbv zeta.
  destruct (Z.ltb_spec 0 (d - DIGITS F)) as [H | _]; [lia |].
  replace (- (d - DIGITS F)) with (DIGITS F - d) by lia.
  rewrite (P_in_range (DIGITS F - d)) by lia. cbn [bind].
  split; [reflexivity |].
  destruct Hd as [[Hm Hz] | [Hd1 [Hlo Hhi]]].
  - left. split; assumption.
  - right.
    assert (Hne : m <> 0).
    { intros ->. simpl in Hlo.
      pose proof (Z.pow_pos_nonneg 10 (d - 1)). lia. }
    split; [exact Hne |].
    assert (HK : 0 < 10 ^ (DIGITS F - d)) by (apply Z.pow_pos_nonneg; lia).
    rewrite Z.abs_mul, (Z.abs_eq (10 ^ (DIGITS F - d))) by lia.
    assert (E1 : MANTISSA_MIN F = 10 ^ (d - 1) * 10 ^ (DIGITS F - d)).
    { unfold MANTISSA_MIN. rewrite <- pow10_split by lia. f_equal. lia. }
    assert (E2 : MANTISSA_MAX F = 10 ^ d * 10 ^ (DIGITS F - d) - 1).
    { unfold MANTISSA_MAX. rewrite <- pow10_split by lia.
      do 2 f_equal. lia. }
    rewrite E1, E2.
    split.
    + apply Z.mul_le_mono_nonneg_r; lia.
    + assert (Z.abs m * 10 ^ (DIGITS F - d) < 10 ^ d * 10 ^ (DIGITS F - d)).
      { apply Z.mul_lt_mono_pos_r; lia. }
      lia.
Qed.

(** [pack_round] never raises on a mantissa whose digits are counted
    right, keeps zero and nothing else at zero, and brings every other
    mantissa into the format's range. *)
Lemma pack_round_spec (m e d : Z) :
  is_digits m d -> d <= TABLE_LEN ->
  exists m' e',
    DevNum.pack_round F m e d = Ok (m', e')
    /\ (e' = e \/ e' = e + 1)
    /\ ((m = 0 /\ m' = 0)
        \/ (m <> 0 /\ MANTISSA_MIN F <= Z.abs m' <= MANTISSA_MAX F)).
Proof.
  intros Hd Hlen.
  pose proof (proj1 F_supported) as digits_pos.
  destruct (Z_lt_le_dec 0 (d - DIGITS F)) as [Hlong | Hshort].
  - destruct (pack_round_long m e d Hd Hlen Hlong) as [m' [e' [Hp [He Hm]]]].
    exists m', e'. split; [exact Hp |]. split; [exact He |].
    right. split; [| exact Hm].
    intros ->. destruct Hd as [[_ Hz] | [_ [Hlo Hhi]]]; [lia |].
    simpl in Hhi. pose proof (Z.pow_pos_nonneg 10 (d - 1)).
    simpl in Hlo. lia.
  - destruct (pack_round_short m e d Hd Hshort) as [Hp Hm].
    exists (m * 10 ^ (DIGITS F - d)), e.
    split; [exact Hp |]. split; [left; reflexivity |].
    destruct Hm as [[Hm Hz] | [Hne Hb]].
    + left. split; [exact Hm |]. rewrite Hm. reflexivity.
    + right. split; assumption.
Qed.

End Normaliser.

(* ===================================================================== *)
(** * [pack] on integers *)

Lemma pack_int (F : Floating) (m e expected d m' e' : Z) :
  _log10 (PyInt m) = Ok d ->
  DevNum.pack_round F m e d = Ok (m', e') ->
  DevNum.pack F (PyInt m) e expected
  = Ok (DevNum.pack_canon F m' (e' + (d - expected))).
Proof.
  intros Hlog Hround. unfold DevNum.pack.
  rewrite Hlog. cbn [bind]. rewrite Hround. reflexivity.
Qed.

(** C2, as the specification has it, fails: [pack] counts the digits of the
    mantissa against the power table, and an integer of 9966 bits is beyond
    the table. *)
Lemma pack_counterexample :
  ~ exists r : Num, DevNum.pack Fd16 (PyInt (2 ^ 9965)) 0 0 = Ok r.
Proof.
  assert (H : DevNum.pack Fd16 (PyInt (2 ^ 9965)) 0 0 = Raise IndexError)
    by (vm_compute; reflexivity).
  intros [r Hr]. rewrite H in Hr. discriminate Hr.
Qed.

(** C2, amended.  For every supported format, every integer mantissa below
    [2^9965] in magnitude and all integers [exponent] and [expected], [pack]
    raises nothing.  With [m'] the mantissa after rounding or padding and
    [e''] the exponent after the carry and the digit-count adjustment, it
    returns the cached zero when [m' = 0], the cached undefined when
    [e'' > EXPONENT_MAX], the cached zero when [e'' < EXPONENT_MIN], and in
    every other case the number [(m', e'')], which is finite: its mantissa
    lies in [[MANTISSA_MIN, MANTISSA_MAX]] in magnitude and its exponent in
    [[EXPONENT_MIN, EXPONENT_MAX]]. *)
Theorem pack_canonical (F : Floating) (m e expected : Z) :
  supported F ->
  Z.abs m < 2 ^ ESTIMATE_BITS ->
  exists d m' e',
    _log10 (PyInt m) = Ok d /\
    DevNum.pack_round F m e d = Ok (m', e') /\
    (m' = 0 <-> m = 0) /\
    let e'' := e' + (d - expected) in
    (m' = 0 -> DevNum.pack F (PyInt m) e expected = Ok (zero F)) /\
    (m' <> 0 -> EXPONENT_MAX F < e'' ->
     DevNum.pack F (PyInt m) e expected = Ok (undefined F)) /\
    (m' <> 0 -> e'' <= EXPONENT_MAX F -> e'' < EXPONENT_MIN F ->
     DevNum.pack F (PyInt m) e expected = Ok (zero F)) /\
    (m' <> 0 -> EXPONENT_MIN F <= e'' <= EXPONENT_MAX F ->
     DevNum.pack F (PyInt m) e expected = Ok (Build_Num m' e'' F)
     /\ finite F (Build_Num m' e'' F)).
Proof.
  intros HF Hm.
  destruct (log10_spec m Hm) as [d [Hlog [Hd [_ Hlen]]]].
  destruct (pack_round_spec F HF m e d Hd Hlen) as [m' [e' [Hround [_ Hshape]]]].
  pose proof (MANTISSA_MIN_pos F (proj1 HF)) as Hmin.
  exists d, m', e'. split; [exact Hlog |]. split; [exact Hround |].
  split.
  { destruct Hshape as [[H0 H0'] | [Hne Hb]]; [tauto |].
    split; intros H; [| contradiction].
    rewrite H in Hb. simpl in Hb. lia. }
  cbv zeta. rewrite (pack_int F m e expected d m' e' Hlog Hround).
  unfold DevNum.pack_canon.
  split; [| split; [| split]].
  - intros ->. reflexivity.
  - intros Hne Hover.
    destruct (Z.eqb_spec m' 0) as [H | _]; [contradiction |].
    destruct (Z.ltb_spec (EXPONENT_MAX F) (e' + (d - expected))) as [_ | H];
      [reflexivity | lia].
  - intros Hne Hle Hunder.
    destruct (Z.eqb_spec m' 0) as [H | _]; [contradiction |].
    destruct (Z.ltb_spec (EXPONENT_MAX F) (e' + (d - expected))) as [H | _];
      [lia |].
    destruct (Z.ltb_spec (e' + (d - expected)) (EXPONENT_MIN F)) as [_ | H];
      [reflexivity | lia].
  - intros Hne [Hge Hle].
    destruct (Z.eqb_spec m' 0) as [H | _]; [contradiction |].
    destruct (Z.ltb_spec (EXPONENT_MAX F) (e' + (d - expected))) as [H | _];
      [lia |].
    destruct (Z.ltb_spec (e' + (d - expected)) (EXPONENT_MIN F)) as [H | _];
      [lia |].
    split; [reflexivity |].
    destruct Hshape as [[_ H] | [_ Hb]]; [contradiction |].
    unfold finite. cbn [mantissa exponent]. lia.
Qed.

Lemma pack_canonical_witness :
  (supported Fd16 /\ Z.abs 99951 < 2 ^ ESTIMATE_BITS) /\
  exists d m' e',
    _log10 (PyInt 99951) = Ok d /\
    DevNum.pack_round Fd16 99951 4 d = Ok (m', e') /\
    (m' = 0 <-> 99951 = 0) /\
    let e'' := e' + (d - 5) in
    (m' = 0 -> DevNum.pack Fd16 (PyInt 99951) 4 5 = Ok (zero Fd16)) /\
    (m' <> 0 -> EXPONENT_MAX Fd16 < e'' ->
     DevNum.pack Fd16 (PyInt 99951) 4 5 = Ok (undefined Fd16)) /\
    (m' <> 0 -> e'' <= EXPONENT_MAX Fd16 -> e'' < EXPONENT_MIN Fd16 ->
     DevNum.pack Fd16 (PyInt 99951) 4 5 = Ok (zero Fd16)) /\
    (m' <> 0 -> EXPONENT_MIN Fd16 <= e'' <= EXPONENT_MAX Fd16 ->
     DevNum.pack Fd16 (PyInt 99951) 4 5 = Ok (Build_Num m' e'' Fd16)
     /\ finite Fd16 (Build_Num m' e'' Fd16)).
Proof.
  assert (HF : supported Fd16) by (unfold supported, MAX_DIGITS; simpl; lia).
  assert (Hm : Z.abs 99951 < 2 ^ ESTIMATE_BITS) by (vm_compute; reflexivity).
  split.
  - split; [exact HF | exact Hm].
  - exact (pack_canonical Fd16 99951 4 5 HF Hm).
Defined.

(* ===================================================================== *)
(** * Round trip through [unpack] and [pack] *)

(** C5, as the specification has it, fails in [Fd16]: 1.01 unpacked to
    exponent 1, which is inside the window, is the float 10.1, and [pack]
    raises on it. *)
Lemma round_trip_counterexample :
  let n := Build_Num 101 0 Fd16 in
  finite Fd16 n /\
  exponent n <= 1 <= exponent n + DIGITS Fd16 /\
  (v <- DevNum.unpack Fd16 n 1 ;; DevNum.pack Fd16 v 1 (DIGITS Fd16)) <> Ok n.
Proof.
  intros n. split; [| split].
  - unfold finite, n. vm_compute. repeat split; congruence.
  - unfold n. simpl. lia.
  - assert (H : (v <- DevNum.unpack Fd16 n 1 ;; DevNum.pack Fd16 v 1 (DIGITS Fd16))
                = Raise AttributeError) by (vm_compute; reflexivity).
    rewrite H. discriminate.
Qed.

(** C5, amended.  For every finite number [n] of a supported format,
    unpacking [n] to its own exponent and packing the result at that
    exponent with [DIGITS] expected digits gives [n] back. *)
Theorem round_trip_same_exponent (F : Floating) (n : Num) :
  supported F ->
  finite F n ->
  format n = F ->
  (v <- DevNum.unpack F n (exponent n) ;;
   DevNum.pack F v (exponent n) (DIGITS F)) = Ok n.
Proof.
  intros HF Hfin Hfmt.
  pose proof (DIGITS_lt_TABLE_LEN F HF) as Hlen.
  pose proof (MANTISSA_MIN_pos F (proj1 HF)) as Hmin.
  destruct Hfin as [[Hlo Hhi] [Helo Hehi]].
  rewrite unpack_multiplies by (rewrite Z.sub_diag; unfold TABLE_LEN, MAX_DIGITS; lia).
  cbn [bind]. rewrite Z.sub_diag, Z.pow_0_r, Z.mul_1_r.
  assert (Hd : is_digits (mantissa n) (DIGITS F)).
  { right. split; [exact (proj1 HF) |].
    unfold MANTISSA_MIN, MANTISSA_MAX in *. lia. }
  assert (Hlim : Z.abs (mantissa n) < 2 ^ ESTIMATE_BITS).
  { pose proof (pow10_below_estimate_limit (DIGITS F) Hlen).
    unfold MANTISSA_MAX in Hhi. lia. }
  destruct (pack_round_short F HF (mantissa n) (exponent n) (DIGITS F) Hd
              ltac:(lia)) as [Hround _].
  rewrite Z.sub_diag, Z.pow_0_r, Z.mul_1_r in Hround.
  rewrite (pack_int F _ _ _ _ _ _ (log10_of_digits _ _ Hlim Hd) Hround).
  unfold DevNum.pack_canon.
  destruct (Z.eqb_spec (mantissa n) 0) as [H0 | _].
  { rewrite H0 in Hlo. simpl in Hlo. lia. }
  rewrite Z.sub_diag, Z.add_0_r.
  destruct (Z.ltb_spec (EXPONENT_MAX F) (exponent n)) as [H | _]; [lia |].
  destruct (Z.ltb_spec (exponent n) (EXPONENT_MIN F)) as [H | _]; [lia |].
  destruct n as [m e f]. simpl in *. subst f. reflexivity.
Qed.

Lemma round_trip_same_exponent_witness :
  (supported Fd16 /\ finite Fd16 (Build_Num (-101) 7 Fd16)
   /\ format (Build_Num (-101) 7 Fd16) = Fd16) /\
  (v <- DevNum.unpack Fd16 (Build_Num (-101) 7 Fd16) 7 ;;
   DevNum.pack Fd16 v 7 (DIGITS Fd16)) = Ok (Build_Num (-101) 7 Fd16).
Proof.
  assert (HF : supported Fd16) by (unfold supported, MAX_DIGITS; simpl; lia).
  assert (Hfin : finite Fd16 (Build_Num (-101) 7 Fd16)).
  { unfold finite. vm_compute. repeat split; congruence. }
  split.
  - split; [exact HF | split; [exact Hfin | reflexivity]].
  - exact (round_trip_same_exponent Fd16 (Build_Num (-101) 7 Fd16) HF Hfin eq_refl).
Defined.

(* ===================================================================== *)
(** * Adding zero *)

Section AddZero.
Variable F : Floating.
Hypothesis F_supported : supported F.

(** A mantissa of the format followed by [k] zero digits rounds to itself. *)
Lemma pack_round_trailing_zeros (m e k : Z) :
  MANTISSA_MIN F <= Z.abs m <= MANTISSA_MAX F ->
  1 <= k < TABLE_LEN ->
  DevNum.pack_round F (m * 10 ^ k) e (DIGITS F + k) = Ok (m, e).
Proof.
  intros [Hlo Hhi] Hk.
  pose proof (MANTISSA_MIN_pos F (proj1 F_supported)) as Hmin.
  unfold DevNum.pack_round. cbv zeta.
  replace (DIGITS F + k - DIGITS F) with k by lia.
  destruct (Z.ltb_spec 0 k) as [_ | H]; [| lia].
  rewrite (P_in_range k) by lia. cbn [bind].
  rewrite (MIDPOINTS_in_range k) by lia. cbn [bind].
  assert (HK : 0 < 10 ^ k) by (apply Z.pow_pos_nonneg; lia).
  assert (Hten : 10 <= 10 ^ k).
  { change 10 with (10 ^ 1) at 1. apply Z.pow_le_mono_r; lia. }
  rewrite Z.abs_mul, (Z.abs_eq (10 ^ k)) by lia.
  rewrite Z.div_mul, Z.mod_mul by lia.
  assert (Hmid : 5 <= 10 ^ k / 2) by (apply Z.div_le_lower_bound; lia).
  pose proof (Z.mod_pos_bound (Z.abs m) 2 ltac:(lia)) as Hpar.
  destruct (Z.leb_spec (10 ^ k / 2 - 1 + Z.abs m mod 2) 0) as [H | _]; [lia |].
  rewrite Z.add_0_r.
  destruct (Z.ltb_spec (MANTISSA_MAX F) (Z.abs m)) as [H | _]; [lia |].
  f_equal. f_equal.
  destruct (Z.leb_spec 0 (m * 10 ^ k)) as [Hpos | Hneg].
  - apply Z.abs_eq. nia.
  - rewrite Z.abs_neq by nia. lia.
Qed.

Lemma isInvalid_zero : DevNum.isInvalid F (zero F) = false.
Proof.
  unfold DevNum.isInvalid, DevNum.isNumber, zero. cbn [mantissa exponent].
  rewrite !Z.eqb_refl. reflexivity.
Qed.

(** The two outcomes of the division branch of [unpack] on a zero mantissa. *)
Lemma truediv_zero (p : Z) : 0 < p -> py_truediv 0 p = Ok (PyFloat (S754_zero false)).
Proof.
  intros Hp. unfold py_truediv, Float64.truediv.
  destruct (Z.eqb_spec p 0) as [H | _]; [lia |].
  destruct p as [| q | q]; try lia. reflexivity.
Qed.

(** Adding the cached zero gives the number back as long as its exponent is
    within [DIGITS] of the exponent that tags zero. *)
Lemma add_zero_near (x : Num) :
  finite F x -> format x = F ->
  exponent x <= SPECIAL F + DIGITS F ->
  DevNum.add F x (zero F) = Ok x.
Proof.
  intros Hfin Hfmt Hnear.
  pose proof F_supported as [HD1 HD2]. unfold MAX_DIGITS in HD2.
  assert (Hlen : TABLE_LEN = 3000) by reflexivity.
  assert (HS : SPECIAL F = EXPONENT_MIN F - 1) by reflexivity.
  pose proof (MANTISSA_MIN_pos F HD1) as Hmin.
  pose proof (MANTISSA_MAX_eq F HD1) as Hmax.
  unfold DevNum.add, DevNum.isInvalid.
  rewrite (isNumber_finite F x Hfin).
  fold (DevNum.isInvalid F (zero F)). rewrite isInvalid_zero. cbn [negb orb].
  destruct Hfin as [[Hlo Hhi] [Helo Hehi]].
  assert (HE : Z.max (exponent x) (exponent (zero F)) = exponent x).
  { unfold zero. cbn [exponent]. lia. }
  cbv zeta. rewrite HE.
  rewrite (unpack_multiplies F x) by lia. cbn [bind].
  rewrite (unpack_multiplies F (zero F))
    by (unfold zero; cbn [exponent]; lia).
  cbn [bind py_add]. unfold zero at 1. cbn [mantissa].
  rewrite Z.mul_0_l, Z.add_0_r.
  replace (exponent x - (exponent x - DIGITS F)) with (DIGITS F) by lia.
  assert (HK : 0 < 10 ^ DIGITS F) by (apply Z.pow_pos_nonneg; lia).
  assert (Hd : is_digits (mantissa x * 10 ^ DIGITS F) (DIGITS F + DIGITS F)).
  { right. split; [lia |].
    rewrite Z.abs_mul, (Z.abs_eq (10 ^ DIGITS F)) by lia.
    replace (DIGITS F + DIGITS F - 1) with (DIGITS F - 1 + DIGITS F) by lia.
    rewrite !Z.pow_add_r by lia. fold (MANTISSA_MIN F).
    unfold MANTISSA_MAX in Hhi.
    split; [apply Z.mul_le_mono_nonneg_r; lia |].
    apply Z.mul_lt_mono_pos_r; lia. }
  assert (Hlim : Z.abs (mantissa x * 10 ^ DIGITS F) < 2 ^ ESTIMATE_BITS).
  { destruct Hd as [[_ H] | [_ [_ Hd]]]; [lia |].
    pose proof (pow10_below_estimate_limit (DIGITS F + DIGITS F) ltac:(lia)).
    lia. }
  rewrite (pack_int F _ _ _ _ _ _ (log10_of_digits _ _ Hlim Hd)
             (pack_round_trailing_zeros (mantissa x) (exponent x) (DIGITS F)
                (conj Hlo Hhi) ltac:(lia))).
  unfold DevNum.pack_canon.
  destruct (Z.eqb_spec (mantissa x) 0) as [H0 | _].
  { rewrite H0 in Hlo. simpl in Hlo. lia. }
  replace (exponent x + (DIGITS F + DIGITS F - DIGITS F * 2)) with (exponent x) by lia.
  destruct (Z.ltb_spec (EXPONENT_MAX F) (exponent x)) as [H | _]; [lia |].
  destruct (Z.ltb_spec (exponent x) (EXPONENT_MIN F)) as [H | _]; [lia |].
  destruct x as [m e f]. simpl in *. subst f. reflexivity.
Qed.

(** Aligned to any exponent above its own, the cached zero is the float 0.0. *)
Lemma unpack_zero_above (t : Z) :
  SPECIAL F < t ->
  DevNum.unpack F (zero F) t = Ok (PyFloat (S754_zero false)).
Proof.
  intros Ht. pose proof F_supported as [HD1 HD2]. unfold MAX_DIGITS in HD2.
  assert (Hlen : TABLE_LEN = 3000) by reflexivity.
  unfold DevNum.unpack, zero. cbn [mantissa exponent].
  destruct (Z.leb_spec 0 (SPECIAL F - t)) as [H | _]; [lia |].
  set (k := Z.min (- (SPECIAL F - t)) (DIGITS F)).
  rewrite (P_in_range k) by (unfold k; lia). cbn [bind].
  apply truediv_zero. apply Z.pow_pos_nonneg; unfold k; lia.
Qed.

Lemma of_int_raises (z : Z) (e : exn) :
  Float64.of_int z = Raise e -> e = OverflowError.
Proof.
  unfold Float64.of_int.
  destruct (binary_normalize Float64.prec Float64.emax z 0 false);
    intros H; inversion H; reflexivity.
Qed.

(** Further up, adding the cached zero raises: the sum is a float, or the
    integer operand is too large to become one. *)
Lemma add_zero_far (x : Num) :
  finite F x ->
  SPECIAL F + DIGITS F < exponent x ->
  DevNum.add F x (zero F) = Raise AttributeError
  \/ DevNum.add F x (zero F) = Raise OverflowError.
Proof.
  intros Hfin Hfar.
  pose proof F_supported as [HD1 HD2]. unfold MAX_DIGITS in HD2.
  assert (Hlen : TABLE_LEN = 3000) by reflexivity.
  assert (HS : SPECIAL F = EXPONENT_MIN F - 1) by reflexivity.
  unfold DevNum.add, DevNum.isInvalid.
  rewrite (isNumber_finite F x Hfin).
  fold (DevNum.isInvalid F (zero F)). rewrite isInvalid_zero. cbn [negb orb].
  destruct Hfin as [_ [Helo Hehi]].
  assert (HE : Z.max (exponent x) (exponent (zero F)) = exponent x).
  { unfold zero. cbn [exponent]. lia. }
  cbv zeta. rewrite HE.
  rewrite (unpack_multiplies F x) by lia. cbn [bind].
  rewrite unpack_zero_above by lia. cbn [bind py_add].
  destruct (Float64.of_int _) as [f | e] eqn:Hof; cbn [bind].
  - left. reflexivity.
  - right. rewrite (of_int_raises _ _ Hof). reflexivity.
Qed.

End AddZero.

(** C8 at a failing input.  In [Fd16] the number 1.00 is finite and not
    zero, and adding the cached zero to it raises: the zero is more than
    [DIGITS] exponents below, [unpack] divides it with [/], the sum is a
    float, and [pack] asks a float for its [bit_length]. *)
Theorem add_zero_raises :
  let x := Build_Num 100 0 Fd16 in
  finite Fd16 x /\
  DevNum.unpack Fd16 (zero Fd16) (0 - DIGITS Fd16) = Ok (PyFloat (S754_zero false)) /\
  DevNum.add Fd16 x (zero Fd16) = Raise AttributeError.
Proof.
  repeat split; try (vm_compute; congruence).
Qed.

(* ===================================================================== *)
(** * Termination of the square root *)

Lemma sqrt_loop_step (fuel : nat) (original r : Z) :
  r <> 0 ->
  DevNum.sqrt_next original r <> r ->
  DevNum.sqrt_loop (S fuel) original r
  = DevNum.sqrt_loop fuel original (DevNum.sqrt_next original r).
Proof.
  intros Hr Hn. simpl.
  destruct (Z.eqb_spec r 0) as [H0 | _]; [contradiction |].
  fold (DevNum.sqrt_next original r).
  destruct (Z.eqb_spec (DevNum.sqrt_next original r) r) as [He | _]; [contradiction |].
  reflexivity.
Qed.

(** Two estimates that the loop maps to each other are never left. *)
Lemma sqrt_loop_two_cycle (original a b : Z) :
  a <> 0 -> b <> 0 -> a <> b ->
  DevNum.sqrt_next original a = b ->
  DevNum.sqrt_next original b = a ->
  forall fuel,
    DevNum.sqrt_loop fuel original a = None /\
    DevNum.sqrt_loop fuel original b = None.
Proof.
  intros Ha Hb Hab Hnext_a Hnext_b fuel.
  induction fuel as [| fuel [IHa IHb]].
  - split; reflexivity.
  - split.
    + rewrite sqrt_loop_step; [| exact Ha | congruence].
      rewrite Hnext_a. exact IHb.
    + rewrite sqrt_loop_step; [| exact Hb | congruence].
      rewrite Hnext_b. exact IHa.
Qed.

Section Newton.
Variable N : Z.
Hypothesis N_pos : 0 < N.

Lemma root_pos : 1 <= Z.sqrt N.
Proof.
  pose proof (Z.sqrt_spec N ltac:(lia)) as [_ Hhi].
  pose proof (Z.sqrt_nonneg N) as Hnn.
  destruct (Z.eq_dec (Z.sqrt N) 0) as [Hz | Hz]; [| lia].
  rewrite Hz in Hhi. simpl in Hhi. lia.
Qed.

(** From any positive estimate the next one is at least the integer root. *)
Lemma sqrt_next_ge_root (x : Z) : 0 < x -> Z.sqrt N <= DevNum.sqrt_next N x.
Proof.
  intros Hx. unfold DevNum.sqrt_next.
  pose proof (Z.sqrt_spec N ltac:(lia)) as [Hlo _].
  apply Z.div_le_lower_bound; [lia |].
  assert (Hq : 2 * Z.sqrt N - x <= N / x).
  { apply Z.div_le_lower_bound; [exact Hx |].
    pose proof (Z.square_nonneg (Z.sqrt N - x)). nia. }
  lia.
Qed.

(** Above the integer root the estimates go down. *)
Lemma sqrt_next_decreases (x : Z) : Z.sqrt N < x -> DevNum.sqrt_next N x < x.
Proof.
  intros Hx. unfold DevNum.sqrt_next.
  pose proof (Z.sqrt_spec N ltac:(lia)) as [_ Hhi].
  pose proof (Z.sqrt_nonneg N).
  apply Z.div_lt_upper_bound; [lia |].
  assert (Hq : N / x < x).
  { apply Z.div_lt_upper_bound; [lia |]. nia. }
  lia.
Qed.

(** The integer root is a fixed point unless [N + 1] is a square. *)
Lemma sqrt_next_at_root :
  N < Z.sqrt N * Z.sqrt N + 2 * Z.sqrt N ->
  DevNum.sqrt_next N (Z.sqrt N) = Z.sqrt N.
Proof.
  intros Hlt. unfold DevNum.sqrt_next.
  pose proof (Z.sqrt_spec N ltac:(lia)) as [Hlo _].
  pose proof root_pos as Hs.
  set (s := Z.sqrt N) in *.
  assert (Hq1 : s <= N / s) by (apply Z.div_le_lower_bound; lia).
  assert (Hq2 : N / s < s + 2) by (apply Z.div_lt_upper_bound; nia).
  apply Z.le_antisymm.
  - assert ((s + N / s) / 2 < s + 1) by (apply Z.div_lt_upper_bound; lia). lia.
  - apply Z.div_le_lower_bound; lia.
Qed.

(** When [N + 1] is a square the root and its successor swap. *)
Lemma sqrt_next_swap :
  N = Z.sqrt N * Z.sqrt N + 2 * Z.sqrt N ->
  DevNum.sqrt_next N (Z.sqrt N) = Z.sqrt N + 1
  /\ DevNum.sqrt_next N (Z.sqrt N + 1) = Z.sqrt N.
Proof.
  intros HN. unfold DevNum.sqrt_next.
  pose proof root_pos as Hs.
  set (s := Z.sqrt N) in *.
  assert (Hq1 : N / s = s + 2).
  { symmetry. apply (Z.div_unique N s (s + 2) 0); lia. }
  assert (Hq2 : N / (s + 1) = s).
  { symmetry. apply (Z.div_unique N (s + 1) s s); lia. }
  rewrite Hq1, Hq2. split.
  - symmetry. apply (Z.div_unique _ 2 (s + 1) 0); lia.
  - symmetry. apply (Z.div_unique _ 2 s 1); lia.
Qed.

Lemma square_root_of_succ (t : Z) :
  N + 1 = t * t -> N = Z.sqrt N * Z.sqrt N + 2 * Z.sqrt N.
Proof.
  intros Ht.
  pose proof (Z.sqrt_spec N ltac:(lia)) as [Hlo Hhi].
  pose proof root_pos as Hs.
  set (s := Z.sqrt N) in *.
  assert (Habs : Z.abs t * Z.abs t = t * t) by (rewrite <- Z.abs_mul; apply Z.abs_eq; nia).
  assert (Z.abs t = s + 1); [| nia].
  pose proof (Z.abs_nonneg t).
  assert (s < Z.abs t) by nia.
  assert (Z.abs t < s + 2) by nia.
  lia.
Qed.

(** The loop ends, and on the integer root, when [N + 1] is no square. *)
Lemma sqrt_loop_from_above (n : nat) :
  N < Z.sqrt N * Z.sqrt N + 2 * Z.sqrt N ->
  forall x, Z.sqrt N <= x -> x - Z.sqrt N <= Z.of_nat n ->
  DevNum.sqrt_loop (S n) N x = Some (Ok (Z.sqrt N)).
Proof.
  intros Hlt. pose proof root_pos as Hs.
  induction n as [| n IH]; intros x Hge Hle.
  - assert (x = Z.sqrt N) by lia. subst x.
    cbn [DevNum.sqrt_loop]. fold (DevNum.sqrt_next N (Z.sqrt N)).
    destruct (Z.eqb_spec (Z.sqrt N) 0) as [H0 | _]; [lia |].
    rewrite (sqrt_next_at_root Hlt), Z.eqb_refl. reflexivity.
  - destruct (Z.eq_dec x (Z.sqrt N)) as [-> | Hne].
    + cbn [DevNum.sqrt_loop]. fold (DevNum.sqrt_next N (Z.sqrt N)).
      destruct (Z.eqb_spec (Z.sqrt N) 0) as [H0 | _]; [lia |].
      rewrite (sqrt_next_at_root Hlt), Z.eqb_refl. reflexivity.
    + pose proof (sqrt_next_decreases x ltac:(lia)) as Hdec.
      pose proof (sqrt_next_ge_root x ltac:(lia)) as Hroot.
      rewrite sqrt_loop_step by lia.
      apply IH; [exact Hroot |].
      rewrite Nat2Z.inj_succ in Hle. lia.
Qed.

Lemma sqrt_loop_terminates (x : Z) :
  0 < x ->
  (forall t, N + 1 <> t * t) ->
  exists fuel, DevNum.sqrt_loop fuel N x = Some (Ok (Z.sqrt N)).
Proof.
  intros Hx Hsq.
  pose proof (Z.sqrt_spec N ltac:(lia)) as [Hlo Hhi].
  pose proof root_pos as Hs.
  assert (Hlt : N < Z.sqrt N * Z.sqrt N + 2 * Z.sqrt N).
  { specialize (Hsq (Z.sqrt N + 1)). nia. }
  destruct (Z_lt_le_dec x (Z.sqrt N)) as [Hbelow | Habove].
  - pose proof (sqrt_next_ge_root x Hx) as Hroot.
    exists (S (S (Z.to_nat (DevNum.sqrt_next N x - Z.sqrt N)))).
    rewrite sqrt_loop_step by lia.
    apply (sqrt_loop_from_above _ Hlt); [exact Hroot | lia].
  - exists (S (Z.to_nat (x - Z.sqrt N))).
    apply (sqrt_loop_from_above _ Hlt); [exact Habove | lia].
Qed.

(** The loop never ends when [N + 1] is a square. *)
Lemma sqrt_loop_diverges_above (n : nat) :
  N = Z.sqrt N * Z.sqrt N + 2 * Z.sqrt N ->
  forall x, Z.sqrt N <= x -> x - Z.sqrt N <= Z.of_nat n ->
  forall fuel, DevNum.sqrt_loop fuel N x = None.
Proof.
  intros HN. pose proof root_pos as Hs.
  destruct (sqrt_next_swap HN) as [Hup Hdown].
  assert (Hcycle : forall fuel,
             DevNum.sqrt_loop fuel N (Z.sqrt N) = None
             /\ DevNum.sqrt_loop fuel N (Z.sqrt N + 1) = None).
  { apply sqrt_loop_two_cycle; try lia; assumption. }
  induction n as [| n IH]; intros x Hge Hle fuel.
  - assert (x = Z.sqrt N) by lia. subst x. apply Hcycle.
  - destruct (Z.eq_dec x (Z.sqrt N)) as [-> | Hne]; [apply Hcycle |].
    destruct (Z.eq_dec x (Z.sqrt N + 1)) as [-> | Hne']; [apply Hcycle |].
    destruct fuel as [| fuel]; [reflexivity |].
    pose proof (sqrt_next_decreases x ltac:(lia)) as Hdec.
    pose proof (sqrt_next_ge_root x ltac:(lia)) as Hroot.
    rewrite sqrt_loop_step by lia.
    apply IH; [exact Hroot |].
    rewrite Nat2Z.inj_succ in Hle. lia.
Qed.

Lemma sqrt_loop_diverges (x t : Z) :
  0 < x -> N + 1 = t * t ->
  forall fuel, DevNum.sqrt_loop fuel N x = None.
Proof.
  intros Hx Ht fuel.
  pose proof (square_root_of_succ t Ht) as HN.
  pose proof root_pos as Hs.
  destruct (Z_lt_le_dec x (Z.sqrt N)) as [Hbelow | Habove].
  - destruct fuel as [| fuel]; [reflexivity |].
    pose proof (sqrt_next_ge_root x Hx) as Hroot.
    rewrite sqrt_loop_step by lia.
    apply (sqrt_loop_diverges_above
             (Z.to_nat (DevNum.sqrt_next N x - Z.sqrt N)) HN); [exact Hroot | lia].
  - apply (sqrt_loop_diverges_above (Z.to_nat (x - Z.sqrt N)) HN);
      [exact Habove | lia].
Qed.

End Newton.

Section Sqrt.
Variable F : Floating.
Hypothesis F_supported : supported F.

Lemma sqrt_start_ok (x : Num) :
  0 < mantissa x ->
  exists N seed,
    DevNum.sqrt_start F x = Ok (N, seed) /\ 0 < N /\ 0 < seed.
Proof.
  intros Hm. pose proof F_supported as [Hlo Hhi].
  unfold MAX_DIGITS in Hhi.
  unfold DevNum.sqrt_start. cbv zeta.
  assert (Hlen : TABLE_LEN = 3000) by reflexivity.
  destruct (exponent x mod 2 =? 0).
  - rewrite !P_in_range by lia. cbn [bind].
    eexists. eexists. split; [reflexivity |].
    pose proof (Z.pow_pos_nonneg 10 (DIGITS F + 2 * 2 - 1) ltac:(lia) ltac:(lia)).
    pose proof (Z.pow_pos_nonneg 10 (DIGITS F - 1) ltac:(lia) ltac:(lia)).
    change (10 ^ (2 - 2)) with 1. nia.
  - rewrite !P_in_range by lia. cbn [bind].
    eexists. eexists. split; [reflexivity |].
    pose proof (Z.pow_pos_nonneg 10 (DIGITS F + 2 * 2) ltac:(lia) ltac:(lia)).
    pose proof (Z.pow_pos_nonneg 10 (DIGITS F) ltac:(lia) ltac:(lia)).
    change (10 ^ (2 - 2)) with 1. nia.
Qed.

(** [sqrt] returns on a finite positive number exactly when the radicand
    plus one is not a perfect square. *)
Lemma sqrt_returns_iff (x : Num) :
  finite F x -> 0 < mantissa x ->
  exists N seed,
    DevNum.sqrt_start F x = Ok (N, seed) /\
    ((exists fuel r, DevNum.sqrt fuel F x = Some r) <-> forall t, N + 1 <> t * t).
Proof.
  intros Hfin Hm.
  destruct (sqrt_start_ok x Hm) as [N [seed [Hstart [HN Hseed]]]].
  exists N, seed. split; [exact Hstart |].
  assert (Hsqrt : forall fuel,
             DevNum.sqrt fuel F x
             = match DevNum.sqrt_loop fuel N seed with
               | None => None
               | Some (Raise e) => Some (Raise e)
               | Some (Ok r) =>
                   Some (DevNum.pack F (PyInt r) (exponent x / 2) (DIGITS F + 2))
               end).
  { intros fuel. unfold DevNum.sqrt.
    unfold DevNum.isInvalid. rewrite (isNumber_finite F x Hfin).
    destruct (Z.ltb_spec (mantissa x) 0) as [H | _]; [lia |].
    destruct (Z.eqb_spec (mantissa x) 0) as [H | _]; [lia |].
    cbn [negb orb]. rewrite Hstart. reflexivity. }
  split.
  - intros [fuel [r Hr]] t Ht.
    rewrite Hsqrt, (sqrt_loop_diverges N HN seed t Hseed Ht fuel) in Hr.
    discriminate Hr.
  - intros Hsq.
    destruct (sqrt_loop_terminates N HN seed Hseed Hsq) as [fuel Hloop].
    exists fuel. eexists. rewrite Hsqrt, Hloop. reflexivity.
Qed.

End Sqrt.

(** C9 at a failing input.  In the ten-digit format [F10] the number
    2.675652504 is finite with a positive mantissa, and [sqrt] never returns
    on it: the radicand plus one is the square of 163574218751, so the loop
    steps between 163574218750 and 163574218751 for ever. *)
Theorem sqrt_runs_forever :
  let x := Build_Num 2675652504 0 F10 in
  finite F10 x /\ 0 < mantissa x /\
  DevNum.sqrt_start F10 x = Ok (26756525040000000000000, 163918270112) /\
  26756525040000000000000 + 1 = 163574218751 * 163574218751 /\
  DevNum.sqrt_next 26756525040000000000000 163574218750 = 163574218751 /\
  DevNum.sqrt_next 26756525040000000000000 163574218751 = 163574218750 /\
  forall fuel, DevNum.sqrt fuel F10 x = None.
Proof.
  intros x.
  assert (Hstart : DevNum.sqrt_start F10 x
                   = Ok (26756525040000000000000, 163918270112))
    by (vm_compute; reflexivity).
  split; [| split; [| split; [| split; [| split; [| split]]]]];
    try reflexivity; try exact Hstart.
  - unfold finite, x. vm_compute. repeat split; congruence.
  - intros fuel. unfold DevNum.sqrt.
    change (DevNum.isInvalid F10 x || (mantissa x <? 0)) with false.
    change (mantissa x =? 0) with false. cbv iota.
    rewrite Hstart.
    rewrite (sqrt_loop_diverges 26756525040000000000000 ltac:(lia)
               163918270112 163574218751 ltac:(lia) eq_refl fuel).
    reflexivity.
Qed.

(* ===================================================================== *)
(** * Results of [pack] *)

Lemma pack_canon_canonical (F : Floating) (m e : Z) :
  (m = 0 \/ MANTISSA_MIN F <= Z.abs m <= MANTISSA_MAX F) ->
  canonical F (DevNum.pack_canon F m e).
Proof.
  intros Hm. unfold DevNum.pack_canon, canonical.
  destruct (Z.eqb_spec m 0) as [H0 | Hne]; [left; reflexivity |].
  destruct (Z.ltb_spec (EXPONENT_MAX F) e) as [Hgt | Hle];
    [right; left; reflexivity |].
  destruct (Z.ltb_spec e (EXPONENT_MIN F)) as [Hlt | Hge];
    [left; reflexivity |].
  right. right. split; [| reflexivity].
  destruct Hm as [H0 | Hb]; [contradiction |].
  unfold finite. cbn [mantissa exponent]. lia.
Qed.

(** [pack] of an integer within reach of the estimator raises nothing and
    returns a canonical number. *)
Lemma pack_returns_canonical (F : Floating) (m e expected : Z) :
  supported F ->
  Z.abs m < 2 ^ ESTIMATE_BITS ->
  exists r, DevNum.pack F (PyInt m) e expected = Ok r /\ canonical F r.
Proof.
  intros HF Hm.
  destruct (log10_spec m Hm) as [d [Hlog [Hd [_ Hlen]]]].
  destruct (pack_round_spec F HF m e d Hd Hlen) as [m' [e' [Hround [_ Hshape]]]].
  rewrite (pack_int F m e expected d m' e' Hlog Hround).
  eexists. split; [reflexivity |].
  apply pack_canon_canonical. tauto.
Qed.

(** [pack] of a format's mantissa followed by [k] zero digits keeps the
    mantissa. *)
Lemma pack_trailing_zeros (F : Floating) (m e expected k : Z) :
  supported F ->
  MANTISSA_MIN F <= Z.abs m <= MANTISSA_MAX F ->
  0 <= k -> DIGITS F + k < TABLE_LEN ->
  DevNum.pack F (PyInt (m * 10 ^ k)) e expected
  = Ok (DevNum.pack_canon F m (e + (DIGITS F + k - expected))).
Proof.
  intros HF [Hlo Hhi] Hk Hlen.
  pose proof (proj1 HF) as HD.
  pose proof (MANTISSA_MIN_pos F HD) as Hmin.
  assert (HK : 0 < 10 ^ k) by (apply Z.pow_pos_nonneg; lia).
  assert (Hd : is_digits (m * 10 ^ k) (DIGITS F + k)).
  { right. split; [lia |].
    rewrite Z.abs_mul, (Z.abs_eq (10 ^ k)) by lia.
    replace (DIGITS F + k - 1) with (DIGITS F - 1 + k) by lia.
    rewrite !Z.pow_add_r by lia. fold (MANTISSA_MIN F).
    unfold MANTISSA_MAX in Hhi.
    split; [apply Z.mul_le_mono_nonneg_r; lia |].
    apply Z.mul_lt_mono_pos_r; lia. }
  assert (Hlim : Z.abs (m * 10 ^ k) < 2 ^ ESTIMATE_BITS).
  { destruct Hd as [[_ H] | [_ [_ Hd]]]; [lia |].
    pose proof (pow10_below_estimate_limit (DIGITS F + k) Hlen). lia. }
  assert (Hround : DevNum.pack_round F (m * 10 ^ k) e (DIGITS F + k) = Ok (m, e)).
  { destruct (Z.eq_dec k 0) as [-> | Hk0].
    - destruct (pack_round_short F HF (m * 10 ^ 0) e (DIGITS F + 0) Hd ltac:(lia))
        as [Hr _].
      rewrite Hr. replace (DIGITS F - (DIGITS F + 0)) with 0 by lia.
      rewrite !Z.pow_0_r, !Z.mul_1_r. reflexivity.
    - apply pack_round_trailing_zeros; [exact HF | lia | lia]. }
  apply (pack_int F _ _ _ _ _ _ (log10_of_digits _ _ Hlim Hd) Hround).
Qed.

(** [pack] of a non-zero integer of at most [DIGITS] digits pads it. *)
Lemma pack_short (F : Floating) (m e expected d : Z) :
  supported F ->
  1 <= d <= DIGITS F ->
  10 ^ (d - 1) <= Z.abs m < 10 ^ d ->
  DevNum.pack F (PyInt m) e expected
  = Ok (DevNum.pack_canon F (m * 10 ^ (DIGITS F - d)) (e + (d - expected)))
  /\ MANTISSA_MIN F <= Z.abs (m * 10 ^ (DIGITS F - d)) <= MANTISSA_MAX F.
Proof.
  intros HF Hd Hm.
  assert (His : is_digits m d) by (right; split; [lia | exact Hm]).
  assert (Hlim : Z.abs m < 2 ^ ESTIMATE_BITS).
  { pose proof (pow10_below_estimate_limit d).
    pose proof (DIGITS_lt_TABLE_LEN F HF). lia. }
  destruct (pack_round_short F HF m e d His ltac:(lia)) as [Hround Hshape].
  split.
  - apply (pack_int F _ _ _ _ _ _ (log10_of_digits _ _ Hlim His) Hround).
  - destruct Hshape as [[_ H0] | [_ Hb]]; [lia | exact Hb].
Qed.

Lemma pack_zero (F : Floating) (e expected : Z) :
  supported F -> DevNum.pack F (PyInt 0) e expected = Ok (zero F).
Proof.
  intros HF.
  assert (His : is_digits 0 0) by (left; split; reflexivity).
  destruct (pack_round_short F HF 0 e 0 His ltac:(pose proof (proj1 HF); lia))
    as [Hround _].
  assert (Hlog : _log10 (PyInt 0) = Ok 0) by reflexivity.
  rewrite (pack_int F _ _ _ _ _ _ Hlog Hround).
  rewrite Z.mul_0_l. reflexivity.
Qed.

(* ===================================================================== *)
(** * [make] and [toInt] *)

Lemma make_fits (F : Floating) (n e d : Z) :
  supported F ->
  1 <= d <= DIGITS F ->
  10 ^ (d - 1) <= Z.abs n < 10 ^ d ->
  EXPONENT_MIN F <= d - 1 + e <= EXPONENT_MAX F ->
  DevNum.make F n e = Ok (Build_Num (n * 10 ^ (DIGITS F - d)) (d - 1 + e) F)
  /\ finite F (Build_Num (n * 10 ^ (DIGITS F - d)) (d - 1 + e) F).
Proof.
  intros HF Hd Hn He.
  assert (His : is_digits n d) by (right; split; [lia | exact Hn]).
  assert (Hlim : Z.abs n < 2 ^ ESTIMATE_BITS).
  { pose proof (pow10_below_estimate_limit d).
    pose proof (DIGITS_lt_TABLE_LEN F HF). lia. }
  destruct (pack_short F n (d - 1 + e) d d HF Hd Hn) as [Hpack Hb].
  pose proof (MANTISSA_MIN_pos F (proj1 HF)) as Hmin.
  unfold DevNum.make. rewrite (log10_of_digits n d Hlim His). cbn [bind].
  rewrite Hpack. unfold DevNum.pack_canon.
  destruct (Z.eqb_spec (n * 10 ^ (DIGITS F - d)) 0) as [H0 | _].
  { rewrite H0 in Hb. simpl in Hb. lia. }
  replace (d - 1 + e + (d - d)) with (d - 1 + e) by lia.
  destruct (Z.ltb_spec (EXPONENT_MAX F) (d - 1 + e)) as [H | _]; [lia |].
  destruct (Z.ltb_spec (d - 1 + e) (EXPONENT_MIN F)) as [H | _]; [lia |].
  split; [reflexivity |].
  unfold finite. cbn [mantissa exponent]. lia.
Qed.

Lemma digits_of_small (F : Floating) (n : Z) :
  supported F -> n <> 0 -> Z.abs n < 10 ^ DIGITS F ->
  exists d, 1 <= d <= DIGITS F /\ 10 ^ (d - 1) <= Z.abs n < 10 ^ d.
Proof.
  intros HF Hn Hlt.
  pose proof (proj1 HF) as HD.
  pose proof (DIGITS_lt_TABLE_LEN F HF) as Hlen.
  assert (Hlim : Z.abs n < 2 ^ ESTIMATE_BITS).
  { pose proof (pow10_below_estimate_limit (DIGITS F) Hlen). lia. }
  destruct (log10_spec n Hlim) as [d [_ [[[H0 _] | [Hd1 Hb]] _]]]; [contradiction |].
  exists d. split; [| exact Hb]. split; [exact Hd1 |].
  assert (d - 1 < DIGITS F); [| lia].
  apply (Z.pow_lt_mono_r_iff 10); lia.
Qed.

(** [toInt] undoes [make] on integers that fit. *)
Lemma toInt_make (F : Floating) (n : Z) :
  supported F ->
  DIGITS F - 1 <= EXPONENT_MAX F ->
  n <> 0 ->
  Z.abs n < 10 ^ DIGITS F ->
  (r <- DevNum.make F n 0 ;; DevNum.toInt F r) = Ok n.
Proof.
  intros HF Hemax Hn Hlt.
  destruct (digits_of_small F n HF Hn Hlt) as [d [Hd Hb]].
  pose proof (DIGITS_lt_TABLE_LEN F HF) as Hlen.
  assert (He : EXPONENT_MIN F <= d - 1 + 0 <= EXPONENT_MAX F)
    by (unfold EXPONENT_MIN; lia).
  destruct (make_fits F n 0 d HF Hd Hb He) as [Hmake _].
  rewrite Hmake. cbn [bind]. unfold DevNum.toInt. cbn [mantissa exponent].
  replace (DIGITS F - 1 - (d - 1 + 0)) with (DIGITS F - d) by lia.
  rewrite (P_in_range (DIGITS F - d)) by lia. cbn [bind].
  unfold py_floordiv.
  assert (HK : 0 < 10 ^ (DIGITS F - d)) by (apply Z.pow_pos_nonneg; lia).
  destruct (Z.eqb_spec (10 ^ (DIGITS F - d)) 0) as [H0 | _]; [lia |].
  rewrite Z.div_mul by lia. reflexivity.
Qed.

(** [make] keeps an integer that fits the format: an integer of [d] digits,
    [d] at most [DIGITS], becomes the finite number whose mantissa is the
    integer padded to [DIGITS] digits and whose exponent is [d - 1 + e]. *)
Theorem make_exact (F : Floating) (n e d : Z) :
  supported F ->
  1 <= d <= DIGITS F ->
  10 ^ (d - 1) <= Z.abs n < 10 ^ d ->
  EXPONENT_MIN F <= d - 1 + e <= EXPONENT_MAX F ->
  DevNum.make F n e = Ok (Build_Num (n * 10 ^ (DIGITS F - d)) (d - 1 + e) F)
  /\ finite F (Build_Num (n * 10 ^ (DIGITS F - d)) (d - 1 + e) F).
Proof. exact (make_fits F n e d). Qed.

Lemma make_exact_witness :
  (supported Fd16 /\ 1 <= 2 <= DIGITS Fd16 /\ 10 ^ (2 - 1) <= Z.abs (-12) < 10 ^ 2
   /\ EXPONENT_MIN Fd16 <= 2 - 1 + 3 <= EXPONENT_MAX Fd16) /\
  DevNum.make Fd16 (-12) 3 = Ok (Build_Num ((-12) * 10 ^ (DIGITS Fd16 - 2)) (2 - 1 + 3) Fd16)
  /\ finite Fd16 (Build_Num ((-12) * 10 ^ (DIGITS Fd16 - 2)) (2 - 1 + 3) Fd16).
Proof.
  assert (H1 : supported Fd16) by (unfold supported, MAX_DIGITS; simpl; lia).
  assert (H2 : 1 <= 2 <= DIGITS Fd16) by (simpl; lia).
  assert (H3 : 10 ^ (2 - 1) <= Z.abs (-12) < 10 ^ 2) by (simpl; lia).
  assert (H4 : EXPONENT_MIN Fd16 <= 2 - 1 + 3 <= EXPONENT_MAX Fd16)
    by (vm_compute; split; congruence).
  split; [tauto |].
  exact (make_exact Fd16 (-12) 3 2 H1 H2 H3 H4).
Defined.

Lemma make_zero (F : Floating) (e : Z) :
  supported F -> DevNum.make F 0 e = Ok (zero F).
Proof.
  intros HF. unfold DevNum.make.
  change (_log10 (PyInt 0)) with (@Ok Z 0). cbn [bind].
  apply pack_zero. exact HF.
Qed.

(** [toInt] of the cached zero is 0 when [DIGITS + EXPONENT_MAX] is inside
    the power table, and raises [IndexError] otherwise. *)
Theorem toInt_zero (F : Floating) :
  1 <= DIGITS F -> 0 <= EXPONENT_MAX F ->
  (DIGITS F + EXPONENT_MAX F < TABLE_LEN -> DevNum.toInt F (zero F) = Ok 0) /\
  (TABLE_LEN <= DIGITS F + EXPONENT_MAX F -> DevNum.toInt F (zero F) = Raise IndexError).
Proof.
  intros HD HE. unfold DevNum.toInt, zero. cbn [mantissa exponent].
  replace (DIGITS F - 1 - SPECIAL F) with (DIGITS F + EXPONENT_MAX F)
    by (unfold SPECIAL, EXPONENT_MIN; lia).
  split; intros H.
  - rewrite P_in_range by lia. cbn [bind]. unfold py_floordiv.
    pose proof (Z.pow_pos_nonneg 10 (DIGITS F + EXPONENT_MAX F)
                  ltac:(lia) ltac:(lia)) as HK.
    destruct (Z.eqb_spec (10 ^ (DIGITS F + EXPONENT_MAX F)) 0) as [Hz | _]; [lia |].
    reflexivity.
  - unfold P, list_index.
    destruct (Z.leb_spec 0 (DIGITS F + EXPONENT_MAX F)) as [_ | H0]; [| lia].
    destruct (Z.ltb_spec (DIGITS F + EXPONENT_MAX F) TABLE_LEN) as [H1 | _]; [lia |].
    cbn [andb].
    destruct (Z.leb_spec (- TABLE_LEN) (DIGITS F + EXPONENT_MAX F)) as [_ | H2];
      [| reflexivity].
    destruct (Z.ltb_spec (DIGITS F + EXPONENT_MAX F) 0) as [H3 | _]; [lia |].
    reflexivity.
Qed.

Lemma toInt_zero_witness :
  (1 <= DIGITS Fd128 /\ 0 <= EXPONENT_MAX Fd128) /\
  (DIGITS Fd128 + EXPONENT_MAX Fd128 < TABLE_LEN -> DevNum.toInt Fd128 (zero Fd128) = Ok 0) /\
  (TABLE_LEN <= DIGITS Fd128 + EXPONENT_MAX Fd128 ->
   DevNum.toInt Fd128 (zero Fd128) = Raise IndexError).
Proof.
  assert (H1 : 1 <= DIGITS Fd128) by (simpl; lia).
  assert (H2 : 0 <= EXPONENT_MAX Fd128) by (vm_compute; congruence).
  split; [tauto |].
  exact (toInt_zero Fd128 H1 H2).
Defined.

(** [toInt] floors: on a finite number whose exponent is at most
    [DIGITS - 1] and more than [DIGITS - 1 - 3*MAX_DIGITS], the result [r]
    is the largest integer not above the number's value. *)
Theorem toInt_floors (F : Floating) (x : Num) :
  0 <= DIGITS F - 1 - exponent x < TABLE_LEN ->
  exists r,
    DevNum.toInt F x = Ok r /\
    r * 10 ^ (DIGITS F - 1 - exponent x) <= mantissa x
      < (r + 1) * 10 ^ (DIGITS F - 1 - exponent x).
Proof.
  intros Hk. unfold DevNum.toInt.
  rewrite P_in_range by lia. cbn [bind]. unfold py_floordiv.
  set (k := DIGITS F - 1 - exponent x) in *.
  assert (HK : 0 < 10 ^ k) by (apply Z.pow_pos_nonneg; lia).
  destruct (Z.eqb_spec (10 ^ k) 0) as [H0 | _]; [lia |].
  eexists. split; [reflexivity |].
  pose proof (Z.div_mod (mantissa x) (10 ^ k) ltac:(lia)) as Hdm.
  pose proof (Z.mod_pos_bound (mantissa x) (10 ^ k) HK) as Hmod.
  nia.
Qed.

Lemma toInt_floors_witness :
  0 <= DIGITS Fd16 - 1 - exponent (Build_Num (-150) 0 Fd16) < TABLE_LEN /\
  exists r,
    DevNum.toInt Fd16 (Build_Num (-150) 0 Fd16) = Ok r /\
    r * 10 ^ (DIGITS Fd16 - 1 - exponent (Build_Num (-150) 0 Fd16))
      <= mantissa (Build_Num (-150) 0 Fd16)
      < (r + 1) * 10 ^ (DIGITS Fd16 - 1 - exponent (Build_Num (-150) 0 Fd16)).
Proof.
  assert (H : 0 <= DIGITS Fd16 - 1 - exponent (Build_Num (-150) 0 Fd16) < TABLE_LEN)
    by (vm_compute; split; congruence).
  split; [exact H |].
  exact (toInt_floors Fd16 (Build_Num (-150) 0 Fd16) H).
Defined.

(** [toInt] of a finite number with [DIGITS] or more integer digits: the
    index into the power table is negative and counts from the end, so for
    every exponent from [DIGITS] to 2999 the result is 0 for a positive
    number and -1 for a negative one. *)
Theorem toInt_large (F : Floating) (x : Num) :
  supported F -> finite F x ->
  DIGITS F <= exponent x <= TABLE_LEN - 1 ->
  DevNum.toInt F x = Ok (if 0 <? mantissa x then 0 else -1).
Proof.
  intros HF [[Hlo Hhi] _] He.
  pose proof HF as [HD1 HD2]. unfold MAX_DIGITS in HD2.
  assert (Hlen : TABLE_LEN = 3000) by reflexivity.
  pose proof (MANTISSA_MIN_pos F HD1) as Hmin.
  unfold DevNum.toInt.
  set (i := DIGITS F - 1 - exponent x).
  assert (HP : P i = Ok (10 ^ (i + TABLE_LEN))).
  { unfold P, list_index, P_entry.
    destruct (Z.leb_spec 0 i) as [H | _]; [unfold i in H; lia |].
    cbn [andb].
    destruct (Z.leb_spec (- TABLE_LEN) i) as [_ | H]; [| unfold i in H; lia].
    destruct (Z.ltb_spec i 0) as [_ | H]; [| unfold i in H; lia].
    reflexivity. }
  rewrite HP. cbn [bind]. unfold py_floordiv.
  assert (Hbig : 10 ^ DIGITS F <= 10 ^ (i + TABLE_LEN))
    by (apply Z.pow_le_mono_r; unfold i; lia).
  unfold MANTISSA_MAX in Hhi.
  pose proof (Z.pow_pos_nonneg 10 (DIGITS F) ltac:(lia) ltac:(lia)) as HK.
  destruct (Z.eqb_spec (10 ^ (i + TABLE_LEN)) 0) as [H0 | _]; [lia |].
  f_equal.
  destruct (Z.ltb_spec 0 (mantissa x)) as [Hpos | Hneg].
  - apply Z.div_small. lia.
  - symmetry.
    apply (Z.div_unique (mantissa x) (10 ^ (i + TABLE_LEN)) (-1)
             (mantissa x + 10 ^ (i + TABLE_LEN))); lia.
Qed.

Lemma toInt_large_witness :
  (supported Fd16 /\ finite Fd16 (Build_Num 100 3 Fd16)
   /\ DIGITS Fd16 <= exponent (Build_Num 100 3 Fd16) <= TABLE_LEN - 1) /\
  DevNum.toInt Fd16 (Build_Num 100 3 Fd16)
  = Ok (if 0 <? mantissa (Build_Num 100 3 Fd16) then 0 else -1).
Proof.
  assert (H1 : supported Fd16) by (unfold supported, MAX_DIGITS; simpl; lia).
  assert (H2 : finite Fd16 (Build_Num 100 3 Fd16)).
  { unfold finite. vm_compute. repeat split; congruence. }
  assert (H3 : DIGITS Fd16 <= exponent (Build_Num 100 3 Fd16) <= TABLE_LEN - 1)
    by (vm_compute; split; congruence).
  split; [tauto |].
  exact (toInt_large Fd16 (Build_Num 100 3 Fd16) H1 H2 H3).
Defined.

(** [toInt] undoes [make] on every non-zero integer of at most [DIGITS]
    digits, provided the format's exponent reaches [DIGITS - 1]. *)
Theorem toInt_after_make (F : Floating) (n : Z) :
  supported F ->
  DIGITS F - 1 <= EXPONENT_MAX F ->
  n <> 0 ->
  Z.abs n < 10 ^ DIGITS F ->
  (r <- DevNum.make F n 0 ;; DevNum.toInt F r) = Ok n.
Proof. exact (toInt_make F n). Qed.

Lemma toInt_after_make_witness :
  (supported Fd64 /\ DIGITS Fd64 - 1 <= EXPONENT_MAX Fd64 /\ -1234567 <> 0
   /\ Z.abs (-1234567) < 10 ^ DIGITS Fd64) /\
  (r <- DevNum.make Fd64 (-1234567) 0 ;; DevNum.toInt Fd64 r) = Ok (-1234567).
Proof.
  assert (H1 : supported Fd64) by (unfold supported, MAX_DIGITS; simpl; lia).
  assert (H2 : DIGITS Fd64 - 1 <= EXPONENT_MAX Fd64) by (vm_compute; congruence).
  assert (H3 : -1234567 <> 0) by discriminate.
  assert (H4 : Z.abs (-1234567) < 10 ^ DIGITS Fd64) by (vm_compute; reflexivity).
  split; [tauto |].
  exact (toInt_after_make Fd64 (-1234567) H1 H2 H3 H4).
Defined.

(* ===================================================================== *)
(** * Conversion between formats *)

Lemma Floating_eqb_eq (F G : Floating) : Floating_eqb F G = true -> F = G.
Proof.
  unfold Floating_eqb. rewrite !andb_true_iff, !Z.eqb_eq, String.eqb_eq.
  intros [[[Hn Hd] Hb] He]. destruct F, G. simpl in *. subst. reflexivity.
Qed.

Lemma call_widens (F : Floating) (n : Num) :
  supported F -> supported (format n) ->
  finite (format n) n ->
  DIGITS (format n) <= DIGITS F ->
  EXPONENT_MIN F <= exponent n <= EXPONENT_MAX F ->
  DevNum.__call__ F (ArgNum n)
  = Ok (Build_Num (mantissa n * 10 ^ (DIGITS F - DIGITS (format n))) (exponent n) F).
Proof.
  intros HF HG Hfin HD He. unfold DevNum.__call__.
  destruct (Floating_eqb (format n) F) eqn:Heq.
  - apply Floating_eqb_eq in Heq. rewrite <- Heq.
    rewrite Z.sub_diag, Z.pow_0_r, Z.mul_1_r. destruct n; reflexivity.
  - destruct Hfin as [[Hlo Hhi] _].
    assert (Hb : 10 ^ (DIGITS (format n) - 1) <= Z.abs (mantissa n)
                 < 10 ^ DIGITS (format n))
      by (unfold MANTISSA_MIN, MANTISSA_MAX in *; lia).
    destruct (pack_short F (mantissa n) (exponent n) (DIGITS (format n))
                (DIGITS (format n)) HF (conj (proj1 HG) HD) Hb) as [Hpack Hm].
    rewrite Hpack. unfold DevNum.pack_canon.
    pose proof (MANTISSA_MIN_pos F (proj1 HF)) as Hmin.
    destruct (Z.eqb_spec (mantissa n * 10 ^ (DIGITS F - DIGITS (format n))) 0)
      as [Hz | _].
    { rewrite Hz in Hm. simpl in Hm. lia. }
    rewrite Z.sub_diag, Z.add_0_r.
    destruct (Z.ltb_spec (EXPONENT_MAX F) (exponent n)) as [H | _]; [lia |].
    destruct (Z.ltb_spec (exponent n) (EXPONENT_MIN F)) as [H | _]; [lia |].
    reflexivity.
Qed.

(** Calling a format on a finite number of a format with no more digits,
    whose exponent the target format has, is exact: the mantissa is padded
    with zeros and the exponent is kept. *)
Theorem call_widens_exactly (F : Floating) (n : Num) :
  supported F -> supported (format n) ->
  finite (format n) n ->
  DIGITS (format n) <= DIGITS F ->
  EXPONENT_MIN F <= exponent n <= EXPONENT_MAX F ->
  DevNum.__call__ F (ArgNum n)
  = Ok (Build_Num (mantissa n * 10 ^ (DIGITS F - DIGITS (format n))) (exponent n) F).
Proof. exact (call_widens F n). Qed.

Lemma call_widens_exactly_witness :
  (supported Fd64 /\ supported (format (Build_Num (-123) 5 Fd16))
   /\ finite (format (Build_Num (-123) 5 Fd16)) (Build_Num (-123) 5 Fd16)
   /\ DIGITS (format (Build_Num (-123) 5 Fd16)) <= DIGITS Fd64
   /\ EXPONENT_MIN Fd64 <= exponent (Build_Num (-123) 5 Fd16) <= EXPONENT_MAX Fd64) /\
  DevNum.__call__ Fd64 (ArgNum (Build_Num (-123) 5 Fd16))
  = Ok (Build_Num
          (mantissa (Build_Num (-123) 5 Fd16)
           * 10 ^ (DIGITS Fd64 - DIGITS (format (Build_Num (-123) 5 Fd16))))
          (exponent (Build_Num (-123) 5 Fd16)) Fd64).
Proof.
  assert (H1 : supported Fd64) by (unfold supported, MAX_DIGITS; simpl; lia).
  assert (H2 : supported (format (Build_Num (-123) 5 Fd16)))
    by (unfold supported, MAX_DIGITS; simpl; lia).
  assert (H3 : finite (format (Build_Num (-123) 5 Fd16)) (Build_Num (-123) 5 Fd16)).
  { unfold finite. vm_compute. repeat split; congruence. }
  assert (H4 : DIGITS (format (Build_Num (-123) 5 Fd16)) <= DIGITS Fd64)
    by (simpl; lia).
  assert (H5 : EXPONENT_MIN Fd64 <= exponent (Build_Num (-123) 5 Fd16)
               <= EXPONENT_MAX Fd64) by (vm_compute; split; congruence).
  split; [tauto |].
  exact (call_widens_exactly Fd64 (Build_Num (-123) 5 Fd16) H1 H2 H3 H4 H5).
Defined.



(* ===================================================================== *)
(** * The arithmetic on valid operands *)

Lemma abs_div_le (a b : Z) : b <> 0 -> Z.abs (a / b) <= Z.abs a.
Proof.
  assert (Hpos : forall a b, 0 < b -> Z.abs (a / b) <= Z.abs a).
  { clear a b. intros a b Hb.
    destruct (Z_lt_le_dec a 0) as [Hneg | Hnn].
    - assert (a <= a / b) by (apply Z.div_le_lower_bound; nia).
      assert (a / b < 0) by (apply Z.div_lt_upper_bound; lia).
      lia.
    - assert (0 <= a / b) by (apply Z.div_pos; lia).
      assert (a / b <= a) by (apply Z.div_le_upper_bound; nia).
      lia. }
  intros Hb. destruct (Z_lt_le_dec 0 b) as [Hlt | Hle].
  - apply Hpos. exact Hlt.
  - rewrite <- (Z.div_opp_opp a b) by exact Hb.
    rewrite <- (Z.abs_opp a). apply Hpos. lia.
Qed.

Lemma pack_float (F : Floating) (f : spec_float) (e expected : Z) :
  DevNum.pack F (PyFloat f) e expected = Raise AttributeError.
Proof. reflexivity. Qed.

Lemma py_truediv_cases (a p : Z) :
  py_truediv a p = Raise ZeroDivisionError
  \/ py_truediv a p = Raise OverflowError
  \/ exists f, py_truediv a p = Ok (PyFloat f).
Proof.
  unfold py_truediv, Float64.truediv.
  destruct (p =? 0); [left; reflexivity |].
  destruct (SFdiv Float64.prec Float64.emax (Float64.exact a) (Float64.exact p));
    cbn [bind]; eauto.
Qed.

Section Operands.
Variable F : Floating.
Hypothesis F_supported : supported F.

Lemma valid_mantissa (x : Num) :
  DevNum.isNumber F x = true -> Z.abs (mantissa x) < 10 ^ DIGITS F.
Proof.
  intros Hx. pose proof (proj1 F_supported) as HD.
  pose proof (Z.pow_pos_nonneg 10 (DIGITS F) ltac:(lia) ltac:(lia)) as HK.
  destruct (isNumber_cases F x Hx) as [[Hm _] | [[_ Hhi] _]].
  - rewrite Hm. simpl. lia.
  - unfold MANTISSA_MAX in Hhi. lia.
Qed.

Lemma isInvalid_false (x : Num) :
  DevNum.isInvalid F x = false <-> DevNum.isNumber F x = true.
Proof. unfold DevNum.isInvalid. destruct (DevNum.isNumber F x); simpl; intuition congruence. Qed.

Lemma pow10_double_limit : 10 * 10 ^ (DIGITS F + DIGITS F + 1) < 2 ^ ESTIMATE_BITS.
Proof.
  pose proof F_supported as [HD1 HD2]. unfold MAX_DIGITS in HD2.
  assert (Hlen : TABLE_LEN = 3000) by reflexivity.
  pose proof (pow10_below_estimate_limit (DIGITS F + DIGITS F + 2) ltac:(lia)) as H.
  replace (DIGITS F + DIGITS F + 2) with (1 + (DIGITS F + DIGITS F + 1)) in H by lia.
  rewrite Z.pow_add_r in H by lia. exact H.
Qed.

(** An operand whose exponent is within [DIGITS] of the larger one is
    aligned by a multiplication. *)
Lemma unpack_near (x : Num) (E : Z) :
  DevNum.isNumber F x = true ->
  0 <= E - exponent x <= DIGITS F ->
  exists a,
    DevNum.unpack F x (E - DIGITS F) = Ok (PyInt a)
    /\ Z.abs a < 10 ^ (DIGITS F + DIGITS F).
Proof.
  intros Hx HE. pose proof F_supported as [HD1 HD2]. unfold MAX_DIGITS in HD2.
  assert (Hlen : TABLE_LEN = 3000) by reflexivity.
  rewrite unpack_multiplies by lia.
  eexists. split; [reflexivity |].
  pose proof (valid_mantissa x Hx) as Hm.
  set (k := exponent x - (E - DIGITS F)).
  assert (HK : 0 < 10 ^ k) by (apply Z.pow_pos_nonneg; unfold k; lia).
  assert (Hk : 10 ^ k <= 10 ^ DIGITS F) by (apply Z.pow_le_mono_r; unfold k; lia).
  rewrite Z.abs_mul, (Z.abs_eq (10 ^ k)) by lia.
  rewrite Z.pow_add_r by lia.
  pose proof (Z.abs_nonneg (mantissa x)). nia.
Qed.

(** An operand more than [DIGITS] exponents below the larger one is aligned
    by a true division: a float, or an overflow. *)
Lemma unpack_far (x : Num) (E : Z) :
  DIGITS F < E - exponent x ->
  DevNum.unpack F x (E - DIGITS F) = Raise OverflowError
  \/ exists f, DevNum.unpack F x (E - DIGITS F) = Ok (PyFloat f).
Proof.
  intros HE. pose proof F_supported as [HD1 HD2]. unfold MAX_DIGITS in HD2.
  assert (Hlen : TABLE_LEN = 3000) by reflexivity.
  unfold DevNum.unpack.
  destruct (Z.leb_spec 0 (exponent x - (E - DIGITS F))) as [H | _]; [lia |].
  set (k := Z.min (- (exponent x - (E - DIGITS F))) (DIGITS F)).
  rewrite (P_in_range k) by (unfold k; lia). cbn [bind].
  assert (HK : 0 < 10 ^ k) by (apply Z.pow_pos_nonneg; unfold k; lia).
  unfold py_truediv, Float64.truediv.
  destruct (Z.eqb_spec (10 ^ k) 0) as [Hz | _]; [lia |].
  destruct (SFdiv Float64.prec Float64.emax (Float64.exact (mantissa x))
              (Float64.exact (10 ^ k))); cbn [bind]; eauto.
Qed.

Lemma of_int_cases (z : Z) :
  Float64.of_int z = Raise OverflowError \/ exists f, Float64.of_int z = Ok f.
Proof.
  destruct (Float64.of_int z) as [f | e] eqn:H; [right; eauto |].
  left. rewrite (of_int_raises z e H). reflexivity.
Qed.

Lemma valid_exponent_max (x y : Num) :
  DevNum.isNumber F x = true -> DevNum.isNumber F y = true ->
  DevNum.isNumber F (if exponent x <? exponent y then y else x) = true.
Proof. intros Hx Hy. destruct (exponent x <? exponent y); assumption. Qed.

End Operands.

(** [mul] is commutative, on all operands. *)
Theorem mul_commutative (F : Floating) (x y : Num) :
  DevNum.mul F x y = DevNum.mul F y x.
Proof.
  unfold DevNum.mul.
  rewrite (orb_comm (DevNum.isInvalid F y)), (Z.mul_comm (mantissa y)),
    (Z.add_comm (exponent y)).
  reflexivity.
Qed.

Lemma mul_canonical (F : Floating) (x y : Num) :
  supported F ->
  exists r, DevNum.mul F x y = Ok r /\ canonical F r.
Proof.
  intros HF. unfold DevNum.mul.
  destruct (DevNum.isInvalid F x) eqn:Hx;
    [exists (undefined F); split; [reflexivity | right; left; reflexivity] |].
  destruct (DevNum.isInvalid F y) eqn:Hy;
    [exists (undefined F); split; [reflexivity | right; left; reflexivity] |].
  cbn [orb].
  apply isInvalid_false in Hx, Hy.
  pose proof (valid_mantissa F HF x Hx) as Hmx.
  pose proof (valid_mantissa F HF y Hy) as Hmy.
  apply pack_returns_canonical; [exact HF |].
  pose proof (pow10_double_limit F HF) as Hlim.
  pose proof (proj1 HF) as HD.
  rewrite !Z.pow_add_r in Hlim by lia.
  rewrite Z.abs_mul.
  pose proof (Z.abs_nonneg (mantissa x)). pose proof (Z.abs_nonneg (mantissa y)).
  pose proof (Z.pow_pos_nonneg 10 (DIGITS F) ltac:(lia) ltac:(lia)).
  change (10 ^ 1) with 10 in Hlim. nia.
Qed.

(** [mul] never raises in a supported format: whatever the operands, it
    returns the cached zero, the cached undefined or a finite number. *)
Theorem mul_returns_canonical (F : Floating) (x y : Num) :
  supported F ->
  exists r, DevNum.mul F x y = Ok r /\ canonical F r.
Proof. exact (mul_canonical F x y). Qed.

Lemma mul_returns_canonical_witness :
  supported Fd16 /\
  exists r, DevNum.mul Fd16 (Build_Num 999 15 Fd16) (Build_Num (-999) 15 Fd16) = Ok r
            /\ canonical Fd16 r.
Proof.
  assert (H1 : supported Fd16) by (unfold supported, MAX_DIGITS; simpl; lia).
  split; [exact H1 |].
  exact (mul_returns_canonical Fd16 (Build_Num 999 15 Fd16) (Build_Num (-999) 15 Fd16) H1).
Defined.

Lemma div_canonical (F : Floating) (x y : Num) :
  supported F ->
  exists r, DevNum.div F x y = Ok r /\ canonical F r.
Proof.
  intros HF. unfold DevNum.div.
  destruct (DevNum.isInvalid F x) eqn:Hx;
    [exists (undefined F); split; [reflexivity | right; left; reflexivity] |].
  destruct (DevNum.isInvalid F y) eqn:Hy;
    [exists (undefined F); split; [reflexivity | right; left; reflexivity] |].
  destruct (Z.eqb_spec (mantissa y) 0) as [Hz | Hnz];
    [exists (undefined F); split; [reflexivity | right; left; reflexivity] |].
  cbn [orb]. cbv zeta.
  apply isInvalid_false in Hx, Hy.
  pose proof HF as [HD1 HD2]. unfold MAX_DIGITS in HD2.
  assert (Hlen : TABLE_LEN = 3000) by reflexivity.
  rewrite (P_in_range (DIGITS F + 1)) by lia. cbn [bind].
  rewrite (P_in_range 1) by lia. cbn [bind].
  change (10 ^ 1) with 10. unfold py_floordiv.
  destruct (Z.eqb_spec (mantissa y * 10) 0) as [H0 | Hne]; [lia |].
  cbn [bind].
  apply pack_returns_canonical; [exact HF |].
  pose proof (valid_mantissa F HF x Hx) as Hmx.
  pose proof (abs_div_le (mantissa x * 10 ^ (DIGITS F + 1)) (mantissa y * 10) Hne) as Hq.
  pose proof (pow10_double_limit F HF) as Hlim.
  rewrite Z.abs_mul in Hq.
  assert (HK : 0 < 10 ^ (DIGITS F + 1)) by (apply Z.pow_pos_nonneg; lia).
  rewrite (Z.abs_eq (10 ^ (DIGITS F + 1))) in Hq by lia.
  replace (DIGITS F + DIGITS F + 1) with (DIGITS F + (DIGITS F + 1)) in Hlim by lia.
  rewrite (Z.pow_add_r 10 (DIGITS F) (DIGITS F + 1)) in Hlim by lia.
  pose proof (Z.abs_nonneg (mantissa x)).
  nia.
Qed.

(** [div] never raises in a supported format, not on a zero divisor either:
    whatever the operands, it returns the cached zero, the cached undefined
    or a finite number. *)
Theorem div_returns_canonical (F : Floating) (x y : Num) :
  supported F ->
  exists r, DevNum.div F x y = Ok r /\ canonical F r.
Proof. exact (div_canonical F x y). Qed.

Lemma div_returns_canonical_witness :
  supported Fd16 /\
  exists r, DevNum.div Fd16 (Build_Num 999 15 Fd16) (Build_Num 100 (-15) Fd16) = Ok r
            /\ canonical Fd16 r.
Proof.
  assert (H1 : supported Fd16) by (unfold supported, MAX_DIGITS; simpl; lia).
  split; [exact H1 |].
  exact (div_returns_canonical Fd16 (Build_Num 999 15 Fd16) (Build_Num 100 (-15) Fd16) H1).
Defined.

(** ** Addition and subtraction *)

Lemma add_valid (F : Floating) (x y : Num) :
  DevNum.isNumber F x = true -> DevNum.isNumber F y = true ->
  DevNum.add F x y
  = (X <- DevNum.unpack F x (Z.max (exponent x) (exponent y) - DIGITS F) ;;
     Y <- DevNum.unpack F y (Z.max (exponent x) (exponent y) - DIGITS F) ;;
     s <- py_add X Y ;;
     DevNum.pack F s (Z.max (exponent x) (exponent y)) (DIGITS F * 2)).
Proof.
  intros Hx Hy. unfold DevNum.add, DevNum.isInvalid. rewrite Hx, Hy. reflexivity.
Qed.

Lemma sub_valid (F : Floating) (x y : Num) :
  DevNum.isNumber F x = true -> DevNum.isNumber F y = true ->
  DevNum.sub F x y
  = (X <- DevNum.unpack F x (Z.max (exponent x) (exponent y) - DIGITS F) ;;
     Y <- DevNum.unpack F y (Z.max (exponent x) (exponent y) - DIGITS F) ;;
     s <- py_sub X Y ;;
     DevNum.pack F s (Z.max (exponent x) (exponent y)) (DIGITS F * 2)).
Proof.
  intros Hx Hy. unfold DevNum.sub, DevNum.isInvalid. rewrite Hx, Hy. reflexivity.
Qed.

Lemma add_sub_close (F : Floating) (x y : Num) :
  supported F ->
  DevNum.isNumber F x = true -> DevNum.isNumber F y = true ->
  Z.abs (exponent x - exponent y) <= DIGITS F ->
  (exists r, DevNum.add F x y = Ok r /\ canonical F r) /\
  (exists r, DevNum.sub F x y = Ok r /\ canonical F r).
Proof.
  intros HF Hx Hy Hgap.
  rewrite (add_valid F x y Hx Hy), (sub_valid F x y Hx Hy).
  set (E := Z.max (exponent x) (exponent y)).
  destruct (unpack_near F HF x E Hx ltac:(unfold E; lia)) as [a [Ha Hab]].
  destruct (unpack_near F HF y E Hy ltac:(unfold E; lia)) as [b [Hb Hbb]].
  rewrite Ha, Hb. cbn [bind py_add py_sub].
  pose proof (pow10_double_limit F HF) as Hlim.
  pose proof (proj1 HF) as HD.
  rewrite (Z.pow_add_r 10 (DIGITS F + DIGITS F) 1) in Hlim by lia.
  change (10 ^ 1) with 10 in Hlim.
  split; apply pack_returns_canonical; try exact HF; lia.
Qed.

(** When the exponents of two valid operands differ by at most [DIGITS],
    [add] and [sub] raise nothing and return a canonical number. *)
Theorem add_sub_close_canonical (F : Floating) (x y : Num) :
  supported F ->
  DevNum.isNumber F x = true -> DevNum.isNumber F y = true ->
  Z.abs (exponent x - exponent y) <= DIGITS F ->
  (exists r, DevNum.add F x y = Ok r /\ canonical F r) /\
  (exists r, DevNum.sub F x y = Ok r /\ canonical F r).
Proof. exact (add_sub_close F x y). Qed.

Lemma add_sub_close_canonical_witness :
  (supported Fd16 /\ DevNum.isNumber Fd16 (Build_Num 999 3 Fd16) = true
   /\ DevNum.isNumber Fd16 (Build_Num (-555) 0 Fd16) = true
   /\ Z.abs (exponent (Build_Num 999 3 Fd16) - exponent (Build_Num (-555) 0 Fd16))
      <= DIGITS Fd16) /\
  (exists r, DevNum.add Fd16 (Build_Num 999 3 Fd16) (Build_Num (-555) 0 Fd16) = Ok r
             /\ canonical Fd16 r) /\
  (exists r, DevNum.sub Fd16 (Build_Num 999 3 Fd16) (Build_Num (-555) 0 Fd16) = Ok r
             /\ canonical Fd16 r).
Proof.
  assert (H1 : supported Fd16) by (unfold supported, MAX_DIGITS; simpl; lia).
  assert (H2 : DevNum.isNumber Fd16 (Build_Num 999 3 Fd16) = true) by reflexivity.
  assert (H3 : DevNum.isNumber Fd16 (Build_Num (-555) 0 Fd16) = true) by reflexivity.
  assert (H4 : Z.abs (exponent (Build_Num 999 3 Fd16)
                      - exponent (Build_Num (-555) 0 Fd16)) <= DIGITS Fd16)
    by (simpl; lia).
  split; [tauto |].
  exact (add_sub_close_canonical Fd16 _ _ H1 H2 H3 H4).
Defined.

(** What becomes of an integer and a float under [+] or [-] and [pack]. *)
Lemma pack_mixed_raises (F : Floating) (a : Z) (f : spec_float) (E k : Z) :
  let raises (c : pyres Num) := c = Raise AttributeError \/ c = Raise OverflowError in
  raises (s <- py_add (PyInt a) (PyFloat f) ;; DevNum.pack F s E k) /\
  raises (s <- py_add (PyFloat f) (PyInt a) ;; DevNum.pack F s E k) /\
  raises (s <- py_sub (PyInt a) (PyFloat f) ;; DevNum.pack F s E k) /\
  raises (s <- py_sub (PyFloat f) (PyInt a) ;; DevNum.pack F s E k).
Proof.
  cbv zeta. cbn [py_add py_sub].
  destruct (of_int_cases a) as [Hr | [g Hg]].
  - rewrite Hr. cbn [bind]. tauto.
  - rewrite Hg. cbn [bind]. tauto.
Qed.

Lemma add_sub_far (F : Floating) (x y : Num) :
  supported F ->
  DevNum.isNumber F x = true -> DevNum.isNumber F y = true ->
  DIGITS F < Z.abs (exponent x - exponent y) ->
  (DevNum.add F x y = Raise AttributeError \/ DevNum.add F x y = Raise OverflowError) /\
  (DevNum.sub F x y = Raise AttributeError \/ DevNum.sub F x y = Raise OverflowError).
Proof.
  intros HF Hx Hy Hgap.
  rewrite (add_valid F x y Hx Hy), (sub_valid F x y Hx Hy).
  set (E := Z.max (exponent x) (exponent y)).
  pose proof (proj1 HF) as HD.
  destruct (Z_lt_le_dec (exponent y) (exponent x)) as [Hlt | Hle].
  - (* [y] is the small operand *)
    destruct (unpack_near F HF x E Hx ltac:(unfold E; lia)) as [a [Ha _]].
    rewrite Ha. cbn [bind].
    destruct (unpack_far F HF y E ltac:(unfold E; lia)) as [Hr | [f Hf]].
    + rewrite Hr. cbn [bind]. tauto.
    + rewrite Hf. cbn [bind].
      pose proof (pack_mixed_raises F a f E (DIGITS F * 2)) as Hm.
      cbv zeta in Hm. tauto.
  - (* [x] is the small operand *)
    destruct (unpack_far F HF x E ltac:(unfold E; lia)) as [Hr | [f Hf]].
    + rewrite Hr. cbn [bind]. tauto.
    + rewrite Hf. cbn [bind].
      destruct (unpack_near F HF y E Hy ltac:(unfold E; lia)) as [b [Hb _]].
      rewrite Hb. cbn [bind].
      pose proof (pack_mixed_raises F b f E (DIGITS F * 2)) as Hm.
      cbv zeta in Hm. tauto.
Qed.

(** When the exponents of two valid operands differ by more than [DIGITS],
    [add] and [sub] raise: the smaller operand is aligned with a true
    division, and the float that results has no [bit_length] for [pack]
    ([AttributeError]), or an operand is too large for a float
    ([OverflowError]). *)
Theorem add_sub_far_raise (F : Floating) (x y : Num) :
  supported F ->
  DevNum.isNumber F x = true -> DevNum.isNumber F y = true ->
  DIGITS F < Z.abs (exponent x - exponent y) ->
  (DevNum.add F x y = Raise AttributeError \/ DevNum.add F x y = Raise OverflowError) /\
  (DevNum.sub F x y = Raise AttributeError \/ DevNum.sub F x y = Raise OverflowError).
Proof. exact (add_sub_far F x y). Qed.

Lemma add_sub_far_raise_witness :
  (supported Fd16 /\ DevNum.isNumber Fd16 (Build_Num 100 4 Fd16) = true
   /\ DevNum.isNumber Fd16 (Build_Num 100 0 Fd16) = true
   /\ DIGITS Fd16 < Z.abs (exponent (Build_Num 100 4 Fd16)
                           - exponent (Build_Num 100 0 Fd16))) /\
  (DevNum.add Fd16 (Build_Num 100 4 Fd16) (Build_Num 100 0 Fd16) = Raise AttributeError
   \/ DevNum.add Fd16 (Build_Num 100 4 Fd16) (Build_Num 100 0 Fd16) = Raise OverflowError) /\
  (DevNum.sub Fd16 (Build_Num 100 4 Fd16) (Build_Num 100 0 Fd16) = Raise AttributeError
   \/ DevNum.sub Fd16 (Build_Num 100 4 Fd16) (Build_Num 100 0 Fd16) = Raise OverflowError).
Proof.
  assert (H1 : supported Fd16) by (unfold supported, MAX_DIGITS; simpl; lia).
  assert (H2 : DevNum.isNumber Fd16 (Build_Num 100 4 Fd16) = true) by reflexivity.
  assert (H3 : DevNum.isNumber Fd16 (Build_Num 100 0 Fd16) = true) by reflexivity.
  assert (H4 : DIGITS Fd16 < Z.abs (exponent (Build_Num 100 4 Fd16)
                                    - exponent (Build_Num 100 0 Fd16)))
    by (simpl; lia).
  split; [tauto |].
  exact (add_sub_far_raise Fd16 _ _ H1 H2 H3 H4).
Defined.

(** [add] is commutative in a supported format, on all operands: the same
    number, or the same exception. *)
Theorem add_commutative (F : Floating) (x y : Num) :
  supported F -> DevNum.add F x y = DevNum.add F y x.
Proof.
  intros HF.
  destruct (DevNum.isNumber F x) eqn:Hx; [| unfold DevNum.add, DevNum.isInvalid;
    rewrite Hx; cbn [negb orb]; rewrite orb_true_r; reflexivity].
  destruct (DevNum.isNumber F y) eqn:Hy; [| unfold DevNum.add, DevNum.isInvalid;
    rewrite Hy; cbn [negb orb]; rewrite orb_true_r; reflexivity].
  rewrite (add_valid F x y Hx Hy), (add_valid F y x Hy Hx).
  rewrite (Z.max_comm (exponent y) (exponent x)).
  set (E := Z.max (exponent x) (exponent y)).
  pose proof (proj1 HF) as HD.
  destruct (Z_le_gt_dec (Z.abs (exponent x - exponent y)) (DIGITS F)) as [Hclose | Hfar].
  - destruct (unpack_near F HF x E Hx ltac:(unfold E; lia)) as [a [Ha _]].
    destruct (unpack_near F HF y E Hy ltac:(unfold E; lia)) as [b [Hb _]].
    rewrite Ha, Hb. cbn [bind py_add]. rewrite (Z.add_comm b a). reflexivity.
  - destruct (Z_lt_le_dec (exponent y) (exponent x)) as [Hlt | Hle].
    + destruct (unpack_near F HF x E Hx ltac:(unfold E; lia)) as [a [Ha _]].
      rewrite Ha. cbn [bind].
      destruct (unpack_far F HF y E ltac:(unfold E; lia)) as [Hr | [f Hf]].
      * rewrite Hr. reflexivity.
      * rewrite Hf. cbn [bind py_add].
        destruct (Float64.of_int a); reflexivity.
    + destruct (unpack_near F HF y E Hy ltac:(unfold E; lia)) as [b [Hb _]].
      rewrite Hb. cbn [bind].
      destruct (unpack_far F HF x E ltac:(unfold E; lia)) as [Hr | [f Hf]].
      * rewrite Hr. reflexivity.
      * rewrite Hf. cbn [bind py_add].
        destruct (Float64.of_int b); reflexivity.
Qed.

Lemma add_commutative_witness :
  supported Fd16 /\
  DevNum.add Fd16 (Build_Num 999 3 Fd16) (Build_Num (-555) 0 Fd16)
  = DevNum.add Fd16 (Build_Num (-555) 0 Fd16) (Build_Num 999 3 Fd16).
Proof.
  assert (H1 : supported Fd16) by (unfold supported, MAX_DIGITS; simpl; lia).
  split; [exact H1 |].
  exact (add_commutative Fd16 _ _ H1).
Defined.

(** ** Identities *)

(** [x - x] is the cached zero for every valid [x], the zero included. *)
Theorem sub_self (F : Floating) (x : Num) :
  supported F -> DevNum.isNumber F x = true ->
  DevNum.sub F x x = Ok (zero F).
Proof.
  intros HF Hx. rewrite (sub_valid F x x Hx Hx). rewrite Z.max_id.
  pose proof (proj1 HF) as HD.
  destruct (unpack_near F HF x (exponent x) Hx ltac:(lia)) as [a [Ha _]].
  rewrite Ha. cbn [bind py_sub]. rewrite Z.sub_diag.
  apply pack_zero. exact HF.
Qed.

Lemma sub_self_witness :
  (supported Fd16 /\ DevNum.isNumber Fd16 (Build_Num (-314) 2 Fd16) = true) /\
  DevNum.sub Fd16 (Build_Num (-314) 2 Fd16) (Build_Num (-314) 2 Fd16) = Ok (zero Fd16).
Proof.
  assert (H1 : supported Fd16) by (unfold supported, MAX_DIGITS; simpl; lia).
  assert (H2 : DevNum.isNumber Fd16 (Build_Num (-314) 2 Fd16) = true) by reflexivity.
  split; [tauto |].
  exact (sub_self Fd16 _ H1 H2).
Defined.

Section Identities.
Variable F : Floating.
Hypothesis F_supported : supported F.
Hypothesis exponent_zero : 0 <= EXPONENT_MAX F.

Lemma one_finite : finite F (one F).
Proof.
  pose proof (MANTISSA_MIN_pos F (proj1 F_supported)) as Hmin.
  pose proof (MANTISSA_MAX_eq F (proj1 F_supported)) as Hmax.
  unfold finite, one, EXPONENT_MIN. cbn [mantissa exponent]. lia.
Qed.

Lemma pack_canon_finite (m e : Z) :
  MANTISSA_MIN F <= Z.abs m <= MANTISSA_MAX F ->
  EXPONENT_MIN F <= e <= EXPONENT_MAX F ->
  DevNum.pack_canon F m e = Build_Num m e F.
Proof.
  intros Hm He. unfold DevNum.pack_canon.
  pose proof (MANTISSA_MIN_pos F (proj1 F_supported)) as Hmin.
  destruct (Z.eqb_spec m 0) as [Hz | _]; [rewrite Hz in Hm; simpl in Hm; lia |].
  destruct (Z.ltb_spec (EXPONENT_MAX F) e) as [H | _]; [lia |].
  destruct (Z.ltb_spec e (EXPONENT_MIN F)) as [H | _]; [lia |].
  reflexivity.
Qed.

Lemma div_same (x : Num) : finite F x -> DevNum.div F x x = Ok (one F).
Proof.
  intros Hfin. pose proof Hfin as [[Hlo Hhi] He].
  pose proof F_supported as [HD1 HD2]. unfold MAX_DIGITS in HD2.
  assert (Hlen : TABLE_LEN = 3000) by reflexivity.
  pose proof (MANTISSA_MIN_pos F HD1) as Hmin.
  pose proof (MANTISSA_MAX_eq F HD1) as Hmax.
  unfold DevNum.div, DevNum.isInvalid. rewrite (isNumber_finite F x Hfin).
  destruct (Z.eqb_spec (mantissa x) 0) as [Hz | Hnz];
    [rewrite Hz in Hlo; simpl in Hlo; lia |].
  cbn [negb orb]. cbv zeta.
  rewrite (P_in_range (DIGITS F + 1)) by lia. cbn [bind].
  rewrite (P_in_range 1) by lia. cbn [bind]. change (10 ^ 1) with 10.
  unfold py_floordiv.
  destruct (Z.eqb_spec (mantissa x * 10) 0) as [H0 | Hne]; [lia |].
  cbn [bind].
  assert (Hq : mantissa x * 10 ^ (DIGITS F + 1) / (mantissa x * 10)
               = MANTISSA_MIN F * 10 ^ 1).
  { replace (mantissa x * 10 ^ (DIGITS F + 1))
      with (MANTISSA_MIN F * 10 ^ 1 * (mantissa x * 10)).
    - apply Z.div_mul. exact Hne.
    - unfold MANTISSA_MIN.
      replace (DIGITS F + 1) with (DIGITS F - 1 + 1 + 1) by lia.
      rewrite !Z.pow_add_r by lia. change (10 ^ 1) with 10. ring. }
  rewrite Hq.
  rewrite (pack_trailing_zeros F (MANTISSA_MIN F) _ _ 1 F_supported) by lia.
  rewrite pack_canon_finite by (unfold EXPONENT_MIN; lia).
  unfold one. do 2 f_equal. lia.
Qed.

Lemma mul_by_one (x : Num) :
  finite F x -> format x = F -> DevNum.mul F x (one F) = Ok x.
Proof.
  intros Hfin Hfmt. pose proof Hfin as [[Hlo Hhi] He].
  pose proof F_supported as [HD1 HD2]. unfold MAX_DIGITS in HD2.
  assert (Hlen : TABLE_LEN = 3000) by reflexivity.
  unfold DevNum.mul, DevNum.isInvalid.
  rewrite (isNumber_finite F x Hfin), (isNumber_finite F (one F) one_finite).
  cbn [negb orb]. unfold one at 1 2. cbn [mantissa exponent].
  unfold MANTISSA_MIN at 1.
  rewrite (pack_trailing_zeros F (mantissa x) _ _ (DIGITS F - 1) F_supported) by lia.
  rewrite pack_canon_finite by lia.
  destruct x as [m e f]. cbn [mantissa exponent format] in *. subst f.
  f_equal. f_equal. lia.
Qed.

Lemma mod_same (x : Num) : finite F x -> DevNum.mod_ F x x = Ok (zero F).
Proof.
  intros Hfin. pose proof Hfin as [[Hlo Hhi] He].
  pose proof F_supported as [HD1 HD2]. unfold MAX_DIGITS in HD2.
  assert (Hlen : TABLE_LEN = 3000) by reflexivity.
  pose proof (MANTISSA_MIN_pos F HD1) as Hmin.
  unfold DevNum.mod_, DevNum.isInvalid. rewrite (isNumber_finite F x Hfin).
  destruct (Z.eqb_spec (mantissa x) 0) as [Hz | Hnz];
    [rewrite Hz in Hlo; simpl in Hlo; lia |].
  cbn [negb orb].
  destruct (Z.ltb_spec (exponent x) (exponent x)) as [H | _]; [lia |].
  cbv zeta. rewrite Z.sub_diag. change (Z.min 0 15) with 0.
  rewrite Z.sub_0_r.
  rewrite (P_in_range (DIGITS F)) by lia. cbn [bind].
  assert (HK : 0 < 10 ^ DIGITS F) by (apply Z.pow_pos_nonneg; lia).
  unfold py_floordiv.
  destruct (Z.eqb_spec (mantissa x * 10 ^ DIGITS F) 0) as [H0 | Hne]; [nia |].
  cbn [bind]. rewrite Z.div_same by exact Hne.
  rewrite (P_in_range 0) by lia. cbn [bind].
  replace (mantissa x * 10 ^ 0 - 1 * mantissa x) with 0
    by (rewrite Z.pow_0_r; ring).
  apply pack_zero. exact F_supported.
Qed.

End Identities.

(** [x / x] is the number 1 for every finite [x]. *)
Theorem div_self (F : Floating) (x : Num) :
  supported F -> 0 <= EXPONENT_MAX F -> finite F x ->
  DevNum.div F x x = Ok (one F).
Proof. intros HF HE. exact (div_same F HF HE x). Qed.

Lemma div_self_witness :
  (supported Fd16 /\ 0 <= EXPONENT_MAX Fd16 /\ finite Fd16 (Build_Num (-314) 2 Fd16)) /\
  DevNum.div Fd16 (Build_Num (-314) 2 Fd16) (Build_Num (-314) 2 Fd16) = Ok (one Fd16).
Proof.
  assert (H1 : supported Fd16) by (unfold supported, MAX_DIGITS; simpl; lia).
  assert (H2 : 0 <= EXPONENT_MAX Fd16) by (vm_compute; congruence).
  assert (H3 : finite Fd16 (Build_Num (-314) 2 Fd16)).
  { unfold finite. vm_compute. repeat split; congruence. }
  split; [tauto |].
  exact (div_self Fd16 _ H1 H2 H3).
Defined.

(** [x * 1] is [x] for every finite [x] of the format. *)
Theorem mul_one (F : Floating) (x : Num) :
  supported F -> 0 <= EXPONENT_MAX F -> finite F x -> format x = F ->
  DevNum.mul F x (one F) = Ok x.
Proof. intros HF HE. exact (mul_by_one F HF HE x). Qed.

Lemma mul_one_witness :
  (supported Fd16 /\ 0 <= EXPONENT_MAX Fd16 /\ finite Fd16 (Build_Num (-314) 2 Fd16)
   /\ format (Build_Num (-314) 2 Fd16) = Fd16) /\
  DevNum.mul Fd16 (Build_Num (-314) 2 Fd16) (one Fd16) = Ok (Build_Num (-314) 2 Fd16).
Proof.
  assert (H1 : supported Fd16) by (unfold supported, MAX_DIGITS; simpl; lia).
  assert (H2 : 0 <= EXPONENT_MAX Fd16) by (vm_compute; congruence).
  assert (H3 : finite Fd16 (Build_Num (-314) 2 Fd16)).
  { unfold finite. vm_compute. repeat split; congruence. }
  split; [tauto |].
  exact (mul_one Fd16 _ H1 H2 H3 eq_refl).
Defined.

(** [x mod x] is the cached zero for every finite [x]. *)
Theorem mod_self (F : Floating) (x : Num) :
  supported F -> finite F x -> DevNum.mod_ F x x = Ok (zero F).
Proof. intros HF. exact (mod_same F HF x). Qed.

Lemma mod_self_witness :
  (supported Fd16 /\ finite Fd16 (Build_Num (-314) 2 Fd16)) /\
  DevNum.mod_ Fd16 (Build_Num (-314) 2 Fd16) (Build_Num (-314) 2 Fd16) = Ok (zero Fd16).
Proof.
  assert (H1 : supported Fd16) by (unfold supported, MAX_DIGITS; simpl; lia).
  assert (H3 : finite Fd16 (Build_Num (-314) 2 Fd16)).
  { unfold finite. vm_compute. repeat split; congruence. }
  split; [tauto |].
  exact (mod_self Fd16 _ H1 H3).
Defined.

(* ===================================================================== *)
(** * The comparisons on finite numbers *)

(** On finite numbers exactly one of [lt], [eq] and [gt] holds. *)
Theorem lt_eq_gt_exclusive (F : Floating) (x y : Num) :
  1 <= DIGITS F -> finite F x -> finite F y ->
  (DevNum.lt F x y = true /\ DevNum.eq F x y = false /\ DevNum.gt F x y = false)
  \/ (DevNum.lt F x y = false /\ DevNum.eq F x y = true /\ DevNum.gt F x y = false)
  \/ (DevNum.lt F x y = false /\ DevNum.eq F x y = false /\ DevNum.gt F x y = true).
Proof. intros HD. exact (order_trichotomy F HD x y). Qed.

Lemma lt_eq_gt_exclusive_witness :
  (1 <= DIGITS Fd16 /\ finite Fd16 (Build_Num (-200) 0 Fd16)
   /\ finite Fd16 (Build_Num 100 1 Fd16)) /\
  ((DevNum.lt Fd16 (Build_Num (-200) 0 Fd16) (Build_Num 100 1 Fd16) = true
    /\ DevNum.eq Fd16 (Build_Num (-200) 0 Fd16) (Build_Num 100 1 Fd16) = false
    /\ DevNum.gt Fd16 (Build_Num (-200) 0 Fd16) (Build_Num 100 1 Fd16) = false)
   \/ (DevNum.lt Fd16 (Build_Num (-200) 0 Fd16) (Build_Num 100 1 Fd16) = false
       /\ DevNum.eq Fd16 (Build_Num (-200) 0 Fd16) (Build_Num 100 1 Fd16) = true
       /\ DevNum.gt Fd16 (Build_Num (-200) 0 Fd16) (Build_Num 100 1 Fd16) = false)
   \/ (DevNum.lt Fd16 (Build_Num (-200) 0 Fd16) (Build_Num 100 1 Fd16) = false
       /\ DevNum.eq Fd16 (Build_Num (-200) 0 Fd16) (Build_Num 100 1 Fd16) = false
       /\ DevNum.gt Fd16 (Build_Num (-200) 0 Fd16) (Build_Num 100 1 Fd16) = true)).
Proof.
  assert (H1 : 1 <= DIGITS Fd16) by (simpl; lia).
  assert (H2 : finite Fd16 (Build_Num (-200) 0 Fd16)).
  { unfold finite. vm_compute. repeat split; congruence. }
  assert (H3 : finite Fd16 (Build_Num 100 1 Fd16)).
  { unfold finite. vm_compute. repeat split; congruence. }
  split; [tauto |].
  exact (lt_eq_gt_exclusive Fd16 _ _ H1 H2 H3).
Defined.

(** On finite numbers [le] is [lt] or [eq], [ge] is [gt] or [eq], and [ne]
    is the negation of [eq]. *)
Theorem le_ge_ne_from_lt_gt_eq (F : Floating) (x y : Num) :
  1 <= DIGITS F -> finite F x -> finite F y ->
  DevNum.le F x y = DevNum.lt F x y || DevNum.eq F x y /\
  DevNum.ge F x y = DevNum.gt F x y || DevNum.eq F x y /\
  DevNum.ne F x y = negb (DevNum.eq F x y).
Proof.
  intros HD Hx Hy.
  pose proof (compact_inj F HD x y Hx Hy) as Hinj.
  assert (Heq : DevNum.eq F x y = (DevNum._compact F x =? DevNum._compact F y)).
  { unfold DevNum.eq.
    destruct (Z.eqb_spec (DevNum._compact F x) (DevNum._compact F y)) as [He | Hne].
    - apply Hinj in He. destruct He as [He Hm].
      rewrite He, Hm, !Z.eqb_refl. reflexivity.
    - apply andb_false_iff.
      destruct (Z.eqb_spec (exponent x) (exponent y)) as [He | _]; [| left; reflexivity].
      destruct (Z.eqb_spec (mantissa x) (mantissa y)) as [Hm | _]; [| right; reflexivity].
      exfalso. apply Hne. apply Hinj. split; assumption. }
  split; [| split].
  - rewrite Heq. unfold DevNum.le, DevNum.lt.
    destruct (Z.leb_spec (DevNum._compact F x) (DevNum._compact F y));
      destruct (Z.ltb_spec (DevNum._compact F x) (DevNum._compact F y));
      destruct (Z.eqb_spec (DevNum._compact F x) (DevNum._compact F y));
      try reflexivity; lia.
  - rewrite Heq. unfold DevNum.ge, DevNum.gt.
    destruct (Z.leb_spec (DevNum._compact F y) (DevNum._compact F x));
      destruct (Z.ltb_spec (DevNum._compact F y) (DevNum._compact F x));
      destruct (Z.eqb_spec (DevNum._compact F x) (DevNum._compact F y));
      try reflexivity; lia.
  - unfold DevNum.ne, DevNum.eq. rewrite negb_andb. reflexivity.
Qed.

Lemma le_ge_ne_from_lt_gt_eq_witness :
  (1 <= DIGITS Fd16 /\ finite Fd16 (Build_Num (-200) 0 Fd16)
   /\ finite Fd16 (Build_Num 100 1 Fd16)) /\
  DevNum.le Fd16 (Build_Num (-200) 0 Fd16) (Build_Num 100 1 Fd16)
  = DevNum.lt Fd16 (Build_Num (-200) 0 Fd16) (Build_Num 100 1 Fd16)
    || DevNum.eq Fd16 (Build_Num (-200) 0 Fd16) (Build_Num 100 1 Fd16) /\
  DevNum.ge Fd16 (Build_Num (-200) 0 Fd16) (Build_Num 100 1 Fd16)
  = DevNum.gt Fd16 (Build_Num (-200) 0 Fd16) (Build_Num 100 1 Fd16)
    || DevNum.eq Fd16 (Build_Num (-200) 0 Fd16) (Build_Num 100 1 Fd16) /\
  DevNum.ne Fd16 (Build_Num (-200) 0 Fd16) (Build_Num 100 1 Fd16)
  = negb (DevNum.eq Fd16 (Build_Num (-200) 0 Fd16) (Build_Num 100 1 Fd16)).
Proof.
  assert (H1 : 1 <= DIGITS Fd16) by (simpl; lia).
  assert (H2 : finite Fd16 (Build_Num (-200) 0 Fd16)).
  { unfold finite. vm_compute. repeat split; congruence. }
  assert (H3 : finite Fd16 (Build_Num 100 1 Fd16)).
  { unfold finite. vm_compute. repeat split; congruence. }
  split; [tauto |].
  exact (le_ge_ne_from_lt_gt_eq Fd16 _ _ H1 H2 H3).
Defined.

(** On finite numbers [lt] is the numeric order whenever at least one
    operand is positive, and the reverse of the numeric order when both are
    negative. *)
Theorem lt_against_numeric_order (F : Floating) (x y : Num) :
  1 <= DIGITS F -> finite F x -> finite F y ->
  DevNum.lt F x y
  = if (mantissa x <? 0) && (mantissa y <? 0) then numeric_lt y x else numeric_lt x y.
Proof.
  intros HD Hx Hy.
  pose proof (compact_lt_iff F HD x y Hx Hy) as H.
  unfold DevNum.lt.
  destruct ((mantissa x <? 0) && (mantissa y <? 0)).
  - destruct (Z.ltb_spec (DevNum._compact F x) (DevNum._compact F y)) as [Hlt | Hge].
    + symmetry. apply H. exact Hlt.
    + destruct (numeric_lt y x); [| reflexivity].
      assert (DevNum._compact F x < DevNum._compact F y) by (apply H; reflexivity). lia.
  - destruct (Z.ltb_spec (DevNum._compact F x) (DevNum._compact F y)) as [Hlt | Hge].
    + symmetry. apply H. exact Hlt.
    + destruct (numeric_lt x y); [| reflexivity].
      assert (DevNum._compact F x < DevNum._compact F y) by (apply H; reflexivity). lia.
Qed.

Lemma lt_against_numeric_order_witness :
  (1 <= DIGITS Fd16 /\ finite Fd16 (Build_Num (-200) 0 Fd16)
   /\ finite Fd16 (Build_Num 100 1 Fd16)) /\
  DevNum.lt Fd16 (Build_Num (-200) 0 Fd16) (Build_Num 100 1 Fd16)
  = if (mantissa (Build_Num (-200) 0 Fd16) <? 0) && (mantissa (Build_Num 100 1 Fd16) <? 0)
    then numeric_lt (Build_Num 100 1 Fd16) (Build_Num (-200) 0 Fd16)
    else numeric_lt (Build_Num (-200) 0 Fd16) (Build_Num 100 1 Fd16).
Proof.
  assert (H1 : 1 <= DIGITS Fd16) by (simpl; lia).
  assert (H2 : finite Fd16 (Build_Num (-200) 0 Fd16)).
  { unfold finite. vm_compute. repeat split; congruence. }
  assert (H3 : finite Fd16 (Build_Num 100 1 Fd16)).
  { unfold finite. vm_compute. repeat split; congruence. }
  split; [tauto |].
  exact (lt_against_numeric_order Fd16 _ _ H1 H2 H3).
Defined.

(** The cached zero sorts between the negative and the positive finite
    numbers. *)
Theorem zero_between_signs (F : Floating) (x : Num) :
  1 <= DIGITS F -> 2 <= EXPONENT_MAX F -> finite F x ->
  DevNum.lt F x (zero F) = (mantissa x <? 0) /\
  DevNum.gt F x (zero F) = (0 <? mantissa x).
Proof.
  intros HD HE Hx.
  pose proof (finite_nonzero F HD x Hx) as Hnz.
  pose proof (magnitude_bounds F HD x Hx) as Hb.
  pose proof (Z.pow_pos_nonneg 2 (MANTISSA_BITS F) ltac:(lia)
                (MANTISSA_BITS_nonneg F)) as HK.
  unfold DevNum.lt, DevNum.gt.
  rewrite (compact_zero F (zero F) eq_refl eq_refl).
  destruct (Z.ltb_spec (mantissa x) 0) as [Hneg | Hpos].
  - rewrite (compact_neg F HD x Hx Hneg).
    assert (HM : magnitude F x - MASK F < 0).
    { pose proof (MASK_eq F) as HMe.
      destruct Hx as [[Hlo Hhi] He].
      pose proof (MANTISSA_MAX_lt_pow2 F HD).
      pose proof (le_pow2_log2_up (EXPONENT_MAX F)) as Hle.
      fold (EXPONENT_BITS F) in Hle.
      assert (Hc : exponent x - SPECIAL F + 1 <= 4 * 2 ^ EXPONENT_BITS F - 1)
        by (unfold SPECIAL, EXPONENT_MIN in *; lia).
      unfold magnitude. nia. }
    split.
    + apply Z.ltb_lt. exact HM.
    + symmetry. transitivity false; [apply Z.ltb_ge; lia |].
      symmetry. apply Z.ltb_ge. lia.
  - rewrite (compact_nonneg F HD x Hx Hpos). split.
    + apply Z.ltb_ge. lia.
    + transitivity true; [apply Z.ltb_lt; lia |].
      symmetry. apply Z.ltb_lt. lia.
Qed.

Lemma zero_between_signs_witness :
  (1 <= DIGITS Fd16 /\ 2 <= EXPONENT_MAX Fd16 /\ finite Fd16 (Build_Num (-200) 0 Fd16)) /\
  DevNum.lt Fd16 (Build_Num (-200) 0 Fd16) (zero Fd16)
  = (mantissa (Build_Num (-200) 0 Fd16) <? 0) /\
  DevNum.gt Fd16 (Build_Num (-200) 0 Fd16) (zero Fd16)
  = (0 <? mantissa (Build_Num (-200) 0 Fd16)).
Proof.
  assert (H1 : 1 <= DIGITS Fd16) by (simpl; lia).
  assert (H2 : finite Fd16 (Build_Num (-200) 0 Fd16)).
  { unfold finite. vm_compute. repeat split; congruence. }
  assert (H0 : 2 <= EXPONENT_MAX Fd16) by (vm_compute; congruence).
  split; [tauto |].
  exact (zero_between_signs Fd16 _ H1 H0 H2).
Defined.

(* ===================================================================== *)
(** * [validate] *)

(** [validate] returns a canonical value of the format's shapes, is the
    identity on valid numbers, and is idempotent; the undefined value it
    returns is itself not a number. *)
Theorem validate_idempotent (F : Floating) (n : Num) :
  DevNum.validate F (DevNum.validate F n) = DevNum.validate F n /\
  (DevNum.isNumber F (DevNum.validate F n) = true
   \/ DevNum.validate F n = undefined F) /\
  DevNum.isNumber F (DevNum.validate F (undefined F)) = false.
Proof.
  pose proof (isInvalid_undefined F) as Hu.
  unfold DevNum.isInvalid in Hu. apply negb_true_iff in Hu.
  unfold DevNum.validate.
  destruct (DevNum.isNumber F n) eqn:Hn.
  - rewrite Hn, Hu. rewrite Hu. auto.
  - rewrite Hu. rewrite Hu. auto.
Qed.

(* ===================================================================== *)
(** * The constants of a format *)

(** Rounding that cannot carry: the truncated mantissa is below
    [MANTISSA_MAX], so the exponent is kept and the result is the truncated
    mantissa or one more. *)
Lemma pack_round_no_carry (F : Floating) (m e d : Z) :
  supported F ->
  is_digits m d -> d <= TABLE_LEN -> 0 < d - DIGITS F ->
  Z.abs m / 10 ^ (d - DIGITS F) < MANTISSA_MAX F ->
  exists m',
    DevNum.pack_round F m e d = Ok (m', e)
    /\ Z.abs m / 10 ^ (d - DIGITS F) <= Z.abs m' <= Z.abs m / 10 ^ (d - DIGITS F) + 1
    /\ MANTISSA_MIN F <= Z.abs m' <= MANTISSA_MAX F
    /\ (0 <= m -> 0 < m').
Proof.
  intros HF Hd Hlen Hk Hsmall.
  pose proof (proj1 HF) as HD.
  destruct Hd as [[_ Hd0] | [Hd1 [Hlo Hhi]]]; [lia |].
  pose proof (MANTISSA_MIN_pos F HD) as Hmin.
  unfold DevNum.pack_round. cbv zeta.
  destruct (Z.ltb_spec 0 (d - DIGITS F)) as [_ | H]; [| lia].
  set (k := d - DIGITS F) in *.
  rewrite (P_in_range k) by lia. cbn [bind].
  rewrite (MIDPOINTS_in_range k) by lia. cbn [bind].
  assert (HK : 0 < 10 ^ k) by (apply Z.pow_pos_nonneg; lia).
  assert (Hlo' : 10 ^ k * MANTISSA_MIN F <= Z.abs m).
  { unfold MANTISSA_MIN. rewrite <- Z.pow_add_r by lia.
    replace (k + (DIGITS F - 1)) with (d - 1) by (unfold k; lia). exact Hlo. }
  pose proof (Z.div_le_lower_bound _ _ _ HK Hlo') as Ht1.
  set (truncated := Z.abs m / 10 ^ k) in *.
  set (remainder := Z.abs m mod 10 ^ k).
  set (midpoint := 10 ^ k / 2 - 1 + truncated mod 2).
  set (rounded := truncated + (if midpoint <=? remainder then 1 else 0)).
  assert (Hr : truncated <= rounded <= truncated + 1).
  { unfold rounded. destruct (midpoint <=? remainder); lia. }
  destruct (Z.ltb_spec (MANTISSA_MAX F) rounded) as [Hcarry | Hfit]; [lia |].
  exists (if 0 <=? m then rounded else - rounded).
  split; [reflexivity |].
  destruct (Z.leb_spec 0 m); repeat split; lia.
Qed.

Section Constants.
Variable F : Floating.
Hypothesis F_supported : supported F.
Hypothesis exponent_zero : 0 <= EXPONENT_MAX F.

(** A literal of [L] digits, [L] at least [DIGITS], whose first digit is
    below 9 packs to a finite positive number of exponent 0. *)
Lemma literal_packs_at (L c : Z) :
  DIGITS F <= L < TABLE_LEN ->
  10 ^ (L - 1) <= c < 9 * 10 ^ (L - 1) ->
  exists m,
    DevNum.pack F (PyInt c) 0 L = Ok (Build_Num m 0 F)
    /\ finite F (Build_Num m 0 F)
    /\ c / 10 ^ (L - DIGITS F) <= m <= c / 10 ^ (L - DIGITS F) + 1.
Proof.
  intros HL [Hclo Hchi].
  pose proof F_supported as [HD1 HD2]. unfold MAX_DIGITS in HD2.
  pose proof (MANTISSA_MIN_pos F HD1) as Hmin.
  pose proof (MANTISSA_MAX_eq F HD1) as Hmax.
  assert (Hbase : 0 < 10 ^ (L - 1)) by (apply Z.pow_pos_nonneg; lia).
  assert (Hsucc : 10 ^ L = 10 * 10 ^ (L - 1)).
  { rewrite <- Z.pow_succ_r by lia. f_equal. lia. }
  assert (Hd : is_digits c L).
  { right. split; [lia |]. rewrite Z.abs_eq by lia. lia. }
  assert (Hlim : Z.abs c < 2 ^ ESTIMATE_BITS).
  { pose proof (pow10_below_estimate_limit L ltac:(lia)).
    rewrite Z.abs_eq by lia. lia. }
  assert (He : EXPONENT_MIN F <= 0 + (L - L) <= EXPONENT_MAX F)
    by (unfold EXPONENT_MIN; lia).
  destruct (Z.eq_dec (DIGITS F) L) as [HDeq | HDne].
  - destruct (pack_round_short F F_supported c 0 L Hd ltac:(lia)) as [Hround Hshape].
    replace (DIGITS F - L) with 0 in Hround, Hshape by lia.
    rewrite Z.pow_0_r, Z.mul_1_r in Hround, Hshape.
    rewrite (pack_int F _ _ _ _ _ _ (log10_of_digits _ _ Hlim Hd) Hround).
    assert (Hb : MANTISSA_MIN F <= Z.abs c <= MANTISSA_MAX F).
    { destruct Hshape as [[H0 _] | [_ Hb]]; [lia | exact Hb]. }
    rewrite (pack_canon_finite F F_supported c _ Hb He).
    replace (0 + (L - L)) with 0 by lia.
    exists c. split; [reflexivity |]. split.
    + unfold finite. cbn [mantissa exponent]. unfold EXPONENT_MIN. lia.
    + replace (L - DIGITS F) with 0 by lia. rewrite Z.pow_0_r, Z.div_1_r. lia.
  - assert (HK : 0 < 10 ^ (L - DIGITS F)) by (apply Z.pow_pos_nonneg; lia).
    assert (Hsplit : 10 ^ (L - 1) = 10 ^ (L - DIGITS F) * MANTISSA_MIN F).
    { unfold MANTISSA_MIN. rewrite <- Z.pow_add_r by lia. f_equal. lia. }
    assert (Hsmall : Z.abs c / 10 ^ (L - DIGITS F) < MANTISSA_MAX F).
    { rewrite Z.abs_eq by lia.
      assert (c / 10 ^ (L - DIGITS F) < 9 * MANTISSA_MIN F)
        by (apply Z.div_lt_upper_bound; [exact HK | nia]).
      lia. }
    destruct (pack_round_no_carry F c 0 L F_supported Hd ltac:(lia) ltac:(lia) Hsmall)
      as [m [Hround [Hnear [Hb Hpos]]]].
    rewrite (pack_int F _ _ _ _ _ _ (log10_of_digits _ _ Hlim Hd) Hround).
    rewrite (pack_canon_finite F F_supported m _ Hb He).
    replace (0 + (L - L)) with 0 by lia.
    exists m. split; [reflexivity |]. split.
    + unfold finite. cbn [mantissa exponent]. unfold EXPONENT_MIN. lia.
    + specialize (Hpos ltac:(lia)).
      rewrite (Z.abs_eq c), (Z.abs_eq m) in Hnear by lia. exact Hnear.
Qed.

(** The constants are literals of a thousand digits. *)
Lemma literal_packs (c : Z) :
  10 ^ 999 <= c < 9 * 10 ^ 999 ->
  exists m,
    DevNum.pack F (PyInt c) 0 1000 = Ok (Build_Num m 0 F)
    /\ finite F (Build_Num m 0 F)
    /\ c / 10 ^ (1000 - DIGITS F) <= m <= c / 10 ^ (1000 - DIGITS F) + 1.
Proof.
  assert (HL : DIGITS F <= 1000 < TABLE_LEN).
  { pose proof F_supported as [_ HD2]. unfold MAX_DIGITS in HD2.
    unfold TABLE_LEN, MAX_DIGITS. lia. }
  exact (literal_packs_at 1000 c HL).
Qed.

Lemma TAU_range : 10 ^ 999 <= TAU < 9 * 10 ^ 999.
Proof. split; [apply Z.leb_le | apply Z.ltb_lt]; vm_compute; reflexivity. Qed.

Lemma half_TAU_range : 10 ^ 999 <= TAU / 2 < 9 * 10 ^ 999.
Proof. split; [apply Z.leb_le | apply Z.ltb_lt]; vm_compute; reflexivity. Qed.

Lemma E_range : 10 ^ 999 <= E < 9 * 10 ^ 999.
Proof. split; [apply Z.leb_le | apply Z.ltb_lt]; vm_compute; reflexivity. Qed.

Lemma tau_finite :
  exists t, DevNum.tau F = Ok t /\ finite F t /\ exponent t = 0 /\ 0 < mantissa t.
Proof.
  destruct (literal_packs TAU TAU_range) as [m [Hp [Hfin Hm]]].
  exists (Build_Num m 0 F). split; [exact Hp |]. split; [exact Hfin |].
  split; [reflexivity |]. cbn [mantissa].
  assert (HT : 0 <= TAU) by (vm_compute; discriminate).
  assert (0 <= TAU / 10 ^ (1000 - DIGITS F)).
  { apply Z.div_pos; [exact HT |]. apply Z.pow_pos_nonneg; [lia |].
    pose proof (proj2 F_supported) as HD2. unfold MAX_DIGITS in HD2. lia. }
  pose proof (MANTISSA_MIN_pos F (proj1 F_supported)).
  destruct Hfin as [[Hmlo _] _]. cbn [mantissa] in Hmlo. lia.
Qed.

End Constants.

(** Building a supported format never fails: [tau], [pi] and [e] pack to
    finite numbers of exponent 0, each mantissa being the leading [DIGITS]
    digits of its literal or one more. *)
Theorem constants_are_finite (F : Floating) :
  supported F -> 0 <= EXPONENT_MAX F ->
  exists t p n,
    DevNum.tau F = Ok (Build_Num t 0 F) /\
    DevNum.pi F = Ok (Build_Num p 0 F) /\
    DevNum.e F = Ok (Build_Num n 0 F) /\
    finite F (Build_Num t 0 F) /\ finite F (Build_Num p 0 F) /\
    finite F (Build_Num n 0 F) /\
    TAU / 10 ^ (1000 - DIGITS F) <= t <= TAU / 10 ^ (1000 - DIGITS F) + 1 /\
    TAU / 2 / 10 ^ (1000 - DIGITS F) <= p <= TAU / 2 / 10 ^ (1000 - DIGITS F) + 1 /\
    E / 10 ^ (1000 - DIGITS F) <= n <= E / 10 ^ (1000 - DIGITS F) + 1.
Proof.
  intros HF HE.
  destruct (literal_packs F HF HE TAU TAU_range) as [t [Ht [Hft Hrt]]].
  destruct (literal_packs F HF HE (TAU / 2) half_TAU_range) as [p [Hp [Hfp Hrp]]].
  destruct (literal_packs F HF HE E E_range) as [n [Hn [Hfn Hrn]]].
  exists t, p, n. unfold DevNum.tau, DevNum.pi, DevNum.e. tauto.
Qed.

Lemma constants_are_finite_witness :
  (supported Fd32 /\ 0 <= EXPONENT_MAX Fd32) /\
  exists t p n,
    DevNum.tau Fd32 = Ok (Build_Num t 0 Fd32) /\
    DevNum.pi Fd32 = Ok (Build_Num p 0 Fd32) /\
    DevNum.e Fd32 = Ok (Build_Num n 0 Fd32) /\
    finite Fd32 (Build_Num t 0 Fd32) /\ finite Fd32 (Build_Num p 0 Fd32) /\
    finite Fd32 (Build_Num n 0 Fd32) /\
    TAU / 10 ^ (1000 - DIGITS Fd32) <= t <= TAU / 10 ^ (1000 - DIGITS Fd32) + 1 /\
    TAU / 2 / 10 ^ (1000 - DIGITS Fd32) <= p <= TAU / 2 / 10 ^ (1000 - DIGITS Fd32) + 1 /\
    E / 10 ^ (1000 - DIGITS Fd32) <= n <= E / 10 ^ (1000 - DIGITS Fd32) + 1.
Proof.
  assert (H1 : supported Fd32) by (unfold supported, MAX_DIGITS; simpl; lia).
  assert (H2 : 0 <= EXPONENT_MAX Fd32) by (vm_compute; congruence).
  split; [tauto |].
  exact (constants_are_finite Fd32 H1 H2).
Defined.

(* ===================================================================== *)
(** * The value of the square root *)

Lemma sqrt_loop_more_fuel (N : Z) (r : pyres Z) (fuel : nat) :
  forall x, DevNum.sqrt_loop fuel N x = Some r ->
  forall extra, DevNum.sqrt_loop (extra + fuel) N x = Some r.
Proof.
  induction fuel as [| fuel IH]; intros x H extra; [discriminate H |].
  rewrite Nat.add_succ_r. cbn [DevNum.sqrt_loop] in *.
  destruct (x =? 0); [exact H |].
  destruct (DevNum.sqrt_next N x =? x); [exact H |].
  apply IH. exact H.
Qed.

Lemma sqrt_start_value (F : Floating) (x : Num) :
  supported F -> 0 < mantissa x ->
  exists seed,
    DevNum.sqrt_start F x
    = Ok (mantissa x * 10 ^ (DIGITS F + (if exponent x mod 2 =? 0 then 3 else 4)), seed)
    /\ 0 < seed.
Proof.
  intros HF Hm. pose proof HF as [Hlo Hhi]. unfold MAX_DIGITS in Hhi.
  unfold DevNum.sqrt_start. cbv zeta.
  assert (Hlen : TABLE_LEN = 3000) by reflexivity.
  destruct (exponent x mod 2 =? 0).
  - rewrite !P_in_range by lia. cbn [bind].
    replace (DIGITS F + 2 * 2 - 1) with (DIGITS F + 3) by lia.
    eexists. split; [reflexivity |].
    pose proof (Z.pow_pos_nonneg 10 (DIGITS F - 1) ltac:(lia) ltac:(lia)).
    change (10 ^ (2 - 2)) with 1. nia.
  - rewrite !P_in_range by lia. cbn [bind].
    replace (DIGITS F + 2 * 2) with (DIGITS F + 4) by lia.
    eexists. split; [reflexivity |].
    pose proof (Z.pow_pos_nonneg 10 (DIGITS F) ltac:(lia) ltac:(lia)).
    change (10 ^ (2 - 2)) with 1. nia.
Qed.

(** With [N] the mantissa times [10^(DIGITS+3)] for an even exponent and
    times [10^(DIGITS+4)] for an odd one, and [N + 1] no perfect square,
    [sqrt] of a finite positive number returns, from some number of passes
    on, the integer square root of [N] packed at half the exponent with
    [DIGITS + 2] expected digits, and that is a canonical number. *)
Theorem sqrt_is_integer_root (F : Floating) (x : Num) :
  supported F -> finite F x -> 0 < mantissa x ->
  let N := mantissa x * 10 ^ (DIGITS F + (if exponent x mod 2 =? 0 then 3 else 4)) in
  (forall t, N + 1 <> t * t) ->
  exists fuel r,
    canonical F r /\
    DevNum.pack F (PyInt (Z.sqrt N)) (exponent x / 2) (DIGITS F + 2) = Ok r /\
    forall extra, DevNum.sqrt (extra + fuel) F x = Some (Ok r).
Proof.
  intros HF Hfin Hm N Hsq.
  destruct (sqrt_start_value F x HF Hm) as [seed [Hstart Hseed]].
  fold N in Hstart.
  pose proof HF as [HD1 HD2]. unfold MAX_DIGITS in HD2.
  assert (Hlen : TABLE_LEN = 3000) by reflexivity.
  assert (HN : 0 < N).
  { unfold N. apply Z.mul_pos_pos; [exact Hm |].
    apply Z.pow_pos_nonneg; [lia |]. destruct (exponent x mod 2 =? 0); lia. }
  destruct (sqrt_loop_terminates N HN seed Hseed Hsq) as [fuel Hloop].
  assert (Hroot : Z.abs (Z.sqrt N) < 2 ^ ESTIMATE_BITS).
  { pose proof (Z.sqrt_nonneg N) as Hnn.
    pose proof (Z.sqrt_spec N ltac:(lia)) as [Hlo _].
    assert (HsN : Z.sqrt N <= N) by nia.
    destruct Hfin as [[_ Hhi] _]. unfold MANTISSA_MAX in Hhi.
    assert (HmD : mantissa x < 10 ^ DIGITS F) by lia.
    assert (Hpow : 10 ^ (DIGITS F + (if exponent x mod 2 =? 0 then 3 else 4))
                   <= 10 ^ (DIGITS F + 4)).
    { apply Z.pow_le_mono_r; [lia |]. destruct (exponent x mod 2 =? 0); lia. }
    pose proof (pow10_below_estimate_limit (DIGITS F + (DIGITS F + 4)) ltac:(lia)) as Hl.
    rewrite Z.pow_add_r in Hl by lia.
    assert (HK : 0 < 10 ^ (DIGITS F + 4)) by (apply Z.pow_pos_nonneg; lia).
    assert (N < 10 ^ DIGITS F * 10 ^ (DIGITS F + 4)) by (unfold N; nia).
    rewrite Z.abs_eq by lia. lia. }
  destruct (pack_returns_canonical F (Z.sqrt N) (exponent x / 2) (DIGITS F + 2)
              HF Hroot) as [r [Hpack Hcan]].
  exists fuel, r. split; [exact Hcan |]. split; [exact Hpack |].
  intros extra. unfold DevNum.sqrt, DevNum.isInvalid.
  rewrite (isNumber_finite F x Hfin).
  destruct (Z.ltb_spec (mantissa x) 0) as [H | _]; [lia |].
  destruct (Z.eqb_spec (mantissa x) 0) as [H | _]; [lia |].
  cbn [negb orb]. rewrite Hstart.
  rewrite (sqrt_loop_more_fuel N _ fuel seed Hloop extra).
  rewrite Hpack. reflexivity.
Qed.

Lemma sqrt_is_integer_root_witness :
  (supported Fd16 /\ finite Fd16 (Build_Num 400 0 Fd16)
   /\ 0 < mantissa (Build_Num 400 0 Fd16)
   /\ (forall t, 400 * 10 ^ (3 + 3) + 1 <> t * t)) /\
  exists fuel r,
    canonical Fd16 r /\
    DevNum.pack Fd16 (PyInt (Z.sqrt (400 * 10 ^ (3 + 3)))) (0 / 2) (3 + 2) = Ok r /\
    forall extra, DevNum.sqrt (extra + fuel) Fd16 (Build_Num 400 0 Fd16) = Some (Ok r).
Proof.
  assert (H1 : supported Fd16) by (unfold supported, MAX_DIGITS; simpl; lia).
  assert (H2 : finite Fd16 (Build_Num 400 0 Fd16)).
  { unfold finite. vm_compute. repeat split; congruence. }
  assert (H3 : 0 < mantissa (Build_Num 400 0 Fd16)) by (simpl; lia).
  assert (H4 : forall t, 400 * 10 ^ (3 + 3) + 1 <> t * t).
  { intros t Ht. change (400 * 10 ^ (3 + 3) + 1) with 400000001 in Ht.
    assert (Ha : Z.abs t * Z.abs t = 400000001)
      by (rewrite <- Z.abs_mul, <- Ht; apply Z.abs_eq; nia).
    pose proof (Z.abs_nonneg t).
    assert (20000 <= Z.abs t) by nia.
    assert (Z.abs t < 20001) by nia.
    nia. }
  split; [tauto |].
  exact (sqrt_is_integer_root Fd16 (Build_Num 400 0 Fd16) H1 H2 H3 H4).
Defined.

(* ===================================================================== *)
(** * Sine *)

(** A negative term stays negative, because [//] floors: the loop never
    sees a zero. *)
Lemma sin_loop_negative (n2 SCALE : Z) :
  0 < n2 -> 0 < SCALE ->
  forall fuel term result order,
    term < 0 -> 1 <= order ->
    DevNum.sin_loop fuel term n2 SCALE result order = None.
Proof.
  intros Hn2 HS. induction fuel as [| fuel IH]; intros term result order Ht Ho.
  - reflexivity.
  - cbn [DevNum.sin_loop].
    destruct (Z.eqb_spec term 0) as [Hz | _]; [lia |].
    cbv zeta. apply IH; [| lia].
    set (c1 := (order + 2 - 1) * (order + 2) * SCALE).
    set (c2 := (order + 2 + 2 - 1) * (order + 2 + 2) * SCALE).
    assert (Hc1 : 0 < c1) by (unfold c1; nia).
    assert (Hc2 : 0 < c2) by (unfold c2; nia).
    assert (Ht1 : term * n2 / c1 < 0) by (apply Z.div_lt_upper_bound; nia).
    apply Z.div_lt_upper_bound; nia.
Qed.

(** A non-negative term shrinks when the scaled square is below the scale,
    so the loop ends, and the sum stays within the first term of where it
    started. *)
Lemma sin_loop_returns (n2 SCALE : Z) :
  0 <= n2 < SCALE ->
  forall (n : nat) term result order,
    0 <= term <= Z.of_nat n -> 1 <= order ->
    exists res,
      DevNum.sin_loop (S n) term n2 SCALE result order = Some res
      /\ Z.abs res <= Z.abs result + term.
Proof.
  intros Hn2. induction n as [| n IH]; intros term result order Ht Ho.
  - assert (term = 0) by lia. subst term.
    exists result. split; [reflexivity | lia].
  - cbn [DevNum.sin_loop].
    destruct (Z.eqb_spec term 0) as [Hz | Hnz].
    { exists result. split; [reflexivity | lia]. }
    cbv zeta.
    set (c1 := (order + 2 - 1) * (order + 2) * SCALE).
    set (c2 := (order + 2 + 2 - 1) * (order + 2 + 2) * SCALE).
    assert (Hc1 : 0 < c1) by (unfold c1; nia).
    assert (Hc2 : 0 < c2) by (unfold c2; nia).
    assert (Hc1' : n2 < c1) by (unfold c1; nia).
    assert (Hc2' : n2 <= c2) by (unfold c2; nia).
    set (t1 := term * n2 / c1).
    assert (Ht1 : 0 <= t1 < term).
    { split; [apply Z.div_pos; nia | apply Z.div_lt_upper_bound; nia]. }
    set (t2 := t1 * n2 / c2).
    assert (Ht2 : 0 <= t2 <= t1).
    { split; [apply Z.div_pos; nia | apply Z.div_le_upper_bound; nia]. }
    destruct (IH t2 (result - t1 + t2) (order + 2 + 2)) as [res [Hres Hb]].
    + rewrite Nat2Z.inj_succ in Ht. lia.
    + lia.
    + exists res. split; [exact Hres | lia].
Qed.

Lemma sin_loop_more_fuel (n2 SCALE res : Z) (fuel : nat) :
  forall term result order,
    DevNum.sin_loop fuel term n2 SCALE result order = Some res ->
    forall extra, DevNum.sin_loop (extra + fuel) term n2 SCALE result order = Some res.
Proof.
  induction fuel as [| fuel IH]; intros term result order H extra; [discriminate H |].
  rewrite Nat.add_succ_r. cbn [DevNum.sin_loop] in *.
  destruct (term =? 0); [exact H |].
  cbv zeta in *. apply IH. exact H.
Qed.

Section Sine.
Variable F : Floating.
Hypothesis F_supported : supported F.
Hypothesis exponent_zero : 0 <= EXPONENT_MAX F.

(** Range reduction leaves a number below 1 in magnitude as it is. *)
Lemma sin_reduction_small (x : Num) :
  DevNum.isNumber F x = true -> exponent x < 0 ->
  (t <- DevNum.tau F ;; DevNum.mod_ F x t) = Ok x.
Proof.
  intros Hx He.
  destruct (tau_finite F F_supported exponent_zero) as [t [Ht [Hfin [Het Hmt]]]].
  rewrite Ht. cbn [bind]. unfold DevNum.mod_, DevNum.isInvalid.
  rewrite Hx, (isNumber_finite F t Hfin).
  destruct (Z.eqb_spec (mantissa t) 0) as [Hz | _]; [lia |].
  cbn [negb orb].
  destruct (Z.ltb_spec (exponent x) (exponent t)) as [_ | H]; [reflexivity | lia].
Qed.

Lemma sin_small (fuel : nat) (x : Num) :
  DevNum.isNumber F x = true -> exponent x < 0 ->
  DevNum.sin fuel F x
  = match DevNum.sin_start F x with
    | Raise e => Some (Raise e)
    | Ok (term, n2, SCALE) =>
        match DevNum.sin_loop fuel term n2 SCALE term 1 with
        | None => None
        | Some result => Some (DevNum.pack F (PyInt result) (exponent x) (DIGITS F + 2))
        end
    end.
Proof.
  intros Hx He. unfold DevNum.sin, DevNum.isInvalid. rewrite Hx. cbn [negb].
  rewrite (sin_reduction_small x Hx He). reflexivity.
Qed.

Lemma sin_zero_cases :
  (2 * (EXPONENT_MAX F + 1) < TABLE_LEN ->
   forall fuel, DevNum.sin (S fuel) F (zero F) = Some (Ok (zero F))) /\
  (TABLE_LEN <= 2 * (EXPONENT_MAX F + 1) ->
   forall fuel, DevNum.sin fuel F (zero F) = Some (Raise IndexError)).
Proof.
  pose proof F_supported as [HD1 HD2]. unfold MAX_DIGITS in HD2.
  assert (Hlen : TABLE_LEN = 3000) by reflexivity.
  assert (Hz : DevNum.isNumber F (zero F) = true).
  { pose proof (isInvalid_zero F) as H. unfold DevNum.isInvalid in H.
    apply negb_false_iff in H. exact H. }
  assert (He : exponent (zero F) < 0)
    by (unfold zero, SPECIAL, EXPONENT_MIN; cbn [exponent]; lia).
  assert (Hidx : Z.max (-2 * exponent (zero F)) 0 = 2 * (EXPONENT_MAX F + 1))
    by (unfold zero, SPECIAL, EXPONENT_MIN; cbn [exponent]; lia).
  split; intros Hrange fuel; rewrite (sin_small _ (zero F) Hz He);
    unfold DevNum.sin_start; cbv zeta; rewrite Hidx;
    rewrite (P_in_range 2) by lia; cbn [bind].
  - rewrite (P_in_range (2 * (EXPONENT_MAX F + 1))) by lia. cbn [bind].
    rewrite (P_in_range ((DIGITS F + 2 - 1) * 2)) by lia. cbn [bind].
    change (mantissa (zero F)) with 0. rewrite Z.mul_0_l.
    cbn [DevNum.sin_loop]. change (0 =? 0) with true. cbv iota.
    rewrite (pack_zero F _ _ F_supported). reflexivity.
  - unfold P at 1, list_index.
    destruct (Z.leb_spec 0 (2 * (EXPONENT_MAX F + 1))) as [_ | H]; [| lia].
    destruct (Z.ltb_spec (2 * (EXPONENT_MAX F + 1)) TABLE_LEN) as [H | _]; [lia |].
    cbn [andb].
    destruct (Z.leb_spec (- TABLE_LEN) (2 * (EXPONENT_MAX F + 1))) as [_ | H];
      [| reflexivity].
    destruct (Z.ltb_spec (2 * (EXPONENT_MAX F + 1)) 0) as [H | _]; [lia |].
    reflexivity.
Qed.

Lemma sin_start_small (x : Num) :
  finite F x -> - TABLE_LEN < 2 * exponent x -> exponent x < 0 ->
  exists n2,
    DevNum.sin_start F x
    = Ok (mantissa x * 100, n2, 10 ^ ((DIGITS F + 1) * 2))
    /\ 0 <= n2 < 10 ^ ((DIGITS F + 1) * 2)
    /\ (- (DIGITS F + 1) <= exponent x -> 0 < n2).
Proof.
  intros [[Hlo Hhi] _] Hidx He.
  pose proof F_supported as [HD1 HD2]. unfold MAX_DIGITS in HD2.
  assert (Hlen : TABLE_LEN = 3000) by reflexivity.
  pose proof (MANTISSA_MIN_pos F HD1) as Hmin.
  unfold DevNum.sin_start. cbv zeta.
  rewrite (P_in_range 2) by lia. cbn [bind].
  rewrite Z.max_l by lia.
  rewrite (P_in_range (-2 * exponent x)) by lia. cbn [bind].
  replace (DIGITS F + 2 - 1) with (DIGITS F + 1) by lia.
  rewrite (P_in_range ((DIGITS F + 1) * 2)) by lia. cbn [bind].
  change (10 ^ 2) with 100.
  eexists. split; [reflexivity |].
  set (term := mantissa x * 100).
  set (q := 10 ^ (-2 * exponent x)).
  assert (Hq : 0 < q) by (apply Z.pow_pos_nonneg; lia).
  assert (Hq100 : 100 <= q).
  { change 100 with (10 ^ 2). apply Z.pow_le_mono_r; lia. }
  assert (Hsq : term * term = Z.abs (mantissa x) * Z.abs (mantissa x) * 10000).
  { unfold term. rewrite Z.abs_square. ring. }
  assert (HS : 10 ^ ((DIGITS F + 1) * 2) = 10 ^ DIGITS F * 10 ^ DIGITS F * 100).
  { replace ((DIGITS F + 1) * 2) with (DIGITS F + DIGITS F + 2) by lia.
    rewrite !Z.pow_add_r by lia. reflexivity. }
  unfold MANTISSA_MAX in Hhi.
  pose proof (Z.abs_nonneg (mantissa x)) as Hnn.
  assert (HK : 0 < 10 ^ DIGITS F) by (apply Z.pow_pos_nonneg; lia).
  split; [split |].
  - apply Z.div_pos; nia.
  - apply Z.div_lt_upper_bound; [exact Hq |]. rewrite HS, Hsq. nia.
  - intros Hdeep.
    assert (Hqle : q <= 10 ^ ((DIGITS F + 1) * 2))
      by (apply Z.pow_le_mono_r; lia).
    assert (Hmm : 10 ^ DIGITS F = 10 * MANTISSA_MIN F).
    { pose proof (MANTISSA_MAX_eq F HD1). unfold MANTISSA_MAX in *. lia. }
    assert (1 <= term * term / q); [| lia].
    apply Z.div_le_lower_bound; [exact Hq |].
    rewrite Hsq. rewrite HS, Hmm in Hqle. nia.
Qed.

Lemma sin_negative_never_returns (x : Num) :
  finite F x -> mantissa x < 0 ->
  - (DIGITS F + 1) <= exponent x < 0 ->
  forall fuel, DevNum.sin fuel F x = None.
Proof.
  intros Hfin Hneg He fuel.
  pose proof F_supported as [HD1 HD2]. unfold MAX_DIGITS in HD2.
  assert (Hlen : TABLE_LEN = 3000) by reflexivity.
  destruct (sin_start_small x Hfin ltac:(lia) ltac:(lia)) as [n2 [Hstart [Hb Hpos]]].
  rewrite (sin_small fuel x (isNumber_finite F x Hfin) ltac:(lia)), Hstart.
  assert (HS : 0 < 10 ^ ((DIGITS F + 1) * 2)) by (apply Z.pow_pos_nonneg; lia).
  assert (Hterm : mantissa x * 100 < 0) by lia.
  rewrite (sin_loop_negative n2 _ (Hpos ltac:(lia)) HS fuel _ _ 1 Hterm ltac:(lia)).
  reflexivity.
Qed.

Lemma sin_positive_small_returns (x : Num) :
  finite F x -> 0 < mantissa x ->
  - TABLE_LEN < 2 * exponent x -> exponent x < 0 ->
  exists fuel r,
    canonical F r /\ forall extra, DevNum.sin (S (extra + fuel)) F x = Some (Ok r).
Proof.
  intros Hfin Hpos Hidx He.
  pose proof F_supported as [HD1 HD2]. unfold MAX_DIGITS in HD2.
  assert (Hlen : TABLE_LEN = 3000) by reflexivity.
  destruct (sin_start_small x Hfin Hidx He) as [n2 [Hstart [Hb _]]].
  set (term := mantissa x * 100) in *.
  set (fuel := Z.to_nat term).
  assert (Hloop : forall extra, exists res,
             DevNum.sin_loop (S (extra + fuel)) term n2 (10 ^ ((DIGITS F + 1) * 2)) term 1
             = Some res /\ Z.abs res <= Z.abs term + term).
  { intros extra. apply (sin_loop_returns n2 _ Hb); [| lia].
    rewrite Nat2Z.inj_add. unfold fuel. rewrite Z2Nat.id by (unfold term; lia). lia. }
  destruct (Hloop 0%nat) as [res [Hres Hbound]].
  assert (Hsame : forall extra,
             DevNum.sin_loop (S (extra + fuel)) term n2 (10 ^ ((DIGITS F + 1) * 2)) term 1
             = Some res).
  { intros extra. rewrite <- Nat.add_succ_r.
    apply sin_loop_more_fuel. exact Hres. }
  assert (Hlim : Z.abs res < 2 ^ ESTIMATE_BITS).
  { destruct Hfin as [[_ Hhi] _]. unfold MANTISSA_MAX in Hhi.
    pose proof (pow10_below_estimate_limit (DIGITS F + 3) ltac:(lia)) as Hl.
    rewrite Z.pow_add_r in Hl by lia. change (10 ^ 3) with 1000 in Hl.
    unfold term in Hbound. lia. }
  destruct (pack_returns_canonical F res (exponent x) (DIGITS F + 2) F_supported Hlim)
    as [r [Hpack Hcan]].
  exists fuel, r. split; [exact Hcan |].
  intros extra.
  rewrite (sin_small _ x (isNumber_finite F x Hfin) He), Hstart.
  fold term. rewrite (Hsame extra), Hpack. reflexivity.
Qed.

End Sine.

(** [sin] of the cached zero is the cached zero when twice [EXPONENT_MAX + 1]
    is inside the power table, and raises [IndexError] otherwise: the
    exponent that tags zero is doubled into an index. *)
Theorem sin_of_zero (F : Floating) :
  supported F -> 0 <= EXPONENT_MAX F ->
  (2 * (EXPONENT_MAX F + 1) < TABLE_LEN ->
   forall fuel, DevNum.sin (S fuel) F (zero F) = Some (Ok (zero F))) /\
  (TABLE_LEN <= 2 * (EXPONENT_MAX F + 1) ->
   forall fuel, DevNum.sin fuel F (zero F) = Some (Raise IndexError)).
Proof. exact (sin_zero_cases F). Qed.

Lemma sin_of_zero_witness :
  (supported Fd128 /\ 0 <= EXPONENT_MAX Fd128) /\
  (2 * (EXPONENT_MAX Fd128 + 1) < TABLE_LEN ->
   forall fuel, DevNum.sin (S fuel) Fd128 (zero Fd128) = Some (Ok (zero Fd128))) /\
  (TABLE_LEN <= 2 * (EXPONENT_MAX Fd128 + 1) ->
   forall fuel, DevNum.sin fuel Fd128 (zero Fd128) = Some (Raise IndexError)).
Proof.
  assert (H1 : supported Fd128) by (unfold supported, MAX_DIGITS; simpl; lia).
  assert (H2 : 0 <= EXPONENT_MAX Fd128) by (vm_compute; congruence).
  split; [tauto |].
  exact (sin_of_zero Fd128 H1 H2).
Defined.

(** [sin] never returns on a finite negative number whose exponent is
    between [-(DIGITS + 1)] and [-1]: range reduction leaves the number
    negative, and a negative term of the series never floors to zero. *)
Theorem sin_hangs_on_negatives (F : Floating) (x : Num) :
  supported F -> 0 <= EXPONENT_MAX F ->
  finite F x -> mantissa x < 0 ->
  - (DIGITS F + 1) <= exponent x < 0 ->
  forall fuel, DevNum.sin fuel F x = None.
Proof. intros HF HE. exact (sin_negative_never_returns F HF HE x). Qed.

Lemma sin_hangs_on_negatives_witness :
  (supported Fd16 /\ 0 <= EXPONENT_MAX Fd16 /\ finite Fd16 (Build_Num (-500) (-1) Fd16)
   /\ mantissa (Build_Num (-500) (-1) Fd16) < 0
   /\ - (DIGITS Fd16 + 1) <= exponent (Build_Num (-500) (-1) Fd16) < 0) /\
  forall fuel, DevNum.sin fuel Fd16 (Build_Num (-500) (-1) Fd16) = None.
Proof.
  assert (H1 : supported Fd16) by (unfold supported, MAX_DIGITS; simpl; lia).
  assert (H2 : 0 <= EXPONENT_MAX Fd16) by (vm_compute; congruence).
  assert (H3 : finite Fd16 (Build_Num (-500) (-1) Fd16)).
  { unfold finite. vm_compute. repeat split; congruence. }
  assert (H4 : mantissa (Build_Num (-500) (-1) Fd16) < 0) by (simpl; lia).
  assert (H5 : - (DIGITS Fd16 + 1) <= exponent (Build_Num (-500) (-1) Fd16) < 0)
    by (simpl; lia).
  split; [tauto |].
  exact (sin_hangs_on_negatives Fd16 _ H1 H2 H3 H4 H5).
Defined.

(** [sin] returns a canonical number, from some number of passes on, for
    every finite positive number below 1 whose doubled exponent is inside
    the power table. *)
Theorem sin_returns_below_one (F : Floating) (x : Num) :
  supported F -> 0 <= EXPONENT_MAX F ->
  finite F x -> 0 < mantissa x ->
  - TABLE_LEN < 2 * exponent x -> exponent x < 0 ->
  exists fuel r,
    canonical F r /\ forall extra, DevNum.sin (S (extra + fuel)) F x = Some (Ok r).
Proof. intros HF HE. exact (sin_positive_small_returns F HF HE x). Qed.

Lemma sin_returns_below_one_witness :
  (supported Fd16 /\ 0 <= EXPONENT_MAX Fd16 /\ finite Fd16 (Build_Num 500 (-1) Fd16)
   /\ 0 < mantissa (Build_Num 500 (-1) Fd16)
   /\ - TABLE_LEN < 2 * exponent (Build_Num 500 (-1) Fd16)
   /\ exponent (Build_Num 500 (-1) Fd16) < 0) /\
  exists fuel r,
    canonical Fd16 r
    /\ forall extra, DevNum.sin (S (extra + fuel)) Fd16 (Build_Num 500 (-1) Fd16) = Some (Ok r).
Proof.
  assert (H1 : supported Fd16) by (unfold supported, MAX_DIGITS; simpl; lia).
  assert (H2 : 0 <= EXPONENT_MAX Fd16) by (vm_compute; congruence).
  assert (H3 : finite Fd16 (Build_Num 500 (-1) Fd16)).
  { unfold finite. vm_compute. repeat split; congruence. }
  assert (H4 : 0 < mantissa (Build_Num 500 (-1) Fd16)) by (simpl; lia).
  assert (H5 : - TABLE_LEN < 2 * exponent (Build_Num 500 (-1) Fd16))
    by (vm_compute; reflexivity).
  assert (H6 : exponent (Build_Num 500 (-1) Fd16) < 0) by (simpl; lia).
  split; [tauto |].
  exact (sin_returns_below_one Fd16 _ H1 H2 H3 H4 H5 H6).
Defined.

(* ===================================================================== *)
(** * Decimal numerals *)

Lemma string_app_assoc (s t u : string) : ((s ++ t) ++ u = s ++ (t ++ u))%string.
Proof. induction s as [| c s IH]; simpl; [reflexivity | rewrite IH; reflexivity]. Qed.

Lemma string_app_nil_r (s : string) : (s ++ EmptyString = s)%string.
Proof. induction s as [| c s IH]; simpl; [reflexivity | rewrite IH; reflexivity]. Qed.

Lemma string_app_length (s t : string) :
  String.length (s ++ t) = (String.length s + String.length t)%nat.
Proof. induction s as [| c s IH]; simpl; [reflexivity | rewrite IH; reflexivity]. Qed.

Lemma repeat0_snoc (k : nat) : (repeat0 k ++ "0" = repeat0 (S k))%string.
Proof. induction k as [| k IH]; simpl; [reflexivity | rewrite IH; reflexivity]. Qed.

Lemma repeat0_length (k : nat) : String.length (repeat0 k) = k.
Proof. induction k as [| k IH]; simpl; [reflexivity | rewrite IH; reflexivity]. Qed.

Lemma numeral_length (d : nat) : forall n, String.length (numeral d n) = d.
Proof.
  induction d as [| d IH]; intros n; simpl; [reflexivity |].
  rewrite string_app_length, IH. simpl. lia.
Qed.

(** [str_digits] writes the numeral of a number of [d] digits. *)
Lemma str_digits_numeral (d : nat) :
  forall fuel n acc,
    (1 <= d <= fuel)%nat ->
    10 ^ (Z.of_nat d - 1) <= n < 10 ^ Z.of_nat d ->
    str_digits fuel n acc = (numeral d n ++ acc)%string.
Proof.
  induction d as [| d IH]; intros fuel n acc Hd Hn; [lia |].
  destruct fuel as [| fuel]; [lia |].
  cbn [str_digits numeral].
  rewrite string_app_assoc. cbn [append].
  destruct (Nat.eq_dec d 0) as [-> | Hd0].
  - simpl in Hn. cbn [numeral append].
    rewrite Z.div_small by lia. reflexivity.
  - assert (Hten : 10 ^ Z.of_nat (S d) = 10 * 10 ^ Z.of_nat d).
    { rewrite Nat2Z.inj_succ, Z.pow_succ_r by lia. reflexivity. }
    assert (Hten' : 10 ^ Z.of_nat d = 10 * 10 ^ (Z.of_nat d - 1)).
    { replace (Z.of_nat d) with (Z.succ (Z.of_nat d - 1)) at 1 by lia.
      rewrite Z.pow_succ_r by lia. reflexivity. }
    replace (Z.of_nat (S d) - 1) with (Z.of_nat d) in Hn by lia.
    assert (Hq : 10 ^ (Z.of_nat d - 1) <= n / 10 < 10 ^ Z.of_nat d).
    { split; [apply Z.div_le_lower_bound; lia | apply Z.div_lt_upper_bound; lia]. }
    assert (Hpos : 0 < 10 ^ (Z.of_nat d - 1)) by (apply Z.pow_pos_nonneg; lia).
    destruct (Z.eqb_spec (n / 10) 0) as [Hz | _]; [lia |].
    apply IH; [lia | exact Hq].
Qed.

Lemma py_str_positive (n : Z) (d : nat) :
  (1 <= d)%nat ->
  10 ^ (Z.of_nat d - 1) <= n < 10 ^ Z.of_nat d ->
  py_str n = numeral d n.
Proof.
  intros Hd Hn.
  assert (Hpos : 0 < 10 ^ (Z.of_nat d - 1)) by (apply Z.pow_pos_nonneg; lia).
  unfold py_str. cbv zeta.
  destruct (Z.ltb_spec n 0) as [H | _]; [lia |].
  rewrite Z.abs_eq by lia.
  rewrite (str_digits_numeral d _ n EmptyString); [apply string_app_nil_r | | exact Hn].
  split; [exact Hd |].
  assert (Hlog : Z.of_nat d - 1 <= Z.log2 n).
  { apply Z.log2_le_pow2; [lia |].
    apply Z.le_trans with (10 ^ (Z.of_nat d - 1)); [| lia].
    apply Z.pow_le_mono_l. lia. }
  pose proof (Z.log2_nonneg n). lia.
Qed.

Lemma py_str_negative (n : Z) : n < 0 -> py_str n = String "-" (py_str (- n)).
Proof.
  intros Hn. unfold py_str. cbv zeta.
  destruct (Z.ltb_spec n 0) as [_ | H]; [| lia].
  destruct (Z.ltb_spec (- n) 0) as [H | _]; [lia |].
  rewrite Z.abs_opp. reflexivity.
Qed.

Lemma numeral_trailing_zeros (d k : nat) (n : Z) :
  numeral (k + d) (n * 10 ^ Z.of_nat k) = (numeral d n ++ repeat0 k)%string.
Proof.
  induction k as [| k IH].
  - simpl. rewrite Z.mul_1_r, string_app_nil_r. reflexivity.
  - cbn [Nat.add numeral].
    assert (Hten : n * 10 ^ Z.of_nat (S k) = n * 10 ^ Z.of_nat k * 10).
    { rewrite Nat2Z.inj_succ, Z.pow_succ_r by lia. ring. }
    rewrite Hten, Z.div_mul, Z.mod_mul by lia.
    rewrite IH, string_app_assoc.
    change (String (digit_char 0) EmptyString) with "0"%string.
    rewrite repeat0_snoc. reflexivity.
Qed.

(** ** Stripping trailing zeros *)

Lemma rstrip0_repeat0 (k : nat) : rstrip0 (repeat0 k) = EmptyString.
Proof. induction k as [| k IH]; simpl; [reflexivity | rewrite IH; reflexivity]. Qed.

Lemma rstrip0_app_zeros (s : string) (k : nat) :
  rstrip0 (s ++ repeat0 k) = rstrip0 s.
Proof.
  induction s as [| c s IH]; cbn [append rstrip0].
  - apply rstrip0_repeat0.
  - rewrite IH. reflexivity.
Qed.

Lemma rstrip0_length (s : string) :
  (String.length (rstrip0 s) <= String.length s)%nat.
Proof.
  induction s as [| c s IH]; cbn [rstrip0 String.length]; [lia |].
  destruct (rstrip0 s); [destruct (Ascii.eqb c "0") |]; cbn [String.length] in *; lia.
Qed.

(** Putting the stripped zeros back gives the string again. *)
Lemma rstrip0_restore (s : string) :
  (rstrip0 s ++ repeat0 (String.length s - String.length (rstrip0 s)) = s)%string.
Proof.
  induction s as [| c s IH]; [reflexivity |].
  cbn [rstrip0]. pose proof (rstrip0_length s) as Hlen.
  destruct (rstrip0 s) as [| c' r] eqn:Hr.
  - cbn [String.length append] in IH. rewrite Nat.sub_0_r in IH.
    destruct (Ascii.eqb_spec c "0") as [-> | Hne].
    + cbn [String.length append]. rewrite Nat.sub_0_r. cbn [repeat0].
      rewrite IH. reflexivity.
    + cbn [String.length append].
      replace (S (String.length s) - 1)%nat with (String.length s) by lia.
      rewrite IH. reflexivity.
  - cbn [String.length append] in *.
    replace (S (String.length s) - S (S (String.length r)))%nat
      with (String.length s - S (String.length r))%nat by lia.
    rewrite IH. reflexivity.
Qed.





(* ===================================================================== *)
(** * Rendering *)

Section Rendering.
Variable F : Floating.
Hypothesis digits_pos : 1 <= DIGITS F.




End Rendering.



Lemma toString_make (F : Floating) (n : Z) :
  supported F ->
  DIGITS F - 1 <= EXPONENT_MAX F ->
  Z.abs n < 10 ^ DIGITS F ->
  (r <- DevNum.make F n 0 ;; DevNum.toString F r None) = Ok (py_str n).
Proof.
  intros HF Hemax Hlt.
  pose proof HF as [HD1 HD2].
  destruct (Z.eq_dec n 0) as [-> | Hn].
  { rewrite (make_zero F 0 HF). cbn [bind].
    unfold DevNum.toString.
    assert (Hu : DevNum.isUndefined F (zero F) = false).
    { unfold DevNum.isUndefined, zero. cbn [mantissa exponent].
      rewrite Z.eqb_refl. reflexivity. }
    rewrite Hu, (isInvalid_zero F). reflexivity. }
  destruct (digits_of_small F n HF Hn Hlt) as [d [Hd Hb]].
  assert (He : EXPONENT_MIN F <= d - 1 + 0 <= EXPONENT_MAX F)
    by (unfold EXPONENT_MIN; lia).
  destruct (make_fits F n 0 d HF Hd Hb He) as [Hmake Hfin].
  rewrite Hmake. cbn [bind].
  set (k := DIGITS F - d) in *.
  set (x := Build_Num (n * 10 ^ k) (d - 1 + 0) F) in *.
  assert (HK : 0 < 10 ^ k) by (apply Z.pow_pos_nonneg; unfold k; lia).
  unfold DevNum.toString.
  assert (Hu : DevNum.isUndefined F x = false).
  { unfold DevNum.isUndefined, x. cbn [mantissa exponent].
    destruct (Z.eqb_spec (d - 1 + 0) (SPECIAL F)) as [H | _];
      [unfold SPECIAL, EXPONENT_MIN in H; lia | reflexivity]. }
  rewrite Hu. unfold DevNum.isInvalid. rewrite (isNumber_finite F x Hfin).
  cbn [negb].
  assert (Hmx : mantissa x = n * 10 ^ k) by reflexivity.
  destruct (Z.eqb_spec (mantissa x) 0) as [Hz | _]; [rewrite Hmx in Hz; nia |].
  cbv zeta.
  (* the digit string *)
  set (d' := Z.to_nat d). set (k' := Z.to_nat k).
  assert (Hd' : Z.of_nat d' = d) by (unfold d'; lia).
  assert (Hk' : Z.of_nat k' = k) by (unfold k', k; lia).
  assert (Habs : Z.abs (mantissa x) = Z.abs n * 10 ^ Z.of_nat k').
  { rewrite Hmx, Z.abs_mul, (Z.abs_eq (10 ^ k)), Hk' by lia. reflexivity. }
  assert (Hbig : 10 ^ (Z.of_nat (k' + d') - 1) <= Z.abs n * 10 ^ Z.of_nat k'
                 < 10 ^ Z.of_nat (k' + d')).
  { rewrite Nat2Z.inj_add, Hk', Hd'.
    replace (k + d - 1) with (d - 1 + k) by lia.
    replace (k + d) with (d + k) by lia.
    rewrite !Z.pow_add_r by (unfold k; lia).
    split; [apply Z.mul_le_mono_nonneg_r; lia | apply Z.mul_lt_mono_pos_r; lia]. }
  assert (HM : rstrip0 (py_str (Z.abs (mantissa x))) = rstrip0 (numeral d' (Z.abs n))).
  { rewrite Habs, (py_str_positive _ (k' + d') ltac:(lia) Hbig).
    rewrite numeral_trailing_zeros. apply rstrip0_app_zeros. }
  rewrite HM.
  set (M := rstrip0 (numeral d' (Z.abs n))).
  assert (Hlen : (String.length M <= d')%nat).
  { unfold M. pose proof (rstrip0_length (numeral d' (Z.abs n))) as H.
    rewrite numeral_length in H. exact H. }
  unfold py_len. cbn [exponent x].
  replace (d - 1 + 0 + 1) with d by lia.
  destruct (Z.ltb_spec 0 d) as [_ | H]; [| lia].
  destruct (Z.ltb_spec d (Z.of_nat (String.length M))) as [H | _]; [lia |].
  destruct (Z.leb_spec d (DIGITS F + 1)) as [_ | H]; [| lia].
  cbn [andb]. f_equal.
  assert (Hrestore : (M ++ zeros (d - Z.of_nat (String.length M)))%string
                     = py_str (Z.abs n)).
  { unfold zeros.
    replace (Z.to_nat (d - Z.of_nat (String.length M)))
      with (String.length (numeral d' (Z.abs n)) - String.length M)%nat
      by (rewrite numeral_length; lia).
    unfold M. rewrite rstrip0_restore.
    symmetry. apply py_str_positive; [lia |]. rewrite Hd'. exact Hb. }
  rewrite Hrestore.
  destruct (Z.ltb_spec (mantissa x) 0) as [Hneg | Hpos].
  - assert (n < 0) by (rewrite Hmx in Hneg; nia).
    rewrite (py_str_negative n), Z.abs_neq by lia. reflexivity.
  - assert (0 < n) by (rewrite Hmx in Hpos; nia).
    rewrite Z.abs_eq by lia. reflexivity.
Qed.

(** An integer that fits the format prints as itself: for every integer
    [n] of at most [DIGITS] digits, [toString(make(n))] is [str(n)]. *)
Theorem toString_of_make (F : Floating) (n : Z) :
  supported F ->
  DIGITS F - 1 <= EXPONENT_MAX F ->
  Z.abs n < 10 ^ DIGITS F ->
  (r <- DevNum.make F n 0 ;; DevNum.toString F r None) = Ok (py_str n).
Proof. exact (toString_make F n). Qed.

Lemma toString_of_make_witness :
  (supported Fd64 /\ DIGITS Fd64 - 1 <= EXPONENT_MAX Fd64
   /\ Z.abs (-120500) < 10 ^ DIGITS Fd64) /\
  (r <- DevNum.make Fd64 (-120500) 0 ;; DevNum.toString Fd64 r None)
  = Ok (py_str (-120500)).
Proof.
  assert (H1 : supported Fd64) by (unfold supported, MAX_DIGITS; simpl; lia).
  assert (H2 : DIGITS Fd64 - 1 <= EXPONENT_MAX Fd64) by (vm_compute; congruence).
  assert (H3 : Z.abs (-120500) < 10 ^ DIGITS Fd64) by (vm_compute; reflexivity).
  split; [tauto |].
  exact (toString_of_make Fd64 (-120500) H1 H2 H3).
Defined.
